(** * leboncoin-bot: the fetch-and-extract pipeline and the rule engine

  A shallow embedding of [src/scraper.py] (correspondence filter, retrying
  fetcher, structured-data and markup extraction), of [src/filters.py]
  (exclusion rules, bonus and penalty scoring, priority tiers), of the
  commands and the notification of [src/telegram_bot.py], of the table of
  listings of [src/database.py] and of the search and processing steps of
  [src/main.py], followed by the properties proved about them.

  Conventions of the embedding.
  - A Python [str] is the [string] of its UTF-8 bytes.  Substring search,
    [startswith], [endswith] and [replace] on valid UTF-8 text coincide with
    their code-point versions.  [lower], [isdigit], [\d], [\s], [\w],
    [int()] and [len] are modelled on ASCII, [lower] also on the Latin-1
    letters (two-byte sequences led by 0xC3); other code points are left as
    they are and count as no digit and no white space.  A property that
    depends on which characters are digits is stated for ASCII text
    ([Py.is_ascii]), where the model and Python agree.
  - A Python [int] is a [Z]; [Optional[T]] is [option T]; a [dict] read by
    key is a [gmap]; a [dict] that is iterated keeps its insertion order as
    an association list.
  - Random draws and network outcomes are read from explicit oracles held
    in the state that is threaded through the fetcher; sleeping only
    leaves an event in the log. *)

From Stdlib Require Import ZArith Lia Bool List Ascii String.
From stdpp Require Import base option gmap strings pretty.
Import ListNotations.

Local Open Scope string_scope.
Local Open Scope Z_scope.

(** ** Python string primitives *)

Module Py.

Definition char_in_range (lo hi : nat) (c : ascii) : bool :=
  (Nat.leb lo (nat_of_ascii c) && Nat.leb (nat_of_ascii c) hi)%bool.

Definition is_digit (c : ascii) : bool := char_in_range 48 57 c.
Definition is_upper (c : ascii) : bool := char_in_range 65 90 c.
Definition is_alpha (c : ascii) : bool :=
  (char_in_range 65 90 c || char_in_range 97 122 c)%bool.

(** [\s]: space, [\t \n \v \f \r] and the separators 0x1c-0x1f. *)
Definition is_space (c : ascii) : bool :=
  (char_in_range 9 13 c || char_in_range 28 32 c)%bool.

(** [\w]: letters, digits, underscore; a byte of a multi-byte character
    counts as a letter. *)
Definition is_word (c : ascii) : bool :=
  (is_alpha c || is_digit c || Nat.eqb (nat_of_ascii c) 95
   || Nat.leb 128 (nat_of_ascii c))%bool.

Definition shift32 (c : ascii) : ascii := ascii_of_nat (nat_of_ascii c + 32).

(** The second byte of an upper-case Latin-1 letter (U+00C0..U+00DE
    without the multiplication sign U+00D7). *)
Definition is_latin1_upper_tail (c : ascii) : bool :=
  (char_in_range 128 158 c && negb (Nat.eqb (nat_of_ascii c) 151))%bool.

Fixpoint lower_from (after_c3 : bool) (s : string) : string :=
  match s with
  | EmptyString => EmptyString
  | String c t =>
      let c' :=
        if (after_c3 && is_latin1_upper_tail c)%bool then shift32 c
        else if is_upper c then shift32 c
        else c in
      String c' (lower_from (Nat.eqb (nat_of_ascii c) 195) t)
  end.

(** [s.lower()] *)
Definition lower (s : string) : string := lower_from false s.

(** [s.upper()], on ASCII letters. *)
Fixpoint upper (s : string) : string :=
match s with
| EmptyString => EmptyString
| String c t =>
    String (if char_in_range 97 122 c then ascii_of_nat (nat_of_ascii c - 32) else c)
      (upper t)
end.

Fixpoint all_chars (p : ascii -> bool) (s : string) : bool :=
  match s with
  | EmptyString => true
  | String c t => (p c && all_chars p t)%bool
  end.

(** The text holds ASCII characters only: on such text the digit tests,
    [int()] and the length in characters are those of Python. *)
Definition is_ascii (s : string) : bool :=
  all_chars (fun c => Nat.ltb (nat_of_ascii c) 128) s.

(** [s.isdigit()]: at least one character and only digits. *)
Definition isdigit (s : string) : bool :=
  match s with
  | EmptyString => false
  | _ => all_chars is_digit s
  end.

(** [bool(s)] *)
Definition truthy (s : string) : bool :=
  match s with EmptyString => false | _ => true end.

(** [s.startswith(p)] *)
Fixpoint startswith (p s : string) : bool :=
  match p, s with
  | EmptyString, _ => true
  | String a p', String b s' => (Ascii.eqb a b && startswith p' s')%bool
  | String _ _, EmptyString => false
  end.

(** [needle in hay] *)
Fixpoint contains (needle hay : string) : bool :=
  (startswith needle hay ||
   match hay with
   | EmptyString => false
   | String _ t => contains needle t
   end)%bool.

Fixpoint drop (n : nat) (s : string) : string :=
  match n, s with
  | O, _ => s
  | S n', String _ t => drop n' t
  | S _, EmptyString => EmptyString
  end.

(** [s.endswith(suffix)] *)
Definition endswith (suffix s : string) : bool :=
  (Nat.leb (String.length suffix) (String.length s)
   && String.eqb (drop (String.length s - String.length suffix) s) suffix)%bool.

(** [s.replace(old, new)], left to right over non-overlapping occurrences:
    [skip] counts the characters of the occurrence just replaced that are
    still to be passed over. *)
Fixpoint replace_from (old new : string) (skip : nat) (s : string) : string :=
  match s with
  | EmptyString => EmptyString
  | String c t =>
      match skip with
      | S k => replace_from old new k t
      | O =>
          if startswith old s
          then new ++ replace_from old new (String.length old - 1) t
          else String c (replace_from old new O t)
      end
  end.

Fixpoint interleave (new s : string) : string :=
  match s with
  | EmptyString => new
  | String c t => new ++ String c (interleave new t)
  end.

Definition replace (old new s : string) : string :=
  match old with
  | EmptyString => interleave new s
  | _ => replace_from old new O s
  end.

(** The characters [int()] skips around an ASCII literal: the space and
    [\t \n \v \f \r] (not the separators 0x1c-0x1f, which [str.strip]
    removes). *)
Definition is_int_space (c : ascii) : bool :=
  (char_in_range 9 13 c || Nat.eqb (nat_of_ascii c) 32)%bool.

Fixpoint lstrip (p : ascii -> bool) (s : string) : string :=
  match s with
  | String c t => if p c then lstrip p t else s
  | EmptyString => EmptyString
  end.

Fixpoint rstrip (p : ascii -> bool) (s : string) : string :=
match s with
| EmptyString => EmptyString
| String c t =>
    match rstrip p t with
    | EmptyString => if p c then EmptyString else String c EmptyString
    | t' => String c t'
    end
end.

(** Value of a run of decimal digits read after the accumulator [acc]. *)
Fixpoint digits_value (acc : Z) (s : string) : Z :=
  match s with
  | EmptyString => acc
  | String c t => digits_value (10 * acc + Z.of_nat (nat_of_ascii c - 48)) t
  end.

(** Digits with single underscores between them, as [int()] accepts. *)
Fixpoint int_body (prev_digit : bool) (acc : Z) (s : string) : option Z :=
  match s with
  | EmptyString => if prev_digit then Some acc else None
  | String c t =>
      if is_digit c
      then int_body true (10 * acc + Z.of_nat (nat_of_ascii c - 48)) t
      else if (Nat.eqb (nat_of_ascii c) 95 && prev_digit)%bool
      then int_body false acc t
      else None
  end.

(** [int(s)] on ASCII text: [None] stands for [ValueError]. *)
Definition int (s : string) : option Z :=
match rstrip is_int_space (lstrip is_int_space s) with
| EmptyString => None
| String c t =>
    if Ascii.eqb c "-" then Z.opp <$> int_body false 0 t
    else if Ascii.eqb c "+" then int_body false 0 t
    else int_body false 0 (String c t)
end.

(** [str(n)] for an integer. *)
Definition str_of_int (n : Z) : string := pretty n.

(** The longest prefix of [s] whose characters satisfy [p], and the rest. *)
Fixpoint span (p : ascii -> bool) (s : string) : string * string :=
  match s with
  | String c t =>
      if p c then let '(a, b) := span p t in (String c a, b)
      else (EmptyString, s)
  | EmptyString => (EmptyString, EmptyString)
  end.

(** [sep.join(parts)] *)
Fixpoint join (sep : string) (parts : list string) : string :=
match parts with
| [] => EmptyString
| [p] => p
| p :: rest => p ++ sep ++ join sep rest
end.

(** [d[key] = value] on a dictionary kept in insertion order: an existing
  key keeps its place. *)
Fixpoint setitem (key value : string) (d : list (string * string))
  : list (string * string) :=
match d with
| [] => [(key, value)]
| (k, v) :: rest =>
    if String.eqb k key then (k, value) :: rest
    else (k, v) :: setitem key value rest
end.

(** [d.update(other)] *)
Definition update (d other : list (string * string)) : list (string * string) :=
fold_left (fun acc kv => setitem (fst kv) (snd kv) acc) other d.

Definition hex_digit (n : nat) : ascii :=
ascii_of_nat (if Nat.ltb n 10 then 48 + n else 55 + n).

(** [urllib.parse.quote_plus] of one byte. *)
Definition quote_plus_char (c : ascii) : string :=
if (is_alpha c || is_digit c)%bool then String c EmptyString
else if existsb (Ascii.eqb c) ["_"; "."; "-"; "~"]%char then String c EmptyString
else if Ascii.eqb c " " then "+"
else String "%" (String (hex_digit (nat_of_ascii c / 16))
                   (String (hex_digit (nat_of_ascii c mod 16)) EmptyString)).

Fixpoint quote_plus (s : string) : string :=
match s with
| EmptyString => EmptyString
| String c t => quote_plus_char c ++ quote_plus t
end.

(** [urllib.parse.urlencode] of a dictionary of strings. *)
Definition urlencode (d : list (string * string)) : string :=
join "&" (map (fun kv => quote_plus (fst kv) ++ "=" ++ quote_plus (snd kv)) d).

(** [dict.get(key, default)] *)
Definition get {V} (m : gmap string V) (key : string) (dflt : V) : V :=
  default dflt (m !! key).

End Py.

(** ** scraper.py: listings and the correspondence filter *)

Module Scraper.

(** [USER_AGENTS] *)
Definition USER_AGENTS : list string :=
  [ "Mozilla/5.0 (Windows NT 10.0; Win64; x64) AppleWebKit/537.36 (KHTML, like Gecko) Chrome/120.0.0.0 Safari/537.36";
    "Mozilla/5.0 (Windows NT 10.0; Win64; x64; rv:121.0) Gecko/20100101 Firefox/121.0";
    "Mozilla/5.0 (Macintosh; Intel Mac OS X 10_15_7) AppleWebKit/537.36 (KHTML, like Gecko) Chrome/120.0.0.0 Safari/537.36";
    "Mozilla/5.0 (X11; Linux x86_64) AppleWebKit/537.36 (KHTML, like Gecko) Chrome/120.0.0.0 Safari/537.36";
    "Mozilla/5.0 (Windows NT 10.0; Win64; x64) AppleWebKit/537.36 (KHTML, like Gecko) Chrome/119.0.0.0 Safari/537.36 Edg/119.0.0.0" ].

Definition BASE_URL : string := "https://www.leboncoin.fr".

(** The value of the key [list_id] of an ad record. *)
Inductive IdValue :=
| IdNull
| IdBool (b : bool)
| IdInt (n : Z)
| IdStr (s : string).

(** The value of the key [price]: a scalar or a sequence. *)
Inductive PriceValue :=
| PriceScalar (p : Z)
| PriceList (ps : list Z).

(** One entry of the [attributes] array; [None] is an absent key. *)
Record Attribute := {
  attr_key : option string;
  attr_value : option string;
}.

Record Images := {
  urls : option (list string);
  small_url : option string;
}.

(** An ad record of the embedded structured-data document, at the shape
    the source reads it; [None] is an absent key. *)
Record Ad := {
  list_id : option IdValue;
  subject : option string;
  body : option string;
  price_field : option PriceValue;
  attributes : option (list Attribute);
  images : option Images;
  location_city : option (option string);
}.

(** [CarListing] *)
Record CarListing := {
  listing_id : string;
  url : string;
  title : string;
  price : option Z;
  mileage : option Z;
  year : option Z;
  fuel : option string;
  gearbox : option string;
  brand : option string;
  model : option string;
  engine : option string;
  location : option string;
  description : option string;
  image_url : option string;
  raw_data : option Ad;
}.

(** [brand_aliases.get(search_brand_lower, [search_brand_lower])] *)
Definition search_brands (search_brand_lower : string) : list string :=
  if String.eqb search_brand_lower "citroen" then ["citroën"; "citroen"]
  else if String.eqb search_brand_lower "citroën" then ["citroën"; "citroen"]
  else [search_brand_lower].

(** [any(p in a or p in b for p in patterns)] *)
Definition any_in (patterns : list string) (a b : string) : bool :=
  existsb (fun p => (Py.contains p a || Py.contains p b)%bool) patterns.

(** The strict patterns of a short numeric model token. *)
Definition strict_patterns (search_brand_lower search_model_lower : string)
  : list string :=
  [ search_brand_lower ++ " " ++ search_model_lower;
    search_brand_lower ++ search_model_lower ++ " ";
    search_brand_lower ++ search_model_lower ++ ",";
    " " ++ search_model_lower ++ " " ].

Definition model_patterns (search_model_lower : string) : list string :=
  [ search_model_lower;
    " " ++ search_model_lower ++ " ";
    " " ++ search_model_lower ++ ",";
    " " ++ search_model_lower ++ "." ].

(** [CarListing.matches_search] *)
Definition matches_search (self : CarListing) (search_brand : string)
    (search_model : option string) : bool :=
  let title_lower := if Py.truthy (title self) then Py.lower (title self) else "" in
  let brand_lower := Py.lower (default "" (brand self)) in
  let model_lower := Py.lower (default "" (model self)) in
  let search_brand_lower := Py.lower search_brand in
  let search_model_lower := Py.lower (default "" search_model) in
  let brand_match :=
    any_in (search_brands search_brand_lower) brand_lower title_lower in
  if negb brand_match then false
  else if negb (Py.truthy (default "" search_model)) then true
  else if (Py.truthy model_lower && Py.contains search_model_lower model_lower)%bool
  then true
  else if (Py.isdigit search_model_lower
           && Nat.leb (String.length search_model_lower) 2)%bool
  then
    if Py.endswith (" " ++ search_model_lower) title_lower then true
    else if Py.endswith (search_brand_lower ++ search_model_lower) title_lower
    then true
    else existsb (fun p => Py.contains p title_lower)
           (strict_patterns search_brand_lower search_model_lower)
  else any_in (model_patterns search_model_lower) title_lower model_lower.


(** *** Regular-expression searches of the extractor *)

(** [re.search] for a run of one or more digits: the leftmost, longest one. *)
Fixpoint search_digits (s : string) : option string :=
  match s with
  | EmptyString => None
  | String c t =>
      if Py.is_digit c then Some (fst (Py.span Py.is_digit s))
      else search_digits t
  end.

Definition four_digits_here (s : string) : option string :=
  match s with
  | String a (String b (String c (String d _))) =>
      if (Py.is_digit a && Py.is_digit b && Py.is_digit c && Py.is_digit d)%bool
      then Some (String a (String b (String c (String d EmptyString))))
      else None
  | _ => None
  end.

(** [re.search] for four digits in a row: the leftmost ones. *)
Fixpoint search_four_digits (s : string) : option string :=
  match four_digits_here s with
  | Some m => Some m
  | None =>
      match s with
      | EmptyString => None
      | String _ t => search_four_digits t
      end
  end.

Definition listing_id_here (s : string) : option string :=
  match s with
  | String "/" t =>
      let '(ds, rest) := Py.span Py.is_digit t in
      if (Py.truthy ds && Py.startswith ".htm" rest)%bool then Some ds else None
  | _ => None
  end.

(** [re.search] for a slash, one or more digits (group 1) and [.htm]. *)
Fixpoint search_listing_id (s : string) : option string :=
  match listing_id_here s with
  | Some m => Some m
  | None =>
      match s with
      | EmptyString => None
      | String _ t => search_listing_id t
      end
  end.

(** [re.search] for a digit followed by digits and white space, as many as
    there are. *)
Fixpoint search_price_text (s : string) : option string :=
  match s with
  | EmptyString => None
  | String c t =>
      if Py.is_digit c
      then Some (String c
             (fst (Py.span (fun x => (Py.is_digit x || Py.is_space x)%bool) t)))
      else search_price_text t
  end.

(** *** Structured-data path *)

(** [str(ad.get(list_id, empty))] *)
Definition str_of_list_id (v : option IdValue) : string :=
  match v with
  | None => ""
  | Some IdNull => "None"
  | Some (IdBool true) => "True"
  | Some (IdBool false) => "False"
  | Some (IdInt n) => Py.str_of_int n
  | Some (IdStr s) => s
  end.

(** The dictionary comprehension over [ad.get("attributes", [])]: entries
    with a non-empty key and a non-empty value, a later one replacing an
    earlier one of the same key. *)
Definition collect_attributes (attrs : list Attribute) : gmap string string :=
  fold_left
    (fun (acc : gmap string string) a =>
       match attr_key a, attr_value a with
       | Some k, Some v =>
           if (Py.truthy k && Py.truthy v)%bool then <[k := v]> acc else acc
       | _, _ => acc
       end)
    attrs ∅.

(** The mileage of [_parse_ad_json]; the outer [None] is an exception. *)
Definition parse_mileage (attrs : gmap string string) : option (option Z) :=
  let mileage_str := Py.get attrs "mileage" "" in
  if Py.truthy mileage_str then
    match search_digits (Py.replace " " "" mileage_str) with
    | Some g => n ← Py.int g; Some (Some n)
    | None => Some None
    end
  else Some None.

(** The year of [_parse_ad_json]; the outer [None] is an exception. *)
Definition parse_year (attrs : gmap string string) : option (option Z) :=
  let regdate := Py.get attrs "regdate" "" in
  if Py.truthy regdate then
    match search_four_digits regdate with
    | Some g => n ← Py.int g; Some (Some n)
    | None => Some None
    end
  else Some None.

Definition parse_image_url (ad : Ad) : option string :=
  let imgs := default {| urls := None; small_url := None |} (images ad) in
  match urls imgs with
  | Some (u :: _) => Some u
  | _ =>
      match small_url imgs with
      | Some u => if Py.truthy u then Some u else None
      | None => None
      end
  end.

(** The [price] argument; the outer [None] is the [IndexError] of an
    empty sequence. *)
Definition parse_price (ad : Ad) : option (option Z) :=
  match price_field ad with
  | Some (PriceList []) => None
  | Some (PriceList (p :: _)) => Some (Some p)
  | Some (PriceScalar p) => Some (Some p)
  | None => Some None
  end.

(** [LeboncoinScraper._parse_ad_json]: [None] is returned for a record
    without id and when an exception is caught. *)
Definition _parse_ad_json (ad : Ad) (brand : string) (model : option string)
  : option CarListing :=
  let listing_id := str_of_list_id (list_id ad) in
  if negb (Py.truthy listing_id) then None
  else
    let attrs := collect_attributes (default [] (attributes ad)) in
    mileage ← parse_mileage attrs;
    year ← parse_year attrs;
    let image_url := parse_image_url ad in
    let actual_brand := Py.get attrs "brand" brand in
    let actual_model :=
      match attrs !! "model" with Some m => Some m | None => model end in
    price ← parse_price ad;
    Some {| listing_id := listing_id;
            url := BASE_URL ++ "/ad/voitures/" ++ listing_id ++ ".htm";
            title := default "Sans titre" (subject ad);
            price := price;
            mileage := mileage;
            year := year;
            fuel := Some (Py.get attrs "fuel" "");
            gearbox := Some (Py.get attrs "gearbox" "");
            brand := Some actual_brand;
            model := actual_model;
            engine := Some (Py.get attrs "vehicle_engine" "");
            location := Some (default "" (default None (location_city ad)));
            description := Some (default "" (body ad));
            image_url := image_url;
            raw_data := Some ad |}.

(** *** Markup-fallback path *)

(** An anchor element found by the scan: its [href] attribute and the
    stripped text of its title-like and price-like descendants, [None]
    where there is none. *)
Record Card := {
  href : option string;
  title_text : option string;
  price_text : option string;
}.

Inductive CardResult :=
| Skipped
| Failed
| Parsed (l : CarListing).

(** The body of the loop over the cards: [Skipped] is a [continue],
    [Failed] an exception caught by the loop. *)
Definition parse_card (card : Card) (brand : string) (model : option string)
  : CardResult :=
  let href := default "" (href card) in
  if (negb (Py.truthy href) || negb (Py.contains "/ad/" href))%bool then Skipped
  else
    match search_listing_id href with
    | None => Skipped
    | Some listing_id =>
        let title := default "Sans titre" (title_text card) in
        let price :=
          match price_text card with
          | Some price_text =>
              match search_price_text (Py.replace " " "" price_text) with
              | Some g => Some <$> Py.int (Py.replace " " "" g)
              | None => Some None
              end
          | None => Some None
          end in
        match price with
        | None => Failed
        | Some price =>
            Parsed
              {| listing_id := listing_id;
                 url := if Py.startswith "/" href then BASE_URL ++ href else href;
                 title := title;
                 price := price;
                 mileage := None; year := None; fuel := None; gearbox := None;
                 brand := Some brand;
                 model := model;
                 engine := None; location := None; description := None;
                 image_url := None; raw_data := None |}
        end
    end.

(** What the parsers of markup and JSON give for a response body: the
    document of the script [__NEXT_DATA__] and the anchors found by the
    marker attribute and by the class pattern.  [SearchData] is a document
    in which the path to [ads] leads to a list of records, an absent key
    standing for the empty list; a document of another shape, on which the
    walk along the path raises, has no value here. *)
Inductive NextData :=
| NoScript
| Malformed
| SearchData (ads : list Ad).

Record Page := {
  next_data : NextData;
  cards_by_test_id : list Card;
  cards_by_class : list Card;
}.

(** [LeboncoinScraper._parse_html_fallback] *)
Definition _parse_html_fallback (soup : Page) (brand : string)
    (model : option string) : list CarListing :=
  let ad_cards :=
    match cards_by_test_id soup with
    | [] => cards_by_class soup
    | cs => cs
    end in
  omap (fun card =>
          match parse_card card brand model with
          | Parsed l => Some l
          | _ => None
          end) ad_cards.

(** [LeboncoinScraper._parse_search_results] *)
Definition _parse_search_results (soup : Page) (brand : string)
    (model : option string) : list CarListing :=
  let listings :=
    match next_data soup with
    | SearchData ads => omap (fun ad => _parse_ad_json ad brand model) ads
    | _ => []
    end in
  match listings with
  | [] => _parse_html_fallback soup brand model
  | _ => listings
  end.

(** *** Request parameters *)

(** [BRAND_MAPPING] *)
Definition BRAND_MAPPING : gmap string string :=
list_to_map
  [ ("mazda", "mazda"); ("honda", "honda"); ("suzuki", "suzuki");
    ("seat", "seat"); ("peugeot", "peugeot"); ("citroen", "citroen");
    ("citroën", "citroen"); ("renault", "renault"); ("toyota", "toyota") ].

Definition fuel_mapping : gmap string string :=
list_to_map
  [ ("essence", "1"); ("diesel", "2"); ("hybride", "3");
    ("electrique", "4"); ("gpl", "5") ].

Definition gearbox_mapping : gmap string string :=
list_to_map [ ("manuelle", "1"); ("automatique", "2") ].

Definition truthy_int (n : Z) : bool := negb (n =? 0).

(** [LeboncoinScraper._build_search_params] *)
Definition _build_search_params (brand : string) (model : option string)
  (max_price max_km min_year : Z) (fuel gearbox : string)
  : list (string * string) :=
let params :=
  [ ("category", "2");
    ("fuel", Py.get fuel_mapping (Py.lower fuel) "1");
    ("gearbox", Py.get gearbox_mapping (Py.lower gearbox) "1");
    ("owner_type", "all");
    ("sort", "time");
    ("order", "desc") ] in
let params :=
  if truthy_int max_price
  then Py.setitem "price" ("0-" ++ Py.str_of_int max_price) params else params in
let params :=
  if truthy_int max_km
  then Py.setitem "mileage" ("0-" ++ Py.str_of_int max_km) params else params in
let params :=
  if truthy_int min_year
  then Py.setitem "regdate"
         (Py.str_of_int min_year ++ "-" ++ Py.str_of_int 2025) params
  else params in
let brand_normalized := Py.get BRAND_MAPPING (Py.lower brand) (Py.lower brand) in
let params := Py.setitem "brand" brand_normalized params in
match model with
| Some m => if Py.truthy m then Py.setitem "model" (Py.lower m) params else params
| None => params
end.

Definition SEARCH_URL : string := BASE_URL ++ "/recherche".

(** [LeboncoinScraper._build_search_url] *)
Definition _build_search_url (params : list (string * string)) : string :=
let base_params := [ ("category", "2"); ("sort", "time"); ("order", "desc") ] in
SEARCH_URL ++ "?" ++ Py.urlencode (Py.update base_params params).

(** *** The fetcher *)

(** [httpx.Response], with the body in its parsed form. *)
Record Response := {
  status_code : Z;
  text : Page;
}.

(** What one call of [client.get] or [client.post] does: it returns a
  response or raises one of the two exceptions the source catches. *)
Inductive Outcome :=
| Answered (r : Response)
| TimeoutException
| RequestError.

(** [httpx.Client]: the header set it was built with. *)
Record Client := {
  headers : list (string * string);
}.

Inductive Event :=
| RateLimitWait
| Drew (index : nat)
| Requested (method : string) (target : string) (client : Client)
| BackoffSleep (attempt : Z).

(** The two oracles: the index returned by the k-th call of
  [random.choice] and the outcome of the k-th request that is issued. *)
Record Env := {
  choice : nat -> nat;
  server : nat -> Outcome;
}.

(** The scraper object ([max_retries], [_client]) and the run so far
  (number of draws, number of requests, events in the order they happened). *)
Record State := {
  max_retries : Z;
  _client : option Client;
  draws : nat;
  requests : nat;
  trace : list Event;
}.

Definition record (ev : Event) (st : State) : State :=
{| max_retries := max_retries st; _client := _client st; draws := draws st;
   requests := requests st; trace := (trace st ++ [ev])%list |}.

Definition set_client (c : option Client) (st : State) : State :=
{| max_retries := max_retries st; _client := c; draws := draws st;
   requests := requests st; trace := trace st |}.

(** [random.choice(pool)] *)
Definition random_choice (env : Env) (pool : list string) (st : State)
  : string * State :=
let i := (choice env (draws st) mod length pool)%nat in
(nth i pool EmptyString,
 record (Drew i)
   {| max_retries := max_retries st; _client := _client st;
      draws := S (draws st); requests := requests st; trace := trace st |}).

(** [LeboncoinScraper._get_headers] *)
Definition _get_headers (env : Env) (st : State)
  : list (string * string) * State :=
let '(ua, st) := random_choice env USER_AGENTS st in
([ ("User-Agent", ua);
   ("Accept", "text/html,application/xhtml+xml,application/xml;q=0.9,image/avif,image/webp,*/*;q=0.8");
   ("Accept-Language", "fr-FR,fr;q=0.9,en-US;q=0.8,en;q=0.7");
   ("Accept-Encoding", "gzip, deflate, br");
   ("Connection", "keep-alive");
   ("Upgrade-Insecure-Requests", "1");
   ("Sec-Fetch-Dest", "document");
   ("Sec-Fetch-Mode", "navigate");
   ("Sec-Fetch-Site", "none");
   ("Sec-Fetch-User", "?1");
   ("Cache-Control", "max-age=0") ], st).

(** [LeboncoinScraper._get_client] *)
Definition _get_client (env : Env) (st : State) : Client * State :=
match _client st with
| Some c => (c, st)
| None =>
    let '(h, st) := _get_headers env st in
    let c := {| headers := h |} in
    (c, set_client (Some c) st)
end.

(** [LeboncoinScraper._respect_rate_limit]: the wait itself is not
  modelled, only that it happens. *)
Definition _respect_rate_limit (st : State) : State := record RateLimitWait st.

(** One call of [client.get] or [client.post]. *)
Definition send (env : Env) (client : Client) (url method : string) (st : State)
  : Outcome * State :=
let verb := if String.eqb (Py.upper method) "POST" then "POST" else "GET" in
(server env (requests st),
 record (Requested verb url client)
   {| max_retries := max_retries st; _client := _client st; draws := draws st;
      requests := S (requests st); trace := trace st |}).

(** The exponential backoff after the attempt numbered [attempt]. *)
Definition backoff (attempt : Z) (st : State) : State :=
if attempt <? max_retries st - 1 then record (BackoffSleep attempt) st else st.

(** The loop [for attempt in range(self.max_retries)] of [_make_request],
  over the attempt numbers still to run. *)
Fixpoint attempts (env : Env) (client : Client) (url method : string)
  (todo : list Z) (st : State) : option Response * State :=
match todo with
| [] => (None, st)
| attempt :: rest =>
    let '(outcome, st) := send env client url method st in
    match outcome with
    | Answered response =>
        if status_code response =? 200 then (Some response, st)
        else
          let st :=
            if status_code response =? 403 then set_client None st else st in
          attempts env client url method rest (backoff attempt st)
    | TimeoutException | RequestError =>
        attempts env client url method rest (backoff attempt st)
    end
end.

(** [range(n)] *)
Definition range (n : Z) : list Z := map Z.of_nat (seq 0 (Z.to_nat n)).

(** [LeboncoinScraper._make_request] *)
Definition _make_request (env : Env) (url method : string) (st : State)
  : option Response * State :=
let st := _respect_rate_limit st in
let '(client, st) := _get_client env st in
attempts env client url method (range (max_retries st)) st.

(** [xs[:n]] *)
Definition slice_to {A} (n : Z) (xs : list A) : list A :=
if 0 <=? n then firstn (Z.to_nat n) xs
else firstn (length xs - Z.to_nat (- n)) xs.

(** [LeboncoinScraper.search_cars] *)
Definition search_cars (env : Env) (brand : string) (model : option string)
  (max_price max_km min_year : Z) (fuel gearbox : string) (max_results : Z)
  (st : State) : list CarListing * State :=
let params :=
  _build_search_params brand model max_price max_km min_year fuel gearbox in
let search_url := _build_search_url params in
let '(response, st) := _make_request env search_url "GET" st in
match response with
| None => ([], st)
| Some response =>
    let listings := _parse_search_results (text response) brand model in
    let filtered_listings :=
      filter (fun listing => matches_search listing brand model) listings in
    (slice_to max_results filtered_listings, st)
end.

End Scraper.

(** ** filters.py: the rule engine *)

Module Filters.

(** [ScoreResult] *)
Record ScoreResult := {
  total_score : Z;
  priority : string;
  bonuses : list string;
  penalties : list string;
  warnings : list string;
  excluded : bool;
  exclusion_reason : option string;
}.

(** [ScoreResult()] *)
Definition ScoreResult_default : ScoreResult :=
{| total_score := 0; priority := "low"; bonuses := []; penalties := [];
   warnings := []; excluded := false; exclusion_reason := None |}.

(** One entry of [brand_exclusions]; a key that the document leaves out
  has the default the source reads it with (empty list, empty reason,
  false). *)
Record BrandRules := {
  engines : list string;
  transmissions : list string;
  reason : string;
  require_manual : bool;
  accepted_engines : list string;
}.

(** The section [general] of the criteria document; [None] is an absent
  key. *)
Record General := {
  max_price : option Z;
  max_km : option Z;
  min_year : option Z;
  gearbox : option string;
  fuel : option string;
}.

(** The section [scoring]: its sub-section [high_priority_models] and its
  own weights. *)
Record Scoring := {
  high_priority_models : gmap string Z;
  weights : gmap string Z;
}.

Record Criteria := {
  general : General;
  scoring : Scoring;
  priority_thresholds : gmap string Z;
}.

(** The exclusions document: [blacklist_keywords] is iterated, so it keeps
  the order of its categories. *)
Record Exclusions := {
  blacklist_keywords : list (string * list string);
  brand_exclusions : gmap string BrandRules;
  positive_keywords : gmap string (list string);
}.

(** [CarFilter] *)
Record CarFilter := {
  criteria : Criteria;
  exclusions : Exclusions;
  high_threshold : Z;
  medium_threshold : Z;
}.

(** [CarFilter.__init__], from the two documents as loaded. *)
Definition init (criteria : Criteria) (exclusions : Exclusions) : CarFilter :=
{| criteria := criteria; exclusions := exclusions;
   high_threshold := default 15 (priority_thresholds criteria !! "high");
   medium_threshold := default 10 (priority_thresholds criteria !! "medium") |}.

(** [CarFilter.set_high_threshold] *)
Definition set_high_threshold (self : CarFilter) (value : Z) : CarFilter :=
{| criteria := criteria self; exclusions := exclusions self;
   high_threshold := value; medium_threshold := medium_threshold self |}.

Definition replacements : list (string * string) :=
[ ("é", "e"); ("è", "e"); ("ê", "e"); ("ë", "e"); ("à", "a"); ("â", "a");
  ("ù", "u"); ("û", "u"); ("ô", "o"); ("î", "i"); ("ï", "i"); ("ç", "c") ].

(** [CarFilter._normalize_text] *)
Definition _normalize_text (text : string) : string :=
if negb (Py.truthy text) then EmptyString
else
  fold_left (fun t r => Py.replace (fst r) (snd r) t) replacements (Py.lower text).

(** The first keyword of [keywords] whose normalised form occurs in the
  normalised text. *)
Fixpoint first_keyword_in (text_normalized : string) (keywords : list string)
  : option string :=
match keywords with
| [] => None
| keyword :: rest =>
    if Py.contains (_normalize_text keyword) text_normalized then Some keyword
    else first_keyword_in text_normalized rest
end.

Fixpoint scan_blacklist (text_normalized : string)
  (blacklist : list (string * list string)) : bool * option string :=
match blacklist with
| [] => (false, None)
| (category, keywords) :: rest =>
    match first_keyword_in text_normalized keywords with
    | Some keyword => (true, Some keyword)
    | None => scan_blacklist text_normalized rest
    end
end.

(** [CarFilter._check_blacklist] *)
Definition _check_blacklist (self : CarFilter) (text : string)
  : bool * option string :=
scan_blacklist (_normalize_text text) (blacklist_keywords (exclusions self)).

(** The first pattern whose lower-case form occurs in [text]. *)
Fixpoint first_pattern_in (text : string) (patterns : list string) : option string :=
match patterns with
| [] => None
| p :: rest =>
    if Py.contains (Py.lower p) text then Some p else first_pattern_in text rest
end.

(** One position of the search for a word boundary, [1.2] or [1.4], white
  space, [tsi] or [tdi], and a word boundary. *)
Definition tsi_tdi_here (after_word : bool) (s : string) : bool :=
match s with
| String "1" (String "." (String d rest)) =>
    if (negb after_word && (Ascii.eqb d "2" || Ascii.eqb d "4"))%bool then
      let code := snd (Py.span Py.is_space rest) in
      ((Py.startswith "tsi" code || Py.startswith "tdi" code)
       && match Py.drop 3 code with
          | String c _ => negb (Py.is_word c)
          | EmptyString => true
          end)%bool
    else false
| _ => false
end.

Fixpoint search_tsi_tdi_from (after_word : bool) (s : string) : bool :=
(tsi_tdi_here after_word s ||
 match s with
 | EmptyString => false
 | String c t => search_tsi_tdi_from (Py.is_word c) t
 end)%bool.

(** [re.search(tsi_tdi_pattern, text, re.IGNORECASE)] on a lower-case text. *)
Definition search_tsi_tdi (text : string) : bool := search_tsi_tdi_from false text.

(** [CarFilter._check_brand_exclusions] *)
Definition _check_brand_exclusions (self : CarFilter)
  (brand title description engine : string)
  : bool * option string * list string :=
let brand_lower := if Py.truthy brand then Py.lower brand else EmptyString in
let text := Py.lower (title ++ " " ++ description ++ " " ++ engine) in
let warnings : list string := [] in
match brand_exclusions (exclusions self) !! brand_lower with
| None => (false, None, warnings)
| Some brand_rules =>
    match first_pattern_in text (engines brand_rules) with
    | Some engine_pattern =>
        (true,
         Some ("Moteur exclu: " ++ engine_pattern ++ " - " ++ reason brand_rules),
         warnings)
    | None =>
    match first_pattern_in text (transmissions brand_rules) with
    | Some trans =>
        (true,
         Some ("Transmission exclue: " ++ trans ++ " - " ++ reason brand_rules),
         warnings)
    | None =>
        let warnings :=
          if (require_manual brand_rules
              && negb (Py.contains "manuelle" text)
              && negb (Py.contains "manuel" text))%bool
          then (warnings ++ ["Vérifier absence CVT/automatique"])%list
          else warnings in
        if String.eqb brand_lower "seat" then
          let engine_detected :=
            match first_pattern_in text (accepted_engines brand_rules) with
            | Some _ => true
            | None => false
            end in
          if (search_tsi_tdi text && negb engine_detected)%bool
          then (true, Some "Seat Ibiza avec moteur TSI/TDI exclu", warnings)
          else (false, None, warnings)
        else (false, None, warnings)
    end
    end
end.

(** [points += p; bonuses.append(label)] *)
Definition award (p : Z) (label : string) (acc : Z * list string)
  : Z * list string :=
(fst acc + p, (snd acc ++ [label])%list).

(** The loop over the maintenance keywords: the first keyword that occurs
  in the text awards one bonus and ends the loop. *)
Fixpoint maintenance_bonus (self : CarFilter) (text : string)
  (keywords : list string) (acc : Z * list string) : Z * list string :=
match keywords with
| [] => acc
| kw :: rest =>
    if Py.contains (_normalize_text kw) (_normalize_text text) then
      if Py.contains "distribution" (Py.lower kw)
      then award (Py.get (weights (scoring (criteria self))) "distribution_done" 3)
             "+3 Distribution mentionnée" acc
      else if (Py.contains "chaîne" (Py.lower kw)
               || Py.contains "chaine" (Py.lower kw))%bool
      then award (Py.get (weights (scoring (criteria self))) "chain_engine" 3)
             "+3 Moteur chaîne" acc
      else award (Py.get (weights (scoring (criteria self))) "history_mentioned" 3)
             "+3 Entretien suivi" acc
    else maintenance_bonus self text rest acc
end.

(** The bonuses of the priority models. *)
Definition model_bonuses (self : CarFilter) (brand_lower model_lower text : string)
  (acc : Z * list string) : Z * list string :=
let models := high_priority_models (scoring (criteria self)) in
let acc :=
  if (String.eqb brand_lower "mazda" && Py.contains "2" model_lower
      && (Py.contains "essence" text || Py.contains "chaîne" text
          || Py.contains "chaine" text))%bool
  then award (Py.get models "mazda_2_essence" 10) "+10 Mazda 2 essence/chaîne" acc
  else acc in
let acc :=
  if (String.eqb brand_lower "honda" && Py.contains "jazz" model_lower
      && (Py.contains "manuelle" text || Py.contains "manuel" text))%bool
  then award (Py.get models "honda_jazz_manuelle" 10) "+10 Honda Jazz manuelle" acc
  else acc in
let acc :=
  if (String.eqb brand_lower "suzuki" && Py.contains "swift" model_lower)%bool
  then award (Py.get models "swift_3_post_2010" 10) "+10 Suzuki Swift 3" acc
  else acc in
let acc :=
  if (String.eqb brand_lower "seat" && Py.contains "ibiza" model_lower
      && (Py.contains "1.4 16v" text || Py.contains "1.2 12v" text
          || Py.contains "atmosphérique" text || Py.contains "atmo" text))%bool
  then award (Py.get models "seat_ibiza_atmo" 5) "+5 Seat Ibiza atmosphérique" acc
  else acc in
if (String.eqb brand_lower "toyota" && Py.contains "yaris" model_lower)%bool
then award (Py.get models "toyota_yaris" 5) "+5 Toyota Yaris" acc
else acc.

(** [CarFilter._calculate_bonus_points] *)
Definition _calculate_bonus_points (self : CarFilter)
  (brand model title description : string) (price mileage : Z)
  : Z * list string :=
let text := Py.lower (title ++ " " ++ description) in
let brand_lower := Py.lower brand in
let model_lower := Py.lower model in
let w := weights (scoring (criteria self)) in
let acc := model_bonuses self brand_lower model_lower text (0, []) in
let acc :=
  maintenance_bonus self text
    (Py.get (positive_keywords (exclusions self)) "maintenance" []) acc in
let acc :=
  if (negb (price =? 0) && (price <? 2500))%bool
  then award (Py.get w "price_under_2500" 2) "+2 Prix < 2500€" acc
  else acc in
if (negb (mileage =? 0) && (mileage <? 100000))%bool
then award (Py.get w "km_under_100000" 2) "+2 Km < 100 000" acc
else acc.

(** [blacklist.get(key, [])] on the ordered dictionary. *)
Fixpoint category (key : string) (blacklist : list (string * list string))
  : list string :=
match blacklist with
| [] => []
| (k, keywords) :: rest =>
    if String.eqb k key then keywords else category key rest
end.

(** [CarFilter._calculate_penalty_points] *)
Definition _calculate_penalty_points (self : CarFilter)
  (brand title description fuel : string) : Z * list string :=
let text := Py.lower (title ++ " " ++ description ++ " " ++ fuel) in
let w := weights (scoring (criteria self)) in
let acc : Z * list string := (0, []) in
let acc :=
  if (Py.contains "diesel" text
      || (Py.truthy fuel && Py.contains "diesel" (Py.lower fuel)))%bool
  then award (Py.get w "diesel_penalty" (-5)) "-5 Diesel" acc
  else acc in
let suspicious := category "suspicious" (blacklist_keywords (exclusions self)) in
match first_keyword_in (_normalize_text text) suspicious with
| Some kw =>
    award (Py.get w "blacklist_keyword_penalty" (-10)) ("-10 Mot suspect: " ++ kw) acc
| None => acc
end.

(** [bool(n)] for an optional integer. *)
Definition truthy_opt (n : option Z) : bool :=
match n with
| Some v => negb (v =? 0)
| None => false
end.

Definition exclude (result : ScoreResult) (why : option string) : ScoreResult :=
{| total_score := total_score result; priority := priority result;
   bonuses := bonuses result; penalties := penalties result;
   warnings := warnings result; excluded := true; exclusion_reason := why |}.

(** [CarFilter.evaluate] *)
Definition evaluate (self : CarFilter) (listing_id title description : string)
  (price mileage year : option Z) (fuel gearbox brand model engine : option string)
  : ScoreResult :=
let result := ScoreResult_default in
let full_text := title ++ " " ++ description in
(* 1. global blacklist *)
let '(is_blacklisted, blacklist_keyword) := _check_blacklist self full_text in
if is_blacklisted then
  exclude result (Some ("Mot-clé blacklist: " ++ default "None" blacklist_keyword))
else
(* 2. brand exclusions *)
let '(is_excluded, brand_reason, brand_warnings) :=
  _check_brand_exclusions self (default "" brand) title description
    (default "" engine) in
if is_excluded then exclude result brand_reason
else
let result :=
  {| total_score := total_score result; priority := priority result;
     bonuses := bonuses result; penalties := penalties result;
     warnings := (warnings result ++ brand_warnings)%list;
     excluded := excluded result; exclusion_reason := exclusion_reason result |} in
(* 3. general criteria *)
let general := general (criteria self) in
let max_price := default 3000 (max_price general) in
if (truthy_opt price && (max_price <? default 0 price))%bool then
  exclude result
    (Some ("Prix " ++ Py.str_of_int (default 0 price) ++ "€ > max "
           ++ Py.str_of_int max_price ++ "€"))
else
let max_km := default 150000 (max_km general) in
if (truthy_opt mileage && (max_km <? default 0 mileage))%bool then
  exclude result
    (Some ("Km " ++ Py.str_of_int (default 0 mileage) ++ " > max "
           ++ Py.str_of_int max_km))
else
let min_year := default 2008 (min_year general) in
if (truthy_opt year && (default 0 year <? min_year))%bool then
  exclude result
    (Some ("Année " ++ Py.str_of_int (default 0 year) ++ " < min "
           ++ Py.str_of_int min_year))
else
let required_gearbox := default "manuelle" (Filters.gearbox general) in
if (Py.truthy (default "" gearbox)
    && String.eqb required_gearbox "manuelle"
    && Py.contains "automatique" (Py.lower (default "" gearbox)))%bool then
  exclude result (Some "Boîte automatique exclue")
else
(* the fuel check excludes nothing: diesel is left to the penalties *)
(* 4. bonuses *)
let '(bonus_points, bonuses) :=
  _calculate_bonus_points self (default "" brand) (default "" model) title
    description (default 0 price) (default 0 mileage) in
(* 5. penalties *)
let '(penalty_points, penalties) :=
  _calculate_penalty_points self (default "" brand) title description
    (default "" fuel) in
(* 6. total *)
let total := bonus_points + penalty_points in
(* 7. priority *)
let priority :=
  if high_threshold self <? total then "high"
  else if medium_threshold self <=? total then "medium"
  else "low" in
{| total_score := total; priority := priority; bonuses := bonuses;
   penalties := penalties; warnings := warnings result;
   excluded := excluded result; exclusion_reason := exclusion_reason result |}.

End Filters.

(** ** telegram_bot.py: the threshold command *)

Module TelegramBot.

(** The bot holds the rule engine and the key-value configuration table
  of the database. *)
Record Bot := {
  car_filter : Filters.CarFilter;
  config : gmap string string;
}.

Definition nl : string := String (ascii_of_nat 10) EmptyString.

Definition invalid_value_message : string :=
"Valeur invalide. Usage: /sethighscore <nombre entre 0 et 100>".

(** [TelegramBot._cmd_set_high_score], on the arguments of the command; the
  second component is the text of the reply. *)
Definition _cmd_set_high_score (self : Bot) (args : list string) : Bot * string :=
match args with
| [] =>
    (self,
     "Seuil actuel: " ++ Py.str_of_int (Filters.high_threshold (car_filter self))
     ++ nl ++ nl ++ "Usage: /sethighscore <valeur>")
| arg :: _ =>
    match Py.int arg with
    | None => (self, invalid_value_message)
    | Some new_threshold =>
        if ((new_threshold <? 0) || (100 <? new_threshold))%bool
        then (self, invalid_value_message)
        else
          ({| car_filter := Filters.set_high_threshold (car_filter self) new_threshold;
              config := <["high_threshold" := Py.str_of_int new_threshold]> (config self) |},
           "Seuil de haute priorité mis à jour: " ++ Py.str_of_int new_threshold
           ++ nl ++ nl ++ "Les annonces avec un score > " ++ Py.str_of_int new_threshold
           ++ " déclencheront une notification urgente.")
    end
end.

End TelegramBot.

(** ** filters.py: ScoreResult.to_json *)

Module ScoreJson.

Definition quote : string := String (ascii_of_nat 34) EmptyString.
Definition backslash : string := String (ascii_of_nat 92) EmptyString.

Definition hex_lower (n : nat) : ascii :=
ascii_of_nat (if Nat.ltb n 10 then 48 + n else 87 + n).

(** The escape of one character by [json.dumps(..., ensure_ascii=False)]. *)
Definition escape_char (c : ascii) : string :=
let n := nat_of_ascii c in
if Nat.eqb n 34 then backslash ++ quote
else if Nat.eqb n 92 then backslash ++ backslash
else if Nat.eqb n 10 then backslash ++ "n"
else if Nat.eqb n 13 then backslash ++ "r"
else if Nat.eqb n 9 then backslash ++ "t"
else if Nat.eqb n 8 then backslash ++ "b"
else if Nat.eqb n 12 then backslash ++ "f"
else if Nat.ltb n 32
then backslash ++ "u00" ++ String (hex_lower (n / 16))
                            (String (hex_lower (n mod 16)) EmptyString)
else String c EmptyString.

Fixpoint escape (s : string) : string :=
match s with
| EmptyString => EmptyString
| String c t => escape_char c ++ escape t
end.

(** A string as a JSON text. *)
Definition json_string (s : string) : string := quote ++ escape s ++ quote.

(** A list of strings as a JSON text. *)
Definition json_list (xs : list string) : string :=
"[" ++ Py.join ", " (map json_string xs) ++ "]".

(** [ScoreResult.to_json] *)
Definition to_json (self : Filters.ScoreResult) : string :=
"{" ++ json_string "total_score" ++ ": " ++ Py.str_of_int (Filters.total_score self)
++ ", " ++ json_string "priority" ++ ": " ++ json_string (Filters.priority self)
++ ", " ++ json_string "bonuses" ++ ": " ++ json_list (Filters.bonuses self)
++ ", " ++ json_string "penalties" ++ ": " ++ json_list (Filters.penalties self)
++ ", " ++ json_string "warnings" ++ ": " ++ json_list (Filters.warnings self)
++ "}".

End ScoreJson.

(** ** database.py: the table of listings *)

Module Database.

(** A row of [car_listings]: the columns [to_dict] fills, the scoring
  columns and the notification flag; the time stamps are left out. *)
Record Row := {
  data : Scraper.CarListing;
  score : Z;
  priority : string;
  score_details : string;
  excluded : bool;
  exclusion_reason : option string;
  notified : bool;
}.

(** The table is a map from the unique column [listing_id] to the row. *)

(** [Database.listing_exists] *)
Definition listing_exists (db : gmap string Row) (listing_id : string) : bool :=
match db !! listing_id with
| Some _ => true
| None => false
end.

(** What an INTEGER column holds: a signed integer of 64 bits.  A larger
  number makes the insertion raise [OverflowError]. *)
Definition fits_integer (n : Z) : bool :=
((- 2 ^ 63 <=? n) && (n <? 2 ^ 63))%bool.

Definition fits_column (n : option Z) : bool :=
match n with
| Some n => fits_integer n
| None => true
end.

(** The row is one the insertion accepts: the numbers of its INTEGER
  columns fit. *)
Definition storable (row : Row) : bool :=
(fits_column (Scraper.price (data row)) && fits_column (Scraper.mileage (data row))
 && fits_column (Scraper.year (data row)) && fits_integer (score row))%bool.

(** The outcomes of [add_listing]: the row that was added, [None] for an
  id that is already stored, or an exception of the insertion. *)
Inductive Added :=
| Inserted (row : Row)
| Existing
| Raised.

(** [Database.add_listing] *)
Definition add_listing (db : gmap string Row) (row : Row) : Added * gmap string Row :=
match db !! Scraper.listing_id (data row) with
| Some _ => (Existing, db)
| None =>
    if storable row
    then (Inserted row, <[Scraper.listing_id (data row) := row]> db)
    else (Raised, db)
end.

Definition set_notified (row : Row) : Row :=
{| data := data row; score := score row; priority := priority row;
   score_details := score_details row; excluded := excluded row;
   exclusion_reason := exclusion_reason row; notified := true |}.

(** [Database.mark_as_notified] *)
Definition mark_as_notified (db : gmap string Row) (listing_id : string) : bool * gmap string Row :=
match db !! listing_id with
| Some row => (true, <[listing_id := set_notified row]> db)
| None => (false, db)
end.

(** [Database.get_config] and [Database.set_config] on the table
  [bot_config]. *)
Definition get_config (config : gmap string string) (key : string) : option string :=
config !! key.

Definition set_config (config : gmap string string) (key value : string)
  : gmap string string :=
<[key := value]> config.

End Database.

(** ** telegram_bot.py: notifications and the monitoring switch *)

Module Notifier.

(** [f"{n:,}"]: the decimal digits in groups of three, from the right. *)
Fixpoint group_thousands (digits : string) : string :=
match digits with
| EmptyString => EmptyString
| String c t =>
    let rest := group_thousands t in
    if (negb (Nat.eqb (String.length t) 0) && Nat.eqb (String.length t mod 3) 0)%bool
    then String c ("," ++ rest)
    else String c rest
end.

Definition format_thousands (n : Z) : string :=
if n <? 0 then "-" ++ group_thousands (Py.str_of_int (- n))
else group_thousands (Py.str_of_int n).

(** A message handed to [bot.send_message]. *)
Record Message := {
  text : string;
  disable_notification : bool;
}.

(** The bot object as far as sending goes: whether [self.bot] is set, the
  messages handed over so far with their outcome, and the oracle that
  tells whether the k-th one is delivered or raises [TelegramError]. *)
Record Sender := {
  bot_ready : bool;
  delivered : nat -> bool;
  outbox : list (Message * bool);
}.

Definition nl : string := String (ascii_of_nat 10) EmptyString.

Definition truthy_opt_str (s : option string) : bool := Py.truthy (default "" s).

(** The lines of characteristics of a notification. *)
Definition characteristics (listing : Scraper.CarListing) : list string :=
concat
  [ if Filters.truthy_opt (Scraper.price listing)
    then ["Prix: " ++ Py.str_of_int (default 0 (Scraper.price listing)) ++ "€"]
    else [];
    if Filters.truthy_opt (Scraper.mileage listing)
    then [Py.replace "," " "
            ("Km: " ++ format_thousands (default 0 (Scraper.mileage listing)))]
    else [];
    if Filters.truthy_opt (Scraper.year listing)
    then ["Année: " ++ Py.str_of_int (default 0 (Scraper.year listing))]
    else [];
    if truthy_opt_str (Scraper.fuel listing)
    then ["Carburant: " ++ default "" (Scraper.fuel listing)] else [];
    if truthy_opt_str (Scraper.gearbox listing)
    then ["Boîte: " ++ default "" (Scraper.gearbox listing)] else [];
    if truthy_opt_str (Scraper.engine listing)
    then ["Moteur: " ++ default "" (Scraper.engine listing)] else [];
    if truthy_opt_str (Scraper.location listing)
    then ["Lieu: " ++ default "" (Scraper.location listing)] else [] ].

(** A titled block of explanations, empty when there is none. *)
Definition block (heading : string) (lines : list string) : list string :=
match lines with
| [] => []
| _ => concat [ [heading ++ nl]; map (fun l => "  " ++ l ++ nl) lines; [nl] ]
end.

(** The text of a notification. *)
Definition notification_text (listing : Database.Row)
  (score_result : Filters.ScoreResult) : string :=
let l := Database.data listing in
let chars := characteristics l in
Py.join EmptyString
  (concat
     [ [ " **" ++ Py.upper (Filters.priority score_result) ++ " PRIORITÉ**" ++ nl;
         "Score: **" ++ Py.str_of_int (Filters.total_score score_result) ++ "**"
         ++ nl ++ nl;
         "**" ++ Scraper.title l ++ "**" ++ nl ++ nl ];
       match chars with
       | [] => []
       | _ => [Py.join nl chars ++ nl ++ nl]
       end;
       block "**Points forts:**" (Filters.bonuses score_result);
       block "**Attention:**" (Filters.warnings score_result);
       block "**Points négatifs:**" (Filters.penalties score_result);
       ["[Voir l'annonce](" ++ Scraper.url l ++ ")"] ]).

(** [TelegramBot.send_notification] *)
Definition send_notification (self : Sender) (listing : Database.Row)
  (score_result : Filters.ScoreResult) : bool * Sender :=
if negb (bot_ready self) then (false, self)
else
  let message :=
    {| text := notification_text listing score_result;
       disable_notification := String.eqb (Filters.priority score_result) "low" |} in
  let ok := delivered self (length (outbox self)) in
  (ok,
   {| bot_ready := bot_ready self; delivered := delivered self;
      outbox := (outbox self ++ [(message, ok)])%list |}).

(** The monitoring switch: the flag [_is_monitoring] and the configuration
  table it is saved in. *)
Record Switch := {
  _is_monitoring : bool;
  config : gmap string string;
}.

(** [TelegramBot._cmd_start]: the new state, the reply and whether the
  start callback is called. *)
Definition _cmd_start (self : Switch) : Switch * string * bool :=
if _is_monitoring self
then (self, "La surveillance est déjà active.", false)
else
  ({| _is_monitoring := true;
      config := Database.set_config (config self) "monitoring" "true" |},
   "Surveillance démarrée." ++ nl ++ nl
   ++ "Je vais surveiller les nouvelles annonces et vous notifier "
   ++ "selon les critères configurés." ++ nl ++ nl
   ++ "Commandes disponibles: /help",
   true).

(** [TelegramBot._cmd_stop] *)
Definition _cmd_stop (self : Switch) : Switch * string * bool :=
if negb (_is_monitoring self)
then (self, "La surveillance n'est pas active.", false)
else
  ({| _is_monitoring := false;
      config := Database.set_config (config self) "monitoring" "false" |},
   "Surveillance arrêtée." ++ nl ++ nl ++ "Utilisez /start pour reprendre.",
   true).

End Notifier.

(** ** main.py: searching, processing and start-up *)

Module Main.

(** [CarListing.to_dict]: every field but [raw_data]. *)
Definition to_dict (self : Scraper.CarListing) : Scraper.CarListing :=
{| Scraper.listing_id := Scraper.listing_id self;
   Scraper.url := Scraper.url self;
   Scraper.title := Scraper.title self;
   Scraper.price := Scraper.price self;
   Scraper.mileage := Scraper.mileage self;
   Scraper.year := Scraper.year self;
   Scraper.fuel := Scraper.fuel self;
   Scraper.gearbox := Scraper.gearbox self;
   Scraper.brand := Scraper.brand self;
   Scraper.model := Scraper.model self;
   Scraper.engine := Scraper.engine self;
   Scraper.location := Scraper.location self;
   Scraper.description := Scraper.description self;
   Scraper.image_url := Scraper.image_url self;
   Scraper.raw_data := None |}.

(** The database and the sender that [_process_listings] works on. *)
Record App := {
  database : gmap string Database.Row;
  sender : Notifier.Sender;
}.

(** The row stored for a listing and its evaluation. *)
Definition row_of (listing : Scraper.CarListing) (score_result : Filters.ScoreResult)
  : Database.Row :=
{| Database.data := to_dict listing;
   Database.score := Filters.total_score score_result;
   Database.priority := Filters.priority score_result;
   Database.score_details := ScoreJson.to_json score_result;
   Database.excluded := Filters.excluded score_result;
   Database.exclusion_reason := Filters.exclusion_reason score_result;
   Database.notified := false |}.

(** The evaluation [_process_listings] asks for. *)
Definition evaluate_listing (car_filter : Filters.CarFilter)
  (listing : Scraper.CarListing) : Filters.ScoreResult :=
Filters.evaluate car_filter (Scraper.listing_id listing) (Scraper.title listing)
  (default "" (Scraper.description listing)) (Scraper.price listing)
  (Scraper.mileage listing) (Scraper.year listing) (Scraper.fuel listing)
  (Scraper.gearbox listing) (Scraper.brand listing) (Scraper.model listing)
  (Scraper.engine listing).

(** The body of the loop of [_process_listings]; an exception of the
  insertion is caught by the loop, which goes on with the next listing. *)
Definition process_one (car_filter : Filters.CarFilter)
  (state : App * Z) (listing : Scraper.CarListing) : App * Z :=
let '(app, new_count) := state in
let listing_id := Scraper.listing_id listing in
if Database.listing_exists (database app) listing_id then state
else
  let score_result := evaluate_listing car_filter listing in
  let '(db_listing, db) :=
    Database.add_listing (database app) (row_of listing score_result) in
  match db_listing with
  | Database.Raised => state
  | Database.Existing => ({| database := db; sender := sender app |}, new_count)
  | Database.Inserted db_listing =>
      if Filters.excluded score_result
      then ({| database := db; sender := sender app |}, new_count)
      else
        let '(ok, sender) :=
          Notifier.send_notification (sender app) db_listing score_result in
        if ok
        then ({| database := snd (Database.mark_as_notified db listing_id);
                 sender := sender |}, new_count + 1)
        else ({| database := db; sender := sender |}, new_count)
  end.

(** [LeboncoinBot._process_listings]: the batch is run with one engine;
  a threshold command handled between two listings of a batch is not
  modelled. *)
Definition _process_listings (car_filter : Filters.CarFilter) (app : App)
  (listings : list Scraper.CarListing) : App * Z :=
fold_left (process_one car_filter) listings (app, 0).

(** An entry of the section [models] of the criteria document read by
  [get_model_configs]; [None] is an absent key. *)
Record ModelConfig := {
  name : option string;
  brand : option string;
  model : option string;
  year_min : option Z;
}.

(** The body of the loop of [_search_all_models]. *)
Definition search_model (env : Scraper.Env) (general : Filters.General)
  (state : list Scraper.CarListing * Scraper.State) (model_config : ModelConfig)
  : list Scraper.CarListing * Scraper.State :=
let '(all_listings, st) := state in
let brand := default "" (brand model_config) in
let model := default "" (model model_config) in
if negb (Py.truthy brand) then state
else
  let '(listings, st) :=
    Scraper.search_cars env brand (Some model)
      (default 3000 (Filters.max_price general))
      (default 150000 (Filters.max_km general))
      (default (default 2008 (Filters.min_year general)) (year_min model_config))
      (default "essence" (Filters.fuel general))
      (default "manuelle" (Filters.gearbox general))
      50 st in
  ((all_listings ++ listings)%list, st).

(** [LeboncoinBot._search_all_models] *)
Definition _search_all_models (env : Scraper.Env) (general : Filters.General)
  (models : list ModelConfig) (st : Scraper.State)
  : list Scraper.CarListing * Scraper.State :=
fold_left (search_model env general) models ([], st).

(** The threshold part of [_init_components]: [None] is the [ValueError]
  of a saved value that is no integer. *)
Definition restore_threshold (config : gmap string string)
  (car_filter : Filters.CarFilter) : option Filters.CarFilter :=
match Database.get_config config "high_threshold" with
| Some saved_threshold =>
    if Py.truthy saved_threshold
    then Filters.set_high_threshold car_filter <$> Py.int saved_threshold
    else Some car_filter
| None => Some car_filter
end.

(** The monitoring part of [_init_components], on the flag of a bot just
  built. *)
Definition restore_monitoring (config : gmap string string) : bool :=
match Database.get_config config "monitoring" with
| Some monitoring_state => String.eqb monitoring_state "true"
| None => false
end.

End Main.

(** ** Sample inputs *)

Module Samples.

(** A listing of which only the title, the brand and the model are set. *)
Definition titled (t : string) (b m : option string) : Scraper.CarListing :=
{| Scraper.listing_id := "1"; Scraper.url := EmptyString; Scraper.title := t;
   Scraper.price := None; Scraper.mileage := None; Scraper.year := None;
   Scraper.fuel := None; Scraper.gearbox := None; Scraper.brand := b;
   Scraper.model := m; Scraper.engine := None; Scraper.location := None;
   Scraper.description := None; Scraper.image_url := None;
   Scraper.raw_data := None |}.

(** A criteria document without any key: every value is its default. *)
Definition default_criteria : Filters.Criteria :=
{| Filters.general :=
     {| Filters.max_price := None; Filters.max_km := None;
        Filters.min_year := None; Filters.gearbox := None;
        Filters.fuel := None |};
   Filters.scoring :=
     {| Filters.high_priority_models := ∅; Filters.weights := ∅ |};
   Filters.priority_thresholds := ∅ |}.

Definition honda_rules : Filters.BrandRules :=
{| Filters.engines := [];
   Filters.transmissions := ["cvt"];
   Filters.reason := "CVT fragile";
   Filters.require_manual := true;
   Filters.accepted_engines := [] |}.

Definition seat_rules : Filters.BrandRules :=
{| Filters.engines := [];
   Filters.transmissions := ["dsg"];
   Filters.reason := "TSI/TDI";
   Filters.require_manual := false;
   Filters.accepted_engines := ["1.4 16v"; "1.2 12v"] |}.

Definition sample_exclusions : Filters.Exclusions :=
{| Filters.blacklist_keywords :=
     [ ("mechanical", ["panne"; "accidenté"; "pour pièces"]);
       ("suspicious", ["urgent"]) ];
   Filters.brand_exclusions :=
     <["honda" := honda_rules]> (<["seat" := seat_rules]> ∅);
   Filters.positive_keywords :=
     <["maintenance" :=
         ["carnet d'entretien"; "chaîne de distribution"; "distribution faite";
          "entretien suivi"]]> ∅ |}.

(** An exclusions document without any key. *)
Definition empty_exclusions : Filters.Exclusions :=
{| Filters.blacklist_keywords := []; Filters.brand_exclusions := ∅;
   Filters.positive_keywords := ∅ |}.

(** The engine built from two empty documents. *)
Definition default_filter : Filters.CarFilter :=
Filters.init default_criteria empty_exclusions.

Definition sample_filter : Filters.CarFilter :=
Filters.init default_criteria sample_exclusions.

(** An ad record with the id 123 and one attribute [regdate]. *)
Definition ad_with_regdate (regdate : string) : Scraper.Ad :=
{| Scraper.list_id := Some (Scraper.IdInt 123);
   Scraper.subject := Some "Mazda 2";
   Scraper.body := None;
   Scraper.price_field := Some (Scraper.PriceList [2500]);
   Scraper.attributes :=
     Some [ {| Scraper.attr_key := Some "regdate";
               Scraper.attr_value := Some regdate |} ];
   Scraper.images := None;
   Scraper.location_city := None |}.

(** An ad record with the id 123 and one attribute [mileage]. *)
Definition ad_with_mileage (text : string) : Scraper.Ad :=
{| Scraper.list_id := Some (Scraper.IdInt 123);
   Scraper.subject := Some "Mazda 2";
   Scraper.body := None;
   Scraper.price_field := Some (Scraper.PriceScalar 2500);
   Scraper.attributes :=
     Some [ {| Scraper.attr_key := Some "mileage";
               Scraper.attr_value := Some text |} ];
   Scraper.images := None;
   Scraper.location_city := None |}.

(** The same record with another value, or none, for [list_id]. *)
Definition ad_with_id (id : option Scraper.IdValue) : Scraper.Ad :=
{| Scraper.list_id := id;
   Scraper.subject := Some "Mazda 2";
   Scraper.body := None;
   Scraper.price_field := Some (Scraper.PriceScalar 2500);
   Scraper.attributes := None;
   Scraper.images := None;
   Scraper.location_city := None |}.

Definition empty_page : Scraper.Page :=
{| Scraper.next_data := Scraper.NoScript; Scraper.cards_by_test_id := [];
   Scraper.cards_by_class := [] |}.

Definition response (code : Z) : Scraper.Outcome :=
Scraper.Answered {| Scraper.status_code := code; Scraper.text := empty_page |}.

(** The first request is refused with 403, the later ones are answered
  200; the k-th draw of the random source is k. *)
Definition env_403_then_200 : Scraper.Env :=
{| Scraper.choice := fun k => k;
   Scraper.server := fun k => match k with O => response 403 | _ => response 200 end |}.

(** A server that answers every request with 503. *)
Definition env_unavailable : Scraper.Env :=
{| Scraper.choice := fun k => k;
   Scraper.server := fun _ => response 503 |}.

(** A scraper as [__init__] leaves it, with three attempts per call. *)
Definition fresh_scraper : Scraper.State :=
{| Scraper.max_retries := 3; Scraper._client := None; Scraper.draws := 0;
   Scraper.requests := 0; Scraper.trace := [] |}.

(** A listing of a Peugeot 206 at 2900 euros, with the id 7. *)
Definition plain_listing : Scraper.CarListing :=
{| Scraper.listing_id := "7"; Scraper.url := "https://www.leboncoin.fr/ad/voitures/7";
   Scraper.title := "Peugeot 206 essence";
   Scraper.price := Some 2900; Scraper.mileage := Some 149000;
   Scraper.year := Some 2010; Scraper.fuel := Some "Essence";
   Scraper.gearbox := Some "Manuelle"; Scraper.brand := Some "peugeot";
   Scraper.model := Some "206"; Scraper.engine := None; Scraper.location := None;
   Scraper.description := None; Scraper.image_url := None;
   Scraper.raw_data := None |}.

(** The same car offered for spare parts, with the id 8. *)
Definition broken_listing : Scraper.CarListing :=
{| Scraper.listing_id := "8"; Scraper.url := "https://www.leboncoin.fr/ad/voitures/8";
   Scraper.title := "Mazda 2 pour pièces";
   Scraper.price := Some 500; Scraper.mileage := Some 140000;
   Scraper.year := Some 2010; Scraper.fuel := Some "Essence";
   Scraper.gearbox := Some "Manuelle"; Scraper.brand := Some "mazda";
   Scraper.model := Some "2"; Scraper.engine := None; Scraper.location := None;
   Scraper.description := None; Scraper.image_url := None;
   Scraper.raw_data := None |}.

(** A bot that is set and delivers every message. *)
Definition ready_sender : Notifier.Sender :=
{| Notifier.bot_ready := true; Notifier.delivered := fun _ => true;
   Notifier.outbox := [] |}.

(** An empty database with that bot. *)
Definition empty_app : Main.App :=
{| Main.database := ∅; Main.sender := ready_sender |}.

(** A server that answers every request with a page of one ad. *)
Definition env_one_ad : Scraper.Env :=
{| Scraper.choice := fun k => k;
   Scraper.server := fun _ =>
     Scraper.Answered
       {| Scraper.status_code := 200;
          Scraper.text :=
            {| Scraper.next_data := Scraper.SearchData [ad_with_regdate "2010"];
               Scraper.cards_by_test_id := []; Scraper.cards_by_class := [] |} |} |}.

(** The entry of the model list for the Mazda 2, and one without brand. *)
Definition mazda_2 : Main.ModelConfig :=
{| Main.name := Some "Mazda 2"; Main.brand := Some "mazda";
   Main.model := Some "2"; Main.year_min := Some 2008 |}.

Definition no_brand : Main.ModelConfig :=
{| Main.name := Some "?"; Main.brand := None; Main.model := Some "2";
   Main.year_min := None |}.


(** A listing whose mileage is beyond the INTEGER columns, with the id 9. *)
Definition oversized_listing : Scraper.CarListing :=
{| Scraper.listing_id := "9"; Scraper.url := "https://www.leboncoin.fr/ad/voitures/9";
   Scraper.title := "Peugeot 206 essence";
   Scraper.price := Some 2900; Scraper.mileage := Some (10 ^ 19);
   Scraper.year := Some 2010; Scraper.fuel := Some "Essence";
   Scraper.gearbox := Some "Manuelle"; Scraper.brand := Some "peugeot";
   Scraper.model := Some "206"; Scraper.engine := None; Scraper.location := None;
   Scraper.description := None; Scraper.image_url := None;
   Scraper.raw_data := None |}.

End Samples.

(** ** Definitions used by the statements *)

Module Spec.


(** The tier as the specification words it: a function of the total score
  and of the two thresholds. *)
Definition priority_of_score (high medium total : Z) : string :=
  if high <? total then "high"
  else if medium <=? total then "medium"
  else "low".

(** The explanation of the maintenance bonus a keyword awards, by the
  tests the loop applies to it in order. *)
Definition maintenance_label (kw : string) : string :=
  if Py.contains "distribution" (Py.lower kw) then "+3 Distribution mentionnée"
  else if (Py.contains "chaîne" (Py.lower kw) || Py.contains "chaine" (Py.lower kw))%bool
  then "+3 Moteur chaîne"
  else "+3 Entretien suivi".

Definition maintenance_points (self : Filters.CarFilter) (kw : string) : Z :=
  let w := Filters.weights (Filters.scoring (Filters.criteria self)) in
  if Py.contains "distribution" (Py.lower kw) then Py.get w "distribution_done" 3
  else if (Py.contains "chaîne" (Py.lower kw) || Py.contains "chaine" (Py.lower kw))%bool
  then Py.get w "chain_engine" 3
  else Py.get w "history_mentioned" 3.

Definition is_maintenance_label (label : string) : bool :=
  existsb (String.eqb label)
    ["+3 Distribution mentionnée"; "+3 Moteur chaîne"; "+3 Entretien suivi"].

(** A keyword that mentions a chain engine. *)
Definition mentions_chain (kw : string) : bool :=
  (Py.contains "chaîne" (Py.lower kw) || Py.contains "chaine" (Py.lower kw))%bool.

(** Explanations that the priority-model rules can append. *)
Definition model_labels : list string :=
  [ "+10 Mazda 2 essence/chaîne"; "+10 Honda Jazz manuelle"; "+10 Suzuki Swift 3";
    "+5 Seat Ibiza atmosphérique"; "+5 Toyota Yaris" ].

(** Four digits in a row, [g], stand in [s] after [i] characters. *)
Definition four_digits_at (s : string) (i : nat) (g : string) : Prop :=
  exists pre post,
    s = pre ++ g ++ post /\ String.length pre = i /\ String.length g = 4%nat
    /\ Py.all_chars Py.is_digit g = true.

(** [g] is the leftmost four digits in a row of [s]: no four digits in a
  row start before it; more digits may follow it. *)
Definition leftmost_four_digits (s g : string) : Prop :=
  exists i,
    four_digits_at s i g
    /\ forall j g', (j < i)%nat -> ~ four_digits_at s j g'.

(** The claim's words, the first run of exactly four digits: the first
  maximal run of digits of [s] that is four digits long.  [in_run] says
  that the character before was a digit. *)
Fixpoint first_run_of_four_from (in_run : bool) (s : string) : option string :=
  match s with
  | EmptyString => None
  | String c t =>
      if Py.is_digit c
      then
        if in_run then first_run_of_four_from true t
        else
          let run := fst (Py.span Py.is_digit s) in
          if Nat.eqb (String.length run) 4 then Some run
          else first_run_of_four_from true t
      else first_run_of_four_from false t
  end.

Definition first_run_of_four (s : string) : option string :=
  first_run_of_four_from false s.

(** The number a string of decimal digits writes. *)
Definition decimal (g : string) : Z := Py.digits_value 0 g.

(** The outcome is a response with the given status. *)
Definition answers (code : Z) (o : Scraper.Outcome) : bool :=
  match o with
  | Scraper.Answered r => Scraper.status_code r =? code
  | _ => false
  end.

(** The clients of the requests of a log, in order. *)
Definition request_clients (tr : list Scraper.Event) : list Scraper.Client :=
  omap (fun ev => match ev with
                  | Scraper.Requested _ _ c => Some c
                  | _ => None
                  end) tr.

(** The events a run from [st] to [st'] added to the log. *)
Definition new_events (st st' : Scraper.State) : list Scraper.Event :=
  skipn (length (Scraper.trace st)) (Scraper.trace st').

(** The value of the header [User-Agent] of a client. *)
Definition user_agent_of (c : Scraper.Client) : option string :=
  snd <$> List.find (fun kv => String.eqb (fst kv) "User-Agent") (Scraper.headers c).

(** The number of draws it takes to have a client: none when one is
  stored. *)
Definition draws_to_build (stored : option Scraper.Client) : nat :=
  match stored with
  | Some _ => 0
  | None => 1
  end.

(** C5 in the terms of the log: between a request answered 403 and the
  request that follows it in the same run, a header set is drawn. *)
Definition retry_after_403_redraws (env : Scraper.Env) (st st' : Scraper.State)
  : Prop :=
  forall pre v u c mid v' u' c' post,
    new_events st st'
    = (pre ++ Scraper.Requested v u c :: mid ++ Scraper.Requested v' u' c' :: post)%list ->
    request_clients mid = [] ->
    answers 403 (Scraper.server env (Scraper.requests st + length (request_clients pre)))
    = true ->
    exists i, In (Scraper.Drew i) mid.

(** The model of a search is a number of at most two digits. *)
Definition short_numeric_token (m : option string) : bool :=
  match m with
  | Some tok =>
      (Py.isdigit (Py.lower tok) && Nat.leb (String.length (Py.lower tok)) 2)%bool
  | None => false
  end.

(** The text without its space characters. *)
Fixpoint without_spaces (s : string) : string :=
  match s with
  | EmptyString => EmptyString
  | String c t =>
      if Ascii.eqb c " " then without_spaces t else String c (without_spaces t)
  end.

(** The first character of a text, if any, is a digit. *)
Definition starts_with_digit (s : string) : bool :=
  match s with
  | String c _ => Py.is_digit c
  | EmptyString => false
  end.

(** No character of the text is a digit. *)
Definition no_digit (s : string) : bool :=
  Py.all_chars (fun c => negb (Py.is_digit c)) s.

(** The characters [quote_plus] may produce: letters, digits and
  [_ . - ~ + %]. *)
Definition url_safe (c : ascii) : bool :=
  (Py.is_alpha c || Py.is_digit c
   || existsb (Ascii.eqb c) ["_"; "."; "-"; "~"; "+"; "%"]%char)%bool.

(** The number of occurrences of a character in a text. *)
Fixpoint count_char (x : ascii) (s : string) : nat :=
  match s with
  | EmptyString => 0
  | String c t => ((if Ascii.eqb c x then 1 else 0) + count_char x t)%nat
  end.

(** The message [send_notification] builds for a stored row and its
  evaluation. *)
Definition message_of (row : Database.Row) (res : Filters.ScoreResult)
  : Notifier.Message :=
  {| Notifier.text := Notifier.notification_text row res;
     Notifier.disable_notification := String.eqb (Filters.priority res) "low" |}.

(** A sender after one more message was handed over. *)
Definition handed_over (s : Notifier.Sender) (m : Notifier.Message) (ok : bool)
  : Notifier.Sender :=
  {| Notifier.bot_ready := Notifier.bot_ready s;
     Notifier.delivered := Notifier.delivered s;
     Notifier.outbox := (Notifier.outbox s ++ [(m, ok)])%list |}.

(** The messages of a list that were delivered. *)
Definition delivered_messages (ms : list (Notifier.Message * bool))
  : list (Notifier.Message * bool) :=
  List.filter snd ms.

(** A row is stored under the id of a listing. *)
Definition stored (db : gmap string Database.Row) (l : Scraper.CarListing) : Prop :=
  is_Some (db !! Scraper.listing_id l).

(** The two commands of the monitoring switch. *)
Inductive Command := Start | Stop.

(** The switch after a command, as the dispatcher of the bot runs it. *)
Definition handle (s : Notifier.Switch) (c : Command) : Notifier.Switch :=
  match c with
  | Start => fst (fst (Notifier._cmd_start s))
  | Stop => fst (fst (Notifier._cmd_stop s))
  end.

(** The number of entries of the model list that name a brand. *)
Definition with_brand (models : list Main.ModelConfig) : list Main.ModelConfig :=
  List.filter (fun m => Py.truthy (default EmptyString (Main.brand m))) models.

(** What an event of the log is, without its details. *)
Inductive Step :=
| WaitStep
| DrawStep
| RequestStep
| SleepStep (attempt : Z).

Definition step_of (ev : Scraper.Event) : Step :=
  match ev with
  | Scraper.RateLimitWait => WaitStep
  | Scraper.Drew _ => DrawStep
  | Scraper.Requested _ _ _ => RequestStep
  | Scraper.BackoffSleep attempt => SleepStep attempt
  end.

(** The steps of [n] requests that start at the attempt [a]: a sleep,
  numbered by the attempt before it, stands between two requests and
  nowhere else. *)
Fixpoint attempt_steps (a n : nat) : list Step :=
  match n with
  | O => []
  | S n' =>
      RequestStep
        :: match n' with
           | O => []
           | S _ => SleepStep (Z.of_nat a) :: attempt_steps (S a) n'
           end
  end.

(** The steps before the first request of a call: the wait for the rate
  limit, and a draw when no client is stored. *)
Definition prelude_steps (stored : option Scraper.Client) : list Step :=
  WaitStep :: match stored with Some _ => [] | None => [DrawStep] end.

(** A row whose numbers the INTEGER columns can hold. *)
Definition storable_listing (car_filter : Filters.CarFilter)
    (l : Scraper.CarListing) : bool :=
  Database.storable (Main.row_of l (Main.evaluate_listing car_filter l)).

End Spec.
(** * Sample evaluations *)

Example lower_ascii : Py.lower "Mazda 2 ÉTÉ" = "mazda 2 été".
Proof. reflexivity. Qed.

Example replace_chars : Py.replace " " "" "95 000 km" = "95000km".
Proof. reflexivity. Qed.

Example int_samples :
  Py.int "42" = Some 42 /\ Py.int "-5" = Some (-5) /\ Py.int " 1_000 " = Some 1000
  /\ Py.int "abc" = None /\ Py.int "" = None /\ Py.int "1__0" = None
  /\ Py.int "+7" = Some 7 /\ Py.int "2 500" = None /\ Py.int "-" = None
  /\ Py.int (String (ascii_of_nat 28) "5") = None
  /\ Py.int (String (ascii_of_nat 9) "5") = Some 5.
Proof. repeat split; reflexivity. Qed.

Example str_samples : Py.str_of_int 5000 = "5000" /\ Py.str_of_int (-5) = "-5".
Proof. split; reflexivity. Qed.

Import Samples.

Example matches_samples :
  Scraper.matches_search (titled "Peugeot 2008" None None) "mazda" (Some "2") = false
  /\ Scraper.matches_search (titled "Peugeot 2008" (Some "mazda") None) "mazda" (Some "2") = false
  /\ Scraper.matches_search (titled "Mazda 2" None None) "mazda" (Some "2") = true
  /\ Scraper.matches_search (titled "Mazda2" None None) "mazda" (Some "2") = true
  /\ Scraper.matches_search (titled "Peugeot 2008" (Some "mazda") (Some "2")) "mazda" (Some "2") = true
  /\ Scraper.matches_search (titled "Citroën C3" None None) "citroen" (Some "c3") = true.
Proof. repeat split; reflexivity. Qed.

Example evaluate_high :
  Filters.evaluate sample_filter "123" "Mazda 2 essence" "Carnet d'entretien à jour"
    (Some 2000) (Some 90000) (Some 2012) (Some "essence") (Some "manuelle")
    (Some "Mazda") (Some "2") None
  = {| Filters.total_score := 17; Filters.priority := "high";
       Filters.bonuses :=
         ["+10 Mazda 2 essence/chaîne"; "+3 Entretien suivi"; "+2 Prix < 2500€";
          "+2 Km < 100 000"];
       Filters.penalties := []; Filters.warnings := [];
       Filters.excluded := false; Filters.exclusion_reason := None |}.
Proof. vm_compute. reflexivity. Qed.

Example evaluate_blacklisted :
  Filters.evaluate sample_filter "124" "Clio en PANNE" "moteur HS"
    (Some 500) None None None None (Some "Renault") (Some "Clio") None
  = {| Filters.total_score := 0; Filters.priority := "low";
       Filters.bonuses := []; Filters.penalties := []; Filters.warnings := [];
       Filters.excluded := true;
       Filters.exclusion_reason := Some "Mot-clé blacklist: panne" |}.
Proof. vm_compute. reflexivity. Qed.

Example evaluate_price :
  Filters.exclusion_reason
    (Filters.evaluate sample_filter "125" "Toyota Yaris" "bon état"
       (Some 5000) None None None None (Some "Toyota") (Some "Yaris") None)
  = Some "Prix 5000€ > max 3000€".
Proof. vm_compute. reflexivity. Qed.

Example evaluate_seat_tsi :
  Filters.exclusion_reason
    (Filters.evaluate sample_filter "126" "Seat Ibiza 1.2 TSI" "bon état"
       (Some 2500) None None None None (Some "Seat") (Some "Ibiza") None)
  = Some "Seat Ibiza avec moteur TSI/TDI exclu".
Proof. vm_compute. reflexivity. Qed.

Example evaluate_diesel :
  let r :=
    Filters.evaluate sample_filter "127" "Toyota Yaris diesel" "bon état"
      (Some 2800) None None (Some "Diesel") None (Some "Toyota") (Some "Yaris") None in
  Filters.total_score r = 0 /\ Filters.penalties r = ["-5 Diesel"]
  /\ Filters.priority r = "low".
Proof. vm_compute. repeat split. Qed.

(** * The correspondence filter *)

Section CorrespondenceFilter.

Import Scraper Spec.

Lemma lower_empty_inv s : Py.lower s = EmptyString -> s = EmptyString.
Proof. destruct s; [reflexivity | discriminate]. Qed.

Lemma truthy_lower s : Py.truthy (Py.lower s) = Py.truthy s.
Proof. destruct s; reflexivity. Qed.


(** The title as [matches_search] reads it is its lower-case form, empty
  or not. *)
Lemma title_lower_eq t :
  (if Py.truthy t then Py.lower t else EmptyString) = Py.lower t.
Proof. destruct t; reflexivity. Qed.

(** A non-empty needle occurs only in a non-empty text. *)
Lemma contains_truthy needle hay :
  Py.truthy needle = true -> Py.contains needle hay = true -> Py.truthy hay = true.
Proof.
  destruct needle; [discriminate |]. destruct hay; [| reflexivity].
  simpl. discriminate.
Qed.








End CorrespondenceFilter.


(** * Bonus scoring *)

Section Bonus.

Import Filters Spec.

Variable self : CarFilter.

Lemma maintenance_bonus_first text keywords acc :
  maintenance_bonus self text keywords acc =
  match first_keyword_in (_normalize_text text) keywords with
  | Some kw => award (maintenance_points self kw) (maintenance_label kw) acc
  | None => acc
  end.
Proof.
  induction keywords as [| kw rest IH]; [reflexivity |].
  cbn [maintenance_bonus first_keyword_in].
  destruct (Py.contains (_normalize_text kw) (_normalize_text text)); [| exact IH].
  unfold maintenance_points, maintenance_label.
  destruct (Py.contains "distribution" (Py.lower kw)); [reflexivity |].
  destruct (Py.contains "chaîne" (Py.lower kw) || Py.contains "chaine" (Py.lower kw))%bool;
    reflexivity.
Qed.

Lemma maintenance_label_is_maintenance kw :
  is_maintenance_label (maintenance_label kw) = true.
Proof.
  unfold maintenance_label.
  destruct (Py.contains "distribution" (Py.lower kw)); [reflexivity |].
  destruct (Py.contains "chaîne" (Py.lower kw) || Py.contains "chaine" (Py.lower kw))%bool;
    reflexivity.
Qed.

Lemma Forall_award_if (P : string -> Prop) (c : bool) p label acc :
  P label -> Forall P (snd acc) ->
  Forall P (snd (if c then award p label acc else acc)).
Proof.
  intros Hl Hacc. destruct c; [| exact Hacc].
  cbn. apply Forall_app. split; [exact Hacc | now constructor].
Qed.

Lemma model_bonuses_labels brand_lower model_lower text :
  Forall (fun label => In label model_labels)
    (snd (model_bonuses self brand_lower model_lower text (0, []))).
Proof.
  unfold model_bonuses. cbv zeta.
  repeat (apply Forall_award_if;
          [unfold model_labels; cbn;
           repeat (first [left; reflexivity | right]) |]).
  constructor.
Qed.

Lemma filter_model_labels (p : string -> bool) labels :
  Forall (fun label => In label model_labels) labels ->
  forallb (fun label => negb (p label)) model_labels = true ->
  List.filter p labels = [].
Proof.
  intros Hall Hnone. induction Hall as [| x rest Hx _ IH]; [reflexivity |].
  cbn. rewrite forallb_forall in Hnone.
  specialize (Hnone x Hx). apply negb_true_iff in Hnone. now rewrite Hnone.
Qed.

Lemma filter_if_single (p : string -> bool) (c : bool) (x : string) :
  p x = false -> List.filter p (if c then [x] else []) = [].
Proof. intros Hx. destruct c; cbn; [now rewrite Hx | reflexivity]. Qed.

Lemma in_if_single (c : bool) (x y : string) :
  In y (if c then [x] else []) -> c = true /\ x = y.
Proof. destruct c; cbn; [intros [H | []]; auto | intros []]. Qed.

Section Labels.

Variables brand model title description : string.
Variables price mileage : Z.

Let text := Py.lower (title ++ " " ++ description).

Let keywords := Py.get (positive_keywords (exclusions self)) "maintenance" [].

Let price_labels : list string :=
  if (negb (price =? 0) && (price <? 2500))%bool then ["+2 Prix < 2500€"] else [].

Let km_labels : list string :=
  if (negb (mileage =? 0) && (mileage <? 100000))%bool then ["+2 Km < 100 000"] else [].

Let maintenance_labels : list string :=
  match first_keyword_in (_normalize_text text) keywords with
  | Some kw => [maintenance_label kw]
  | None => []
  end.

(** The explanations of [_calculate_bonus_points], rule by rule. *)
Lemma bonus_labels :
  snd (_calculate_bonus_points self brand model title description price mileage) =
  (snd (model_bonuses self (Py.lower brand) (Py.lower model) text (0, []))
   ++ maintenance_labels ++ price_labels ++ km_labels)%list.
Proof.
  unfold _calculate_bonus_points. fold text. fold keywords.
  rewrite maintenance_bonus_first.
  subst maintenance_labels price_labels km_labels.
  destruct (first_keyword_in _ keywords);
    destruct (negb (price =? 0) && (price <? 2500))%bool;
    destruct (negb (mileage =? 0) && (mileage <? 100000))%bool;
    cbn [award fst snd]; rewrite ?app_nil_r, <- ?app_assoc; reflexivity.
Qed.

(** C4, as the code has it. The maintenance bonus appears at most once
  among the explanations: it is awarded for the first configured
  maintenance keyword, in the order of the configuration, that occurs in
  the listing text, and its kind is read off that keyword alone,
  distribution before chain engine before generic history. *)
Theorem C4_maintenance_bonus_first_keyword :
  List.filter is_maintenance_label
    (snd (_calculate_bonus_points self brand model title description price mileage))
  = match first_keyword_in (_normalize_text text) keywords with
    | Some kw =>
        [ if Py.contains "distribution" (Py.lower kw)
          then "+3 Distribution mentionnée"
          else if mentions_chain kw then "+3 Moteur chaîne"
          else "+3 Entretien suivi" ]
    | None => []
    end.
Proof.
  rewrite bonus_labels, !List.filter_app.
  rewrite (filter_model_labels is_maintenance_label _ (model_bonuses_labels _ _ _))
    by reflexivity.
  subst price_labels km_labels.
  rewrite !filter_if_single by reflexivity.
  subst maintenance_labels. rewrite !app_nil_r. cbn [app].
  destruct (first_keyword_in _ keywords) as [kw |]; [| reflexivity].
  cbn [List.filter]. rewrite maintenance_label_is_maintenance. reflexivity.
Qed.

Lemma not_model_label label :
  forallb (fun l => negb (String.eqb label l)) model_labels = true ->
  ~ In label (snd (model_bonuses self (Py.lower brand) (Py.lower model) text (0, []))).
Proof.
  intros Hnone Hin.
  pose proof (model_bonuses_labels (Py.lower brand) (Py.lower model) text) as Hall.
  rewrite List.Forall_forall in Hall. apply Hall in Hin.
  rewrite forallb_forall in Hnone. apply Hnone in Hin.
  now rewrite String.eqb_refl in Hin.
Qed.

Lemma not_maintenance_label label :
  is_maintenance_label label = false -> ~ In label maintenance_labels.
Proof.
  intros Hnot Hin. subst maintenance_labels.
  destruct (first_keyword_in _ keywords) as [kw |]; [| exact Hin].
  destruct Hin as [<- | []].
  now rewrite maintenance_label_is_maintenance in Hnot.
Qed.

(** The price bonus is awarded only to a non-zero price under 2500. *)
Lemma price_bonus_only_if :
  In "+2 Prix < 2500€"
    (snd (_calculate_bonus_points self brand model title description price mileage)) ->
  price <> 0 /\ price < 2500.
Proof.
  rewrite bonus_labels, !in_app_iff. intros [H | [H | [H | H]]].
  - now apply not_model_label in H.
  - now apply not_maintenance_label in H.
  - apply in_if_single in H as [[Hnz Hlt]%andb_prop _].
    apply negb_true_iff, Z.eqb_neq in Hnz. apply Z.ltb_lt in Hlt. auto.
  - apply in_if_single in H as [_ H]. discriminate H.
Qed.

(** The mileage bonus is awarded only to a non-zero mileage under 100000. *)
Lemma km_bonus_only_if :
  In "+2 Km < 100 000"
    (snd (_calculate_bonus_points self brand model title description price mileage)) ->
  mileage <> 0 /\ mileage < 100000.
Proof.
  rewrite bonus_labels, !in_app_iff. intros [H | [H | [H | H]]].
  - now apply not_model_label in H.
  - now apply not_maintenance_label in H.
  - apply in_if_single in H as [_ H]. discriminate H.
  - apply in_if_single in H as [[Hnz Hlt]%andb_prop _].
    apply negb_true_iff, Z.eqb_neq in Hnz. apply Z.ltb_lt in Hlt. auto.
Qed.

End Labels.

End Bonus.

(** C4 as stated fails: with the keyword for a distribution chain first
  among those that occur in the text, the bonus awarded is the distribution
  one although that keyword mentions a chain. *)
Lemma C4_chain_keyword_awards_distribution :
  ~ (forall (self : Filters.CarFilter) (brand model title description : string)
       (price mileage : Z) (kw : string),
       In kw (Py.get (Filters.positive_keywords (Filters.exclusions self))
                "maintenance" []) ->
       Py.contains (Filters._normalize_text kw)
         (Filters._normalize_text (Py.lower (title ++ " " ++ description))) = true ->
       Spec.mentions_chain kw = true ->
       In "+3 Moteur chaîne"
         (snd (Filters._calculate_bonus_points self brand model title description
                 price mileage))).
Proof.
  intros H.
  specialize (H Samples.sample_filter "Mazda" "2" "Mazda 2"
                "Chaîne de distribution neuve" 2800 120000
                "chaîne de distribution").
  vm_compute in H.
  destruct H as [H | [H | []]]; auto; discriminate H.
Qed.

Example chain_keyword_awards_distribution :
  Filters._calculate_bonus_points Samples.sample_filter "Mazda" "2" "Mazda 2"
    "Chaîne de distribution neuve" 2800 120000
  = (13, ["+10 Mazda 2 essence/chaîne"; "+3 Distribution mentionnée"]).
Proof. vm_compute. reflexivity. Qed.

(** * The rule engine *)

(** The reason of a brand-rule exclusion is none of the reasons the
  general criteria give. *)
Lemma brand_reason_not_general self b t d e why w :
  Filters._check_brand_exclusions self b t d e = (true, Some why, w) ->
  Py.startswith "Prix " why = false /\ Py.startswith "Km " why = false
  /\ Py.startswith "Année " why = false.
Proof.
  unfold Filters._check_brand_exclusions.
  repeat match goal with
         | |- context [match ?x with _ => _ end] => destruct x
         end;
    intros [= <-]; repeat split; reflexivity.
Qed.

Lemma truthy_opt_true v :
  Filters.truthy_opt v = true -> exists x, v = Some x /\ x <> 0.
Proof.
  destruct v as [x |]; [| discriminate]. cbn.
  destruct (Z.eqb_spec x 0); [discriminate |]. eauto.
Qed.

Section Evaluate.

Import Filters Spec.

Variable self : CarFilter.
Variables listing_id title description : string.
Variables price mileage year : option Z.
Variables fuel gearbox brand model engine : option string.

Let result : ScoreResult :=
  evaluate self listing_id title description price mileage year fuel gearbox
    brand model engine.

Let blacklist_check := _check_blacklist self (title ++ " " ++ description).

Let brand_check :=
  _check_brand_exclusions self (default "" brand) title description
    (default "" engine).

Let bonus :=
  _calculate_bonus_points self (default "" brand) (default "" model) title
    description (default 0 price) (default 0 mileage).

Let penalty :=
  _calculate_penalty_points self (default "" brand) title description
    (default "" fuel).

(** Case analysis along the early returns of [evaluate]. *)
Ltac walk_evaluate :=
  subst result blacklist_check brand_check bonus penalty; unfold evaluate;
  repeat
    match goal with
    | |- context [let '(_, _) := ?e in _] => destruct e eqn:?
    | |- context [if ?b then _ else _] => destruct b eqn:?
    end.

(** An evaluation that excludes nothing returns the scored record. *)
Lemma evaluate_scored :
  excluded result = false ->
  result =
    {| total_score := fst bonus + fst penalty;
       priority :=
         priority_of_score (high_threshold self) (medium_threshold self)
           (fst bonus + fst penalty);
       bonuses := snd bonus;
       penalties := snd penalty;
       warnings := snd brand_check;
       excluded := false;
       exclusion_reason := None |}.
Proof.
  unfold priority_of_score. walk_evaluate; cbn in *; try discriminate;
    try congruence; reflexivity.
Qed.

(** An exclusion leaves score, tier and explanation lists at the values
  of a fresh record. *)
Lemma evaluate_excluded_defaults :
  excluded result = true ->
  total_score result = 0 /\ priority result = "low"
  /\ bonuses result = [] /\ penalties result = [].
Proof.
  walk_evaluate; cbn; try discriminate; auto.
Qed.

(** C2. When nothing excludes the listing, the tier is the function of the
  total score and of the two thresholds in effect: high exactly when the
  total is strictly above the high threshold, medium exactly when it is at
  least the medium threshold and not high, low otherwise. *)
Theorem C2_priority_from_total_and_thresholds :
  excluded result = false ->
  priority result =
    priority_of_score (high_threshold self) (medium_threshold self)
      (total_score result)
  /\ (priority result = "high" <-> high_threshold self < total_score result)
  /\ (priority result = "medium" <->
      medium_threshold self <= total_score result
      /\ ~ high_threshold self < total_score result)
  /\ (priority result = "low" <->
      ~ medium_threshold self <= total_score result
      /\ ~ high_threshold self < total_score result).
Proof.
  intros Hscored. rewrite (evaluate_scored Hscored). cbn.
  unfold priority_of_score.
  destruct (Z.ltb_spec (high_threshold self) (fst bonus + fst penalty));
    destruct (Z.leb_spec (medium_threshold self) (fst bonus + fst penalty));
    repeat split; intros; try discriminate; try lia; intuition lia.
Qed.

(** What the brand-rule step hands back when it excludes nothing is the
  list of warnings that [evaluate] keeps from then on. *)
Lemma evaluate_warnings :
  fst blacklist_check = false -> fst (fst brand_check) = false ->
  warnings result = snd brand_check.
Proof.
  walk_evaluate; cbn in *; intros; try discriminate; try congruence; reflexivity.
Qed.

Lemma evaluate_warnings_early :
  fst blacklist_check = true \/ fst (fst brand_check) = true ->
  warnings result = [].
Proof.
  walk_evaluate; cbn in *; intros [|]; try discriminate; try congruence;
    reflexivity.
Qed.

(** C3, as the code has it. An excluded result keeps the score 0, the tier
  low and empty bonus and penalty lists.  Its warnings are empty when the
  blacklist or a brand rule excluded the listing; when a general criterion
  excluded it, they are the warnings the brand-rule step had produced. *)
Theorem C3_excluded_result_fields :
  excluded result = true ->
  total_score result = 0 /\ priority result = "low"
  /\ bonuses result = [] /\ penalties result = []
  /\ (fst blacklist_check = true \/ fst (fst brand_check) = true ->
      warnings result = [])
  /\ (fst blacklist_check = false -> fst (fst brand_check) = false ->
      warnings result = snd brand_check).
Proof.
  intros Hexcl.
  destruct (evaluate_excluded_defaults Hexcl) as (? & ? & ? & ?).
  repeat split; auto using evaluate_warnings, evaluate_warnings_early.
Qed.

Let max_price_limit := default 3000 (max_price (general (criteria self))).
Let max_km_limit := default 150000 (max_km (general (criteria self))).
Let min_year_limit := default 2008 (min_year (general (criteria self))).

(** The three numeric checks fire only on a value that is present, not
  zero and strictly beyond its limit. *)
Lemma general_reason_only_if why :
  exclusion_reason result = Some why ->
  (Py.startswith "Prix " why = true ->
   exists p, price = Some p /\ p <> 0 /\ max_price_limit < p)
  /\ (Py.startswith "Km " why = true ->
      exists km, mileage = Some km /\ km <> 0 /\ max_km_limit < km)
  /\ (Py.startswith "Année " why = true ->
      exists y, year = Some y /\ y <> 0 /\ y < min_year_limit).
Proof.
  subst max_price_limit max_km_limit min_year_limit.
  walk_evaluate; cbn [exclude exclusion_reason ScoreResult_default]; intros Hwhy;
    try discriminate Hwhy.
  all: try (injection Hwhy as <-).
  all: try match goal with
        | H : _check_brand_exclusions _ _ _ _ _ = (_, ?o, _), H' : ?o = Some _ |- _ =>
            subst o;
            destruct (brand_reason_not_general _ _ _ _ _ _ _ H) as (? & ? & ?);
            repeat split; congruence
        end.
  all: repeat split; intros Hs; try (cbn in Hs; discriminate Hs).
  all: clear Hs;
    match goal with
    | H : (truthy_opt ?v && _)%bool = true |- _ =>
        apply andb_prop in H; destruct H as [Hv Hcmp];
        destruct (truthy_opt_true _ Hv) as (x & -> & Hx);
        exists x; cbn in Hcmp; apply Z.ltb_lt in Hcmp; auto
    end.
Qed.

Lemma bonuses_of_result :
  bonuses result = [] \/ bonuses result = snd bonus.
Proof.
  destruct (excluded result) eqn:E.
  - left. apply (evaluate_excluded_defaults E).
  - right. now rewrite (evaluate_scored E).
Qed.

(** With the first two steps and the gearbox check excluding nothing, and
  each of price, mileage and year missing, zero or within its limit, the
  listing is not excluded. *)
Lemma general_checks_pass :
  fst blacklist_check = false -> fst (fst brand_check) = false ->
  (truthy_opt price = false \/ exists p, price = Some p /\ p <= max_price_limit) ->
  (truthy_opt mileage = false \/ exists km, mileage = Some km /\ km <= max_km_limit) ->
  (truthy_opt year = false \/ exists y, year = Some y /\ min_year_limit <= y) ->
  Py.contains "automatique" (Py.lower (default "" gearbox)) = false ->
  excluded result = false.
Proof.
  intros Hb Hr Hp Hk Hy Hg.
  destruct (excluded result) eqn:E; [exfalso | reflexivity].
  assert (Hp' : (truthy_opt price && (max_price_limit <? default 0 price))%bool = false).
  { destruct Hp as [-> | (p & -> & Hp)]; [reflexivity |].
    apply andb_false_iff. right. cbn. now apply Z.ltb_ge. }
  assert (Hk' : (truthy_opt mileage && (max_km_limit <? default 0 mileage))%bool = false).
  { destruct Hk as [-> | (p & -> & Hk)]; [reflexivity |].
    apply andb_false_iff. right. cbn. now apply Z.ltb_ge. }
  assert (Hy' : (truthy_opt year && (default 0 year <? min_year_limit))%bool = false).
  { destruct Hy as [-> | (p & -> & Hy)]; [reflexivity |].
    apply andb_false_iff. right. cbn. now apply Z.ltb_ge. }
  revert E Hb Hr.
  subst max_price_limit max_km_limit min_year_limit.
  walk_evaluate; cbn in *; intros; try discriminate; try congruence.
  rewrite Hg, andb_false_r in *. discriminate.
Qed.

(** C10. A price, mileage or year that is missing or zero is never the
  cause of an exclusion by the maximum-price, maximum-mileage or
  minimum-year check, nor is a value equal to the configured limit; when
  the earlier steps and the gearbox check exclude nothing, such a listing
  is not excluded at all.  A missing or zero price or mileage never earns
  the bonus for a price under 2500 or a mileage under 100000. *)
Theorem C10_missing_or_zero_values :
  (price = None \/ price = Some 0 \/ price = Some max_price_limit ->
   forall why, exclusion_reason result = Some why ->
               Py.startswith "Prix " why = false)
  /\ (mileage = None \/ mileage = Some 0 \/ mileage = Some max_km_limit ->
      forall why, exclusion_reason result = Some why ->
                  Py.startswith "Km " why = false)
  /\ (year = None \/ year = Some 0 \/ year = Some min_year_limit ->
      forall why, exclusion_reason result = Some why ->
                  Py.startswith "Année " why = false)
  /\ (fst blacklist_check = false -> fst (fst brand_check) = false ->
      Py.contains "automatique" (Py.lower (default "" gearbox)) = false ->
      price = None \/ price = Some 0 \/ price = Some max_price_limit ->
      mileage = None \/ mileage = Some 0 \/ mileage = Some max_km_limit ->
      year = None \/ year = Some 0 \/ year = Some min_year_limit ->
      excluded result = false)
  /\ (price = None \/ price = Some 0 -> ~ In "+2 Prix < 2500€" (bonuses result))
  /\ (mileage = None \/ mileage = Some 0 ->
      ~ In "+2 Km < 100 000" (bonuses result)).
Proof.
  repeat split.
  - intros Hp why Hwhy.
    destruct (Py.startswith "Prix " why) eqn:E; [exfalso | reflexivity].
    destruct (general_reason_only_if why Hwhy) as (H & _ & _).
    destruct (H E) as (p & Hp' & Hnz & Hlt).
    destruct Hp as [Hp | [Hp | Hp]]; rewrite Hp in Hp'; inversion Hp'; lia.
  - intros Hp why Hwhy.
    destruct (Py.startswith "Km " why) eqn:E; [exfalso | reflexivity].
    destruct (general_reason_only_if why Hwhy) as (_ & H & _).
    destruct (H E) as (p & Hp' & Hnz & Hlt).
    destruct Hp as [Hp | [Hp | Hp]]; rewrite Hp in Hp'; inversion Hp'; lia.
  - intros Hp why Hwhy.
    destruct (Py.startswith "Année " why) eqn:E; [exfalso | reflexivity].
    destruct (general_reason_only_if why Hwhy) as (_ & _ & H).
    destruct (H E) as (p & Hp' & Hnz & Hlt).
    destruct Hp as [Hp | [Hp | Hp]]; rewrite Hp in Hp'; inversion Hp'; lia.
  - intros Hb Hr Hg Hp Hk Hy.
    apply general_checks_pass; auto.
    + destruct Hp as [-> | [-> | ->]]; [now left | now left |].
      right. eexists. split; [reflexivity | lia].
    + destruct Hk as [-> | [-> | ->]]; [now left | now left |].
      right. eexists. split; [reflexivity | lia].
    + destruct Hy as [-> | [-> | ->]]; [now left | now left |].
      right. eexists. split; [reflexivity | lia].
  - intros Hp Hin.
    destruct bonuses_of_result as [E | E]; rewrite E in Hin; [exact Hin |].
    apply price_bonus_only_if in Hin.
    destruct Hp as [Hp | Hp]; rewrite Hp in Hin; cbn in Hin; lia.
  - intros Hk Hin.
    destruct bonuses_of_result as [E | E]; rewrite E in Hin; [exact Hin |].
    apply km_bonus_only_if in Hin.
    destruct Hk as [Hk | Hk]; rewrite Hk in Hin; cbn in Hin; lia.
Qed.

End Evaluate.

Import Filters Spec Samples.

(** The tier of a scored sample listing. *)
Lemma C2_priority_from_total_and_thresholds_witness :
  let r :=
    evaluate sample_filter "123" "Mazda 2 essence" "Carnet d'entretien à jour"
      (Some 2000) (Some 90000) (Some 2012) (Some "essence") (Some "manuelle")
      (Some "Mazda") (Some "2") None in
  priority r = priority_of_score 15 10 17.
Proof.
  refine (proj1 (C2_priority_from_total_and_thresholds sample_filter "123"
                   "Mazda 2 essence" "Carnet d'entretien à jour"
                   (Some 2000) (Some 90000) (Some 2012) (Some "essence")
                   (Some "manuelle") (Some "Mazda") (Some "2") None _)).
  vm_compute. reflexivity.
Defined.

(** C3 as stated fails: a Honda listing without a word for a manual
  gearbox gets the brand-rule warning, and the price check that follows
  excludes it with that warning still in the result. *)
Lemma C3_excluded_with_warning :
  ~ (forall (self : CarFilter) (listing_id title description : string)
       (price mileage year : option Z)
       (fuel gearbox brand model engine : option string),
       let r :=
         evaluate self listing_id title description price mileage year fuel
           gearbox brand model engine in
       excluded r = true ->
       total_score r = 0 /\ priority r = "low" /\ bonuses r = []
       /\ penalties r = [] /\ warnings r = []).
Proof.
  intros H.
  specialize (H sample_filter "42" "Honda Jazz 1.4" "Bon état"
                (Some 5000) (Some 120000) (Some 2010) (Some "essence") None
                (Some "Honda") (Some "Jazz") None).
  vm_compute in H. specialize (H eq_refl).
  destruct H as (_ & _ & _ & _ & H). discriminate H.
Qed.

Example excluded_with_warning :
  evaluate sample_filter "42" "Honda Jazz 1.4" "Bon état"
    (Some 5000) (Some 120000) (Some 2010) (Some "essence") None
    (Some "Honda") (Some "Jazz") None
  = {| total_score := 0; priority := "low"; bonuses := []; penalties := [];
       warnings := ["Vérifier absence CVT/automatique"];
       excluded := true;
       exclusion_reason := Some "Prix 5000€ > max 3000€" |}.
Proof. vm_compute. reflexivity. Qed.

(** The amended statement at the listing of the counterexample. *)
Lemma C3_excluded_result_fields_witness :
  let r :=
    evaluate sample_filter "42" "Honda Jazz 1.4" "Bon état"
      (Some 5000) (Some 120000) (Some 2010) (Some "essence") None
      (Some "Honda") (Some "Jazz") None in
  total_score r = 0 /\ priority r = "low" /\ bonuses r = [] /\ penalties r = [].
Proof.
  pose proof (C3_excluded_result_fields sample_filter "42" "Honda Jazz 1.4"
                "Bon état" (Some 5000) (Some 120000) (Some 2010)
                (Some "essence") None (Some "Honda") (Some "Jazz") None) as H.
  cbv zeta in H.
  destruct H as (H1 & H2 & H3 & H4 & _); [vm_compute; reflexivity |].
  repeat split; assumption.
Defined.

(** A listing without price, mileage or year passes the general checks
  and earns no price bonus. *)
Lemma C10_missing_or_zero_values_witness :
  let r :=
    evaluate sample_filter "7" "Toyota Yaris" "Bon état" None (Some 0) None
      (Some "essence") (Some "manuelle") (Some "Toyota") (Some "Yaris") None in
  excluded r = false /\ ~ In "+2 Prix < 2500€" (bonuses r).
Proof.
  pose proof (C10_missing_or_zero_values sample_filter "7" "Toyota Yaris"
                "Bon état" None (Some 0) None (Some "essence")
                (Some "manuelle") (Some "Toyota") (Some "Yaris") None) as H.
  cbv zeta in H. destruct H as (_ & _ & _ & Hpass & Hbonus & _).
  split.
  - apply Hpass; [vm_compute; reflexivity | vm_compute; reflexivity
                 | vm_compute; reflexivity | now left | now right; left | now left].
  - apply Hbonus. now left.
Defined.

(** * The extractor *)

Section Extractor.

Import Scraper Spec.

Lemma digit_not_space c : Py.is_digit c = true -> Py.is_int_space c = false.
Proof.
  unfold Py.is_digit, Py.is_int_space, Py.char_in_range.
  rewrite !andb_true_iff, !Nat.leb_le. intros [Hlo Hhi].
  apply orb_false_iff. split.
  - apply andb_false_iff. right. apply Nat.leb_gt. lia.
  - apply Nat.eqb_neq. lia.
Qed.

Lemma digit_not_sign c :
  Py.is_digit c = true -> Ascii.eqb c "-" = false /\ Ascii.eqb c "+" = false.
Proof.
  intros Hd. split; apply Ascii.eqb_neq; intros ->; discriminate Hd.
Qed.

Lemma lstrip_digits c t :
  Py.is_digit c = true -> Py.lstrip Py.is_int_space (String c t) = String c t.
Proof. intros Hd. cbn. now rewrite (digit_not_space _ Hd). Qed.

Lemma rstrip_digits g :
  Py.all_chars Py.is_digit g = true -> Py.rstrip Py.is_int_space g = g.
Proof.
  induction g as [| c t IH]; [reflexivity |].
  cbn. intros [Hc Ht]%andb_prop. rewrite (IH Ht).
  destruct t; [now rewrite (digit_not_space _ Hc) | reflexivity].
Qed.

Lemma int_body_digits g :
  Py.all_chars Py.is_digit g = true ->
  forall prev acc,
    (prev = true \/ g <> EmptyString) ->
    Py.int_body prev acc g = Some (Py.digits_value acc g).
Proof.
  induction g as [| c t IH]; intros Hall prev acc Hne.
  - destruct Hne as [-> | Hne]; [reflexivity | contradiction].
  - cbn in Hall. apply andb_prop in Hall as [Hc Ht].
    cbn. rewrite Hc. apply IH; auto.
Qed.

(** [int()] of a non-empty run of digits is the number it writes. *)
Lemma int_digits g :
  g <> EmptyString -> Py.all_chars Py.is_digit g = true ->
  Py.int g = Some (decimal g).
Proof.
  intros Hne Hall. destruct g as [| c t]; [contradiction |].
  pose proof Hall as Hall'. cbn in Hall'. apply andb_prop in Hall' as [Hc Ht].
  unfold Py.int.
  rewrite (lstrip_digits _ _ Hc), (rstrip_digits _ Hall).
  destruct (digit_not_sign _ Hc) as [-> ->].
  apply int_body_digits; auto.
Qed.

Lemma four_digits_here_sound s g :
  four_digits_here s = Some g ->
  exists post, s = g ++ post /\ String.length g = 4%nat
               /\ Py.all_chars Py.is_digit g = true.
Proof.
  destruct s as [| a [| b [| c [| d post]]]]; try discriminate.
  cbn. destruct (Py.is_digit a) eqn:Ha; [| discriminate].
  destruct (Py.is_digit b) eqn:Hb; [| discriminate].
  destruct (Py.is_digit c) eqn:Hc; [| discriminate].
  destruct (Py.is_digit d) eqn:Hd; [| discriminate].
  intros [= <-]. exists post. cbn. rewrite Ha, Hb, Hc, Hd. auto.
Qed.

Lemma four_digits_here_complete g post :
  String.length g = 4%nat -> Py.all_chars Py.is_digit g = true ->
  four_digits_here (g ++ post) = Some g.
Proof.
  destruct g as [| a [| b [| c [| d [| e rest]]]]]; try discriminate.
  intros _ Hall. cbn [Py.all_chars] in Hall.
  apply andb_prop in Hall as [Ha Hall]. apply andb_prop in Hall as [Hb Hall].
  apply andb_prop in Hall as [Hc Hall]. apply andb_prop in Hall as [Hd _].
  change (four_digits_here (String a (String b (String c (String d post))))
          = Some (String a (String b (String c (String d EmptyString))))).
  unfold four_digits_here. now rewrite Ha, Hb, Hc, Hd.
Qed.

Lemma four_digits_at_0 s g :
  four_digits_at s 0 g <-> four_digits_here s = Some g.
Proof.
  split.
  - intros (pre & post & -> & Hpre & Hlen & Hall).
    destruct pre; [| discriminate]. now apply (four_digits_here_complete g post).
  - intros (post & -> & Hlen & Hall)%four_digits_here_sound.
    exists EmptyString, post. auto.
Qed.

Lemma four_digits_at_S c s i g :
  four_digits_at (String c s) (S i) g <-> four_digits_at s i g.
Proof.
  split.
  - intros (pre & post & Hs & Hpre & Hlen & Hall).
    destruct pre as [| c' pre]; [discriminate |].
    injection Hs as -> ->. injection Hpre as Hpre.
    exists pre, post. auto.
  - intros (pre & post & -> & Hpre & Hlen & Hall).
    exists (String c pre), post. cbn. auto.
Qed.

(** The search returns the first run of four digits. *)
Lemma search_four_digits_sound s g :
  search_four_digits s = Some g -> leftmost_four_digits s g.
Proof.
  induction s as [| c t IH].
  - cbn. discriminate.
  - cbn [search_four_digits].
    destruct (four_digits_here (String c t)) as [g0 |] eqn:Hhere.
    + intros [= <-]. exists 0%nat. split; [now apply four_digits_at_0 | lia].
    + intros (i & Hat & Hmin)%IH. exists (S i). split.
      * now apply four_digits_at_S.
      * intros [| j] g' Hj.
        -- rewrite four_digits_at_0, Hhere. discriminate.
        -- rewrite four_digits_at_S. apply Hmin. lia.
Qed.

Lemma search_four_digits_none s :
  search_four_digits s = None -> forall i g, ~ four_digits_at s i g.
Proof.
  induction s as [| c t IH].
  - intros _ i g (pre & post & Hs & _ & Hlen & _).
    destruct pre; [destruct g; discriminate | discriminate].
  - cbn [search_four_digits].
    destruct (four_digits_here (String c t)) as [g0 |] eqn:Hhere; [discriminate |].
    intros Hnone [| i] g.
    + rewrite four_digits_at_0, Hhere. discriminate.
    + rewrite four_digits_at_S. now apply IH.
Qed.

Lemma same_offset_same_run pre pre' g g' post post' :
  pre ++ g ++ post = pre' ++ g' ++ post' ->
  String.length pre = String.length pre' ->
  String.length g = 4%nat -> String.length g' = 4%nat ->
  g' = g.
Proof.
  revert pre'. induction pre as [| c pre IH]; intros [| c' pre'] Hs Hpre Hg Hg';
    try discriminate.
  - destruct g as [| a [| b [| x [| d [| ? ?]]]]]; try discriminate.
    destruct g' as [| a' [| b' [| x' [| d' [| ? ?]]]]]; try discriminate.
    cbn in Hs. injection Hs as -> -> -> -> _. reflexivity.
  - cbn in Hs. injection Hs as _ Hs. cbn in Hpre. injection Hpre as Hpre.
    eapply IH; eauto.
Qed.

Lemma leftmost_four_digits_unique s g g' :
  leftmost_four_digits s g -> search_four_digits s = Some g' -> g' = g.
Proof.
  intros (i & Hat & Hmin) Hsearch.
  apply search_four_digits_sound in Hsearch as (i' & Hat' & Hmin').
  destruct (Nat.lt_trichotomy i i') as [Hlt | [Heq | Hlt]].
  - now apply Hmin' in Hat.
  - destruct Hat as (pre & post & Hs & Hpre & Hlen & _).
    destruct Hat' as (pre' & post' & Hs' & Hpre' & Hlen' & _).
    apply (same_offset_same_run pre pre' g g' post post'); congruence.
  - now apply Hmin in Hat'.
Qed.

(** The year that [parse_year] reads from a registration date. *)
Lemma parse_year_first attrs regdate :
  attrs !! "regdate" = Some regdate ->
  (forall g, leftmost_four_digits regdate g ->
             parse_year attrs = Some (Some (decimal g)))
  /\ ((forall i g, ~ four_digits_at regdate i g) ->
      parse_year attrs = Some None).
Proof.
  intros Hget. unfold parse_year, Py.get. rewrite Hget.
  change (default EmptyString (Some regdate)) with regdate.
  split.
  - intros g Hfirst.
    destruct (Py.truthy regdate) eqn:Htruthy.
    + destruct (search_four_digits regdate) as [g' |] eqn:Hsearch.
      * rewrite (leftmost_four_digits_unique _ _ _ Hfirst Hsearch).
        destruct Hfirst as (i & (pre & post & _ & _ & Hlen & Hall) & _).
        rewrite int_digits; [reflexivity | | exact Hall].
        intros ->. discriminate.
      * destruct Hfirst as (i & Hat & _).
        now apply (search_four_digits_none _ Hsearch) in Hat.
    + destruct regdate; [| discriminate].
      destruct Hfirst as (i & (pre & post & Hs & _ & Hlen & _) & _).
      destruct pre; [destruct g; discriminate | discriminate].
  - intros Hnone.
    destruct (Py.truthy regdate); [| reflexivity].
    destruct (search_four_digits regdate) as [g' |] eqn:Hsearch; [| reflexivity].
    apply search_four_digits_sound in Hsearch as (i & Hat & _).
    now apply Hnone in Hat.
Qed.

(** What a parsed ad record carries: the id as [str] renders it, not
  empty, and the year of [parse_year]. *)
Lemma _parse_ad_json_fields ad brand model l :
  _parse_ad_json ad brand model = Some l ->
  listing_id l = str_of_list_id (list_id ad)
  /\ Py.truthy (listing_id l) = true
  /\ parse_year (collect_attributes (default [] (attributes ad))) = Some (year l).
Proof.
  unfold _parse_ad_json.
  destruct (Py.truthy (str_of_list_id (list_id ad))) eqn:Hid; [| discriminate].
  cbn [negb].
  destruct (parse_mileage _) as [km |]; [| discriminate].
  destruct (parse_year _) as [y |]; [| discriminate].
  destruct (parse_price ad) as [p |]; [| discriminate].
  cbn. intros [= <-]. cbn. auto.
Qed.

(** C9, as amended. In the structured-data path the year of a listing is
  the number written by the leftmost four digits in a row of the
  registration date, whether or not more digits follow them, and there is
  no year when the date has no four digits in a row; this for a date of
  ASCII characters.  The dates 01/2015, 2018-06 and 2012 give 2015, 2018
  and 2012. *)
Theorem C9_year_leftmost_four_digits :
  (forall (ad : Ad) (brand : string) (model : option string) (l : CarListing)
          (regdate : string),
      collect_attributes (default [] (attributes ad)) !! "regdate" = Some regdate ->
      Py.is_ascii regdate = true ->
      _parse_ad_json ad brand model = Some l ->
      (forall g, leftmost_four_digits regdate g -> year l = Some (decimal g))
      /\ ((forall i g, ~ four_digits_at regdate i g) -> year l = None))
  /\ year <$> _parse_ad_json (Samples.ad_with_regdate "01/2015") "mazda" (Some "2")
     = Some (Some 2015)
  /\ year <$> _parse_ad_json (Samples.ad_with_regdate "2018-06") "mazda" (Some "2")
     = Some (Some 2018)
  /\ year <$> _parse_ad_json (Samples.ad_with_regdate "2012") "mazda" (Some "2")
     = Some (Some 2012).
Proof.
  split; [| repeat split; vm_compute; reflexivity].
  intros ad brand model l regdate Hget _ Hparse.
  apply _parse_ad_json_fields in Hparse as (_ & _ & Hyear).
  destruct (parse_year_first _ _ Hget) as [Hsome Hnone].
  split.
  - intros g Hg. specialize (Hsome g Hg). congruence.
  - intros Hno. specialize (Hnone Hno). congruence.
Qed.

Lemma search_listing_id_truthy s g :
  search_listing_id s = Some g -> Py.truthy g = true.
Proof.
  induction s as [| c t IH]; [discriminate |].
  cbn [search_listing_id].
  destruct (listing_id_here (String c t)) as [g0 |] eqn:Hhere; [| exact IH].
  intros [= <-]. unfold listing_id_here in Hhere.
  destruct (Ascii.eqb_spec c "/") as [-> | Hc].
  - destruct (Py.span Py.is_digit t) as [ds rest].
    destruct (Py.truthy ds) eqn:Hds; [| discriminate].
    destruct (Py.startswith ".htm" rest); [| discriminate].
    now injection Hhere as <-.
  - exfalso.
    destruct c as [[] [] [] [] [] [] [] []]; try discriminate Hhere.
    now apply Hc.
Qed.

Lemma parse_card_id card brand model l :
  parse_card card brand model = Parsed l ->
  search_listing_id (default "" (href card)) = Some (listing_id l).
Proof.
  unfold parse_card.
  destruct (_ || _)%bool; [discriminate |].
  destruct (search_listing_id _) as [id |]; [| discriminate].
  destruct (match price_text card with Some _ => _ | None => _ end);
    [| discriminate].
  now intros [= <-].
Qed.

Lemma Forall_omap {A B} (P : B -> Prop) (f : A -> option B) xs :
  (forall x y, f x = Some y -> P y) -> Forall P (omap f xs).
Proof.
  intros Hf. induction xs as [| x xs IH]; [constructor |].
  cbn. destruct (f x) as [y |] eqn:E; [constructor; eauto | exact IH].
Qed.

(** No listing the extractor returns has an empty id: an ad record whose
  [list_id] is absent or the empty string gives no listing, an anchor
  whose [href] holds no id gives none, and the listings of both paths, and
  of their combination, carry non-empty ids. *)
Lemma no_empty_listing_id :
  (forall ad brand model l,
      _parse_ad_json ad brand model = Some l -> listing_id l <> EmptyString)
  /\ (forall ad brand model,
        list_id ad = None \/ list_id ad = Some (IdStr EmptyString) ->
        _parse_ad_json ad brand model = None)
  /\ (forall card brand model,
        search_listing_id (default "" (href card)) = None ->
        parse_card card brand model = Skipped)
  /\ (forall soup brand model,
        Forall (fun l => listing_id l <> EmptyString)
          (_parse_html_fallback soup brand model))
  /\ (forall soup brand model,
        Forall (fun l => listing_id l <> EmptyString)
          (_parse_search_results soup brand model)).
Proof.
  assert (Hjson : forall ad brand model l,
             _parse_ad_json ad brand model = Some l -> listing_id l <> EmptyString).
  { intros ad brand model l Hparse Hempty.
    apply _parse_ad_json_fields in Hparse as (_ & Hid & _).
    rewrite Hempty in Hid. discriminate. }
  assert (Hhtml : forall soup brand model,
             Forall (fun l => listing_id l <> EmptyString)
               (_parse_html_fallback soup brand model)).
  { intros soup brand model. unfold _parse_html_fallback.
    apply Forall_omap. intros card l Hcard.
    destruct (parse_card card brand model) as [| | l'] eqn:E; try discriminate.
    injection Hcard as ->.
    apply parse_card_id, search_listing_id_truthy in E.
    intros Hempty. rewrite Hempty in E. discriminate. }
  repeat split.
  - exact Hjson.
  - intros ad brand model Hid. unfold _parse_ad_json.
    destruct Hid as [-> | ->]; reflexivity.
  - intros card brand model Hnone. unfold parse_card. rewrite Hnone.
    destruct (_ || _)%bool; reflexivity.
  - exact Hhtml.
  - intros soup brand model. unfold _parse_search_results.
    destruct (next_data soup) as [| | ads]; try apply Hhtml.
    destruct (omap _ ads) as [| l ls] eqn:E; [apply Hhtml |].
    rewrite <- E. apply Forall_omap. intros ad l'. apply Hjson.
Qed.

End Extractor.

(** The year of a listing parsed from a record dated 01/2015. *)
Lemma C9_year_leftmost_four_digits_witness :
  exists l,
    Scraper._parse_ad_json (Samples.ad_with_regdate "01/2015") "mazda" (Some "2")
    = Some l
    /\ Scraper.year l = Some 2015.
Proof.
  destruct (Scraper._parse_ad_json (Samples.ad_with_regdate "01/2015") "mazda"
              (Some "2")) as [l |] eqn:E; [| vm_compute in E; discriminate E].
  exists l. split; [reflexivity |].
  refine (proj1 (proj1 C9_year_leftmost_four_digits
                   (Samples.ad_with_regdate "01/2015") "mazda" (Some "2") l
                   "01/2015" _ _ E) "2015" _).
  - vm_compute. reflexivity.
  - reflexivity.
  - apply search_four_digits_sound. reflexivity.
Defined.

(** C9, the counterexample. In the date 123456 2015 the first run of
  exactly four digits is 2015, and the year read is 1234, the four digits
  that open the longer run. *)
Lemma C9_longer_run_taken :
  Spec.first_run_of_four "123456 2015" = Some "2015"
  /\ Scraper.year
       <$> Scraper._parse_ad_json (Samples.ad_with_regdate "123456 2015") "mazda"
             (Some "2")
     = Some (Some 1234).
Proof. split; vm_compute; reflexivity. Qed.

(** C8, the failing record. An ad record whose [list_id] is the JSON
  null has no listing id, and it is not dropped: [str] renders the null
  as the text None, which is not empty, and the record becomes a listing
  of the id None, at the address of that id, also in the result of the
  whole page. *)
Lemma C8_null_list_id_kept :
  let ad := Samples.ad_with_id (Some Scraper.IdNull) in
  let page :=
    {| Scraper.next_data := Scraper.SearchData [ad];
       Scraper.cards_by_test_id := []; Scraper.cards_by_class := [] |} in
  (Scraper.listing_id <$> Scraper._parse_ad_json ad "mazda" None) = Some "None"
  /\ (Scraper.url <$> Scraper._parse_ad_json ad "mazda" None)
     = Some "https://www.leboncoin.fr/ad/voitures/None.htm"
  /\ map Scraper.listing_id (Scraper._parse_search_results page "mazda" None)
     = ["None"]
  /\ Scraper._parse_ad_json (Samples.ad_with_id None) "mazda" None = None.
Proof. repeat split; vm_compute; reflexivity. Qed.

Example list_id_renderings :
  Scraper.listing_id
    <$> Scraper._parse_ad_json (Samples.ad_with_id (Some (Scraper.IdInt 123)))
          "mazda" None = Some "123"
  /\ Scraper._parse_ad_json (Samples.ad_with_id None) "mazda" None = None
  /\ Scraper._parse_ad_json (Samples.ad_with_id (Some (Scraper.IdStr EmptyString)))
       "mazda" None = None
  /\ Scraper.listing_id
       <$> Scraper._parse_ad_json (Samples.ad_with_id (Some Scraper.IdNull))
             "mazda" None = Some "None".
Proof. repeat split; vm_compute; reflexivity. Qed.

(** * The fetcher *)

Section Fetcher.

Import Scraper Spec.

Variable env : Env.
Variables url method : string.

Lemma attempts_cons client attempt rest st :
  attempts env client url method (attempt :: rest) st =
  if answers 200 (server env (requests st))
  then (match server env (requests st) with
        | Answered r => Some r
        | _ => None
        end, snd (send env client url method st))
  else
    attempts env client url method rest
      (backoff attempt
         (if answers 403 (server env (requests st))
          then set_client None (snd (send env client url method st))
          else snd (send env client url method st))).
Proof.
  cbn [attempts send]. unfold answers.
  destruct (server env (requests st)) as [r | |]; cbn [snd]; try reflexivity.
Qed.

(** The state in which the loop goes on after an attempt that failed. *)
Let next (client : Client) (attempt : Z) (st : State) : State :=
  backoff attempt
    (if answers 403 (server env (requests st))
     then set_client None (snd (send env client url method st))
     else snd (send env client url method st)).

Let verb : string := if String.eqb (Py.upper method) "POST" then "POST" else "GET".

Lemma next_fields client attempt st :
  max_retries (next client attempt st) = max_retries st
  /\ draws (next client attempt st) = draws st
  /\ requests (next client attempt st) = S (requests st)
  /\ _client (next client attempt st)
     = (if answers 403 (server env (requests st)) then None else _client st)
  /\ trace (next client attempt st)
     = (trace st ++ Requested verb url client
          :: (if attempt <? max_retries st - 1 then [BackoffSleep attempt] else []))%list.
Proof.
  subst next verb. unfold backoff, send, set_client, record.
  destruct (answers 403 (server env (requests st)));
    cbn [max_retries draws requests _client trace snd];
    destruct (attempt <? max_retries st - 1);
    cbn [max_retries draws requests _client trace];
    rewrite <- ?app_assoc; auto.
Qed.

(** The loop keeps the retry budget and draws nothing. *)
Lemma attempts_keeps client todo st :
  max_retries (snd (attempts env client url method todo st)) = max_retries st
  /\ draws (snd (attempts env client url method todo st)) = draws st.
Proof.
  revert st. induction todo as [| attempt rest IH]; intros st; [auto |].
  rewrite attempts_cons.
  destruct (answers 200 (server env (requests st))); [cbn; auto |].
  fold (next client attempt st).
  destruct (IH (next client attempt st)) as [-> ->].
  destruct (next_fields client attempt st) as (-> & -> & _). auto.
Qed.

Lemma request_clients_requested v u c l :
  request_clients (Requested v u c :: l) = c :: request_clients l.
Proof. reflexivity. Qed.

Lemma request_clients_app l1 l2 :
  request_clients (l1 ++ l2) = (request_clients l1 ++ request_clients l2)%list.
Proof. unfold request_clients. apply omap_app. Qed.

(** The loop issues at most one request per attempt, each with the client
  it was given, and logs no draw. *)
Lemma attempts_trace client todo st :
  exists n new,
    (n <= length todo)%nat
    /\ requests (snd (attempts env client url method todo st)) = (requests st + n)%nat
    /\ trace (snd (attempts env client url method todo st)) = (trace st ++ new)%list
    /\ request_clients new = repeat client n
    /\ (forall i, ~ In (Drew i) new).
Proof.
  revert st. induction todo as [| attempt rest IH]; intros st.
  - exists 0%nat, []. cbn. rewrite app_nil_r, Nat.add_0_r. repeat split; auto.
  - rewrite attempts_cons.
    destruct (answers 200 (server env (requests st))).
    + exists 1%nat, [Requested verb url client].
      split; [cbn; lia |]. split; [cbn; lia |].
      split; [reflexivity |]. split; [reflexivity |].
      intros i [H | []]. discriminate H.
    + fold (next client attempt st).
      destruct (IH (next client attempt st)) as (n & new & Hn & Hreq & Htr & Hcl & Hdr).
      destruct (next_fields client attempt st) as (_ & _ & Hr & _ & Ht).
      exists (S n),
        (Requested verb url client
           :: (if attempt <? max_retries st - 1 then [BackoffSleep attempt] else [])
           ++ new)%list.
      repeat split.
      * cbn. lia.
      * rewrite Hreq, Hr. lia.
      * rewrite Htr, Ht, <- app_assoc. reflexivity.
      * rewrite request_clients_requested, request_clients_app, Hcl.
        now destruct (attempt <? max_retries st - 1).
      * intros i [H | H]; [discriminate H |].
        apply in_app_iff in H as [H | H]; [| now apply Hdr in H].
        destruct (attempt <? max_retries st - 1); [| exact H].
        destruct H as [H | []]. discriminate H.
Qed.

(** Without a response 200 within the attempts left, the loop ends with
  no response after a request for each of them. *)
Lemma attempts_exhausted client todo st :
  (forall k, (requests st <= k < requests st + length todo)%nat ->
             answers 200 (server env k) = false) ->
  fst (attempts env client url method todo st) = None
  /\ requests (snd (attempts env client url method todo st))
     = (requests st + length todo)%nat.
Proof.
  revert st. induction todo as [| attempt rest IH]; intros st Hno.
  - cbn. auto.
  - rewrite attempts_cons, (Hno (requests st)) by (cbn; lia).
    fold (next client attempt st).
    destruct (next_fields client attempt st) as (_ & _ & Hr & _ & _).
    destruct (IH (next client attempt st)) as [-> ->].
    + intros k Hk. apply Hno. rewrite Hr in Hk. cbn. lia.
    + rewrite Hr. cbn. split; [reflexivity | lia].
Qed.

(** A response the loop returns has the status 200. *)
Lemma attempts_success client todo st r :
  fst (attempts env client url method todo st) = Some r -> status_code r = 200.
Proof.
  revert st. induction todo as [| attempt rest IH]; intros st; [discriminate |].
  rewrite attempts_cons. unfold answers.
  destruct (server env (requests st)) as [r' | |]; try apply IH.
  destruct (Z.eqb_spec (status_code r') 200) as [E | _]; [| apply IH].
  cbn. now intros [= <-].
Qed.

(** Once no client is stored, the loop stores none. *)
Lemma attempts_client_none client todo st :
  _client st = None ->
  _client (snd (attempts env client url method todo st)) = None.
Proof.
  revert st. induction todo as [| attempt rest IH]; intros st Hnone; [exact Hnone |].
  rewrite attempts_cons.
  destruct (answers 200 (server env (requests st))); [exact Hnone |].
  fold (next client attempt st). apply IH.
  destruct (next_fields client attempt st) as (_ & _ & _ & -> & _).
  now destruct (answers 403 _).
Qed.

(** A response 403 to one of the requests of the loop leaves no client
  stored. *)
Lemma attempts_403_discards client todo st k :
  (requests st + k < requests (snd (attempts env client url method todo st)))%nat ->
  answers 403 (server env (requests st + k)) = true ->
  _client (snd (attempts env client url method todo st)) = None.
Proof.
  revert st k. induction todo as [| attempt rest IH]; intros st k Hk H403.
  - cbn in Hk. lia.
  - revert Hk. rewrite attempts_cons.
    destruct (answers 200 (server env (requests st))) eqn:E200.
    + cbn. intros Hk. assert (k = 0%nat) as -> by lia.
      rewrite Nat.add_0_r in H403. unfold answers in *.
      destruct (server env (requests st)) as [r | |]; try discriminate.
      apply Z.eqb_eq in E200, H403. congruence.
    + fold (next client attempt st). intros Hk.
      destruct (next_fields client attempt st) as (_ & _ & Hr & Hc & _).
      destruct k as [| k].
      * apply attempts_client_none. rewrite Hc.
        rewrite Nat.add_0_r in H403. now rewrite H403.
      * apply (IH (next client attempt st) k).
        -- rewrite Hr. lia.
        -- rewrite Hr. now replace (S (requests st) + k)%nat with (requests st + S k)%nat by lia.
Qed.

End Fetcher.

Section MakeRequest.

Import Scraper Spec.

Variable env : Env.

(** The client a call works with: the stored one, or one built around a
  header set drawn from the pool. *)
Let call_client (st : State) : Client := fst (_get_client env (_respect_rate_limit st)).

Let ready (st : State) : State := snd (_get_client env (_respect_rate_limit st)).

Lemma _make_request_unfold url method st :
  _make_request env url method st =
  attempts env (call_client st) url method (range (max_retries st)) (ready st).
Proof.
  unfold _make_request. subst call_client ready. cbv beta.
  destruct (_get_client env (_respect_rate_limit st)) as [c st2] eqn:E.
  cbn [fst snd]. f_equal. f_equal.
  revert E. unfold _get_client, _respect_rate_limit, record.
  cbn [_client]. destruct (_client st); cbn; now intros [= _ <-].
Qed.

Lemma ready_fields st :
  max_retries (ready st) = max_retries st
  /\ requests (ready st) = requests st
  /\ draws (ready st) = (draws st + draws_to_build (_client st))%nat
  /\ _client (ready st) = Some (call_client st)
  /\ exists pre, trace (ready st) = (trace st ++ pre)%list /\ request_clients pre = [].
Proof.
  subst ready call_client. unfold _get_client, _respect_rate_limit, record.
  cbn [_client]. destruct (_client st) as [c |]; cbn.
  - repeat split; auto. exists [RateLimitWait]. auto.
  - repeat split; auto; [lia |].
    eexists [RateLimitWait; Drew _]. rewrite <- app_assoc. split; reflexivity.
Qed.

Lemma call_client_stored st c : _client st = Some c -> call_client st = c.
Proof.
  intros H. subst call_client. unfold _get_client, _respect_rate_limit, record.
  cbn [_client]. now rewrite H.
Qed.

Lemma call_client_built st :
  _client st = None ->
  user_agent_of (call_client st)
  = Some (nth (choice env (draws st) mod length USER_AGENTS) USER_AGENTS EmptyString)
  /\ In (nth (choice env (draws st) mod length USER_AGENTS) USER_AGENTS EmptyString)
       USER_AGENTS.
Proof.
  intros H. subst call_client. unfold _get_client, _respect_rate_limit, record.
  cbn [_client]. rewrite H. split; [reflexivity |].
  apply nth_In. apply Nat.mod_upper_bound. discriminate.
Qed.

Lemma length_range n : length (range n) = Z.to_nat n.
Proof. unfold range. now rewrite length_map, length_seq. Qed.

Lemma new_events_app st st' new :
  trace st' = (trace st ++ new)%list -> new_events st st' = new.
Proof.
  intros H. unfold new_events. rewrite H. now rewrite skipn_app, skipn_all, Nat.sub_diag.
Qed.

(** C6. When none of the [max_retries] attempts of a call is answered
  with the status 200, [_make_request] returns no response, after one
  request per attempt, and [search_cars] returns the empty list. *)
Theorem C6_exhausted_retries_yield_empty_result (st : State) :
  (forall k,
      (requests st <= k < requests st + Z.to_nat (max_retries st))%nat ->
      answers 200 (server env k) = false) ->
  (forall url method,
      fst (_make_request env url method st) = None
      /\ requests (snd (_make_request env url method st))
         = (requests st + Z.to_nat (max_retries st))%nat)
  /\ (forall brand model max_price max_km min_year fuel gearbox max_results,
        fst (search_cars env brand model max_price max_km min_year fuel gearbox
               max_results st) = []).
Proof.
  intros Hno.
  assert (Hreq : forall url method,
             fst (_make_request env url method st) = None
             /\ requests (snd (_make_request env url method st))
                = (requests st + Z.to_nat (max_retries st))%nat).
  { intros url method. rewrite _make_request_unfold.
    destruct (ready_fields st) as (_ & Hr & _).
    rewrite <- Hr, <- length_range. apply attempts_exhausted.
    intros k. rewrite Hr, length_range. apply Hno. }
  split; [exact Hreq |].
  intros b m mp mk my f g mr. unfold search_cars.
  destruct (Hreq (_build_search_url (_build_search_params b m mp mk my f g)) "GET")
    as [Hnone _].
  destruct (_make_request _ _ _ _) as [[r |] st']; [discriminate Hnone | reflexivity].
Qed.

(** How a call comes to its headers. A call draws a header set only to
  build a client when none is stored, and then exactly once, from the
  pool; a stored client is used as it is.  After a response 403 no client
  is stored when the call ends, so that the next call builds one around a
  newly drawn header set. *)
Lemma headers_drawn_with_the_client (url method : string) (st : State) :
  let st' := snd (_make_request env url method st) in
  draws st' = (draws st + draws_to_build (_client st))%nat
  /\ (forall c, _client st = Some c -> call_client st = c)
  /\ (_client st = None ->
      user_agent_of (call_client st)
      = Some (nth (choice env (draws st) mod length USER_AGENTS) USER_AGENTS
                EmptyString)
      /\ In (nth (choice env (draws st) mod length USER_AGENTS) USER_AGENTS
               EmptyString) USER_AGENTS)
  /\ (forall k c,
        nth_error (request_clients (new_events st st')) k = Some c ->
        (forall j, (j < k)%nat -> answers 403 (server env (requests st + j)) = false) ->
        c = call_client st)
  /\ (forall k,
        (requests st + k < requests st')%nat ->
        answers 403 (server env (requests st + k)) = true ->
        _client st' = None
        /\ forall url2 method2,
            draws (snd (_make_request env url2 method2 st')) = S (draws st')).
Proof.
  cbv zeta. rewrite _make_request_unfold.
  destruct (ready_fields st) as (Hm & Hr & Hd & Hc & pre & Htr & Hpre).
  split; [| split; [| split; [| split]]].
  - destruct (attempts_keeps env url method (call_client st)
                (range (max_retries st)) (ready st)) as [_ ->].
    exact Hd.
  - apply call_client_stored.
  - apply call_client_built.
  - intros k c Hk _.
    destruct (attempts_trace env url method (call_client st)
                (range (max_retries st)) (ready st))
      as (n & new & _ & _ & Hnew & Hcl & _).
    rewrite Htr, <- app_assoc in Hnew.
    rewrite (new_events_app _ _ _ Hnew), request_clients_app, Hpre, Hcl in Hk.
    cbn [app] in Hk. apply nth_error_In, repeat_spec in Hk. exact Hk.
  - intros k Hk H403. rewrite <- Hr in Hk, H403.
    pose proof (attempts_403_discards env url method (call_client st)
                  (range (max_retries st)) (ready st) k Hk H403) as Hnone.
    split; [exact Hnone |].
    intros url2 method2. rewrite _make_request_unfold.
    match goal with
    | |- draws (snd (attempts _ ?c _ _ ?todo ?s)) = _ =>
        destruct (attempts_keeps env url2 method2 c todo s) as [_ ->]
    end.
    match goal with
    | |- draws (ready ?s) = _ =>
        destruct (ready_fields s) as (_ & _ & -> & _)
    end.
    rewrite Hnone. cbn [draws_to_build]. lia.
Qed.

End MakeRequest.

Import Scraper Spec Samples.

(** A search against a server that answers 503 three times. *)
Lemma C6_exhausted_retries_yield_empty_result_witness :
  fst (search_cars env_unavailable "mazda" (Some "2") 3000 150000 2008 "essence"
         "manuelle" 50 fresh_scraper) = []
  /\ requests (snd (_make_request env_unavailable "https://www.leboncoin.fr" "GET"
                      fresh_scraper)) = 3%nat.
Proof.
  assert (H : forall k,
             (requests fresh_scraper <= k
              < requests fresh_scraper + Z.to_nat (max_retries fresh_scraper))%nat ->
             answers 200 (server env_unavailable k) = false)
    by (intros k _; reflexivity).
  split.
  - apply (proj2 (C6_exhausted_retries_yield_empty_result env_unavailable
                    fresh_scraper H)).
  - apply (proj1 (C6_exhausted_retries_yield_empty_result env_unavailable
                    fresh_scraper H)).
Defined.

(** C5, the failing run. A scraper without client sends a request that is
  answered 403 and retries: the log holds one draw, made before the first
  request, and the second request goes out through the client of the
  first one, with the same headers; the stored client is gone only when
  the call returns. *)
Lemma C5_retry_after_403_same_client :
  let st' := snd (_make_request env_403_then_200 "u" "GET" fresh_scraper) in
  let client := {| headers := fst (_get_headers env_403_then_200 fresh_scraper) |} in
  trace st'
  = [ RateLimitWait; Drew 0; Requested "GET" "u" client; BackoffSleep 0;
      Requested "GET" "u" client ]
  /\ draws st' = 1%nat /\ requests st' = 2%nat /\ _client st' = None.
Proof. vm_compute. repeat split. Qed.

(** In the terms of the log: it is not so that a header set is drawn
  between a request answered 403 and the request that follows it in the
  same call. *)
Lemma retry_after_403_keeps_headers :
  ~ (forall (env : Env) (url method : string) (st : State),
        retry_after_403_redraws env st (snd (_make_request env url method st))).
Proof.
  intros H.
  specialize (H env_403_then_200 "u" "GET" fresh_scraper).
  unfold retry_after_403_redraws in H.
  pose (client := {| headers := fst (_get_headers env_403_then_200 fresh_scraper) |}).
  destruct (H [RateLimitWait; Drew 0%nat] "GET" "u" client [BackoffSleep 0]
              "GET" "u" client [])
    as [i [Hi | []]].
  - vm_compute. reflexivity.
  - reflexivity.
  - reflexivity.
  - discriminate Hi.
Qed.

(** * The threshold command *)

Section ThresholdCommand.

Import Filters TelegramBot.

(** C7, as amended. The boundary is the command: an ASCII argument of
  [/sethighscore] that is no integer, or an integer below 0 or above 100,
  is answered with the message for an invalid value, and the bot, with the
  thresholds of its rule engine and its saved configuration, stays as it
  was; an integer from 0 to 100 becomes the high threshold.  The setter
  [set_high_threshold] checks nothing: the high threshold of the engine is
  then the value given, whatever it is, and nothing else changes. *)
Theorem C7_invalid_threshold_rejected (self : Bot) (arg : string) (rest : list string) :
  ((Py.is_ascii arg = true /\ Py.int arg = None)
   \/ (exists n, Py.int arg = Some n /\ (n < 0 \/ 100 < n)) ->
   _cmd_set_high_score self (arg :: rest) = (self, invalid_value_message))
  /\ (forall n, Py.int arg = Some n -> 0 <= n <= 100 ->
      high_threshold (car_filter (fst (_cmd_set_high_score self (arg :: rest)))) = n
      /\ medium_threshold (car_filter (fst (_cmd_set_high_score self (arg :: rest))))
         = medium_threshold (car_filter self))
  /\ (forall (engine : CarFilter) (value : Z),
        high_threshold (set_high_threshold engine value) = value
        /\ medium_threshold (set_high_threshold engine value)
           = medium_threshold engine
        /\ criteria (set_high_threshold engine value) = criteria engine
        /\ exclusions (set_high_threshold engine value) = exclusions engine).
Proof.
  unfold _cmd_set_high_score. split; [| split].
  - intros [[_ ->] | (n & -> & Hn)]; [reflexivity |].
    destruct (Z.ltb_spec n 0); [reflexivity |].
    destruct (Z.ltb_spec 100 n); [reflexivity | lia].
  - intros n -> Hn.
    destruct (Z.ltb_spec n 0); [lia |].
    destruct (Z.ltb_spec 100 n); [lia |]. cbn. auto.
  - intros engine value. repeat split.
Qed.

End ThresholdCommand.

(** The command with the arguments -5, 150 and abc on the sample engine. *)
Lemma C7_invalid_threshold_rejected_witness :
  let bot := {| TelegramBot.car_filter := Samples.sample_filter;
                TelegramBot.config := ∅ |} in
  TelegramBot._cmd_set_high_score bot ["-5"]
  = (bot, TelegramBot.invalid_value_message)
  /\ TelegramBot._cmd_set_high_score bot ["150"]
     = (bot, TelegramBot.invalid_value_message)
  /\ TelegramBot._cmd_set_high_score bot ["abc"]
     = (bot, TelegramBot.invalid_value_message).
Proof.
  split; [| split].
  - apply (proj1 (C7_invalid_threshold_rejected _ "-5" [])).
    right. exists (-5). split; [reflexivity | lia].
  - apply (proj1 (C7_invalid_threshold_rejected _ "150" [])).
    right. exists 150. split; [reflexivity | lia].
  - apply (proj1 (C7_invalid_threshold_rejected _ "abc" [])).
    left. split; reflexivity.
Defined.

(** C7, the counterexample. The setter does not reject a negative or an
  out-of-range value and does not leave the threshold as it was: on the
  engine of the default threshold 15 it stores -5 and 150, and so does the
  start-up code with a saved value of 150. *)
Lemma C7_setter_stores_out_of_range :
  Filters.high_threshold Samples.default_filter = 15
  /\ Filters.high_threshold (Filters.set_high_threshold Samples.default_filter (-5))
     = -5
  /\ Filters.high_threshold (Filters.set_high_threshold Samples.default_filter 150)
     = 150
  /\ Filters.high_threshold
       <$> Main.restore_threshold (Database.set_config ∅ "high_threshold" "150")
             Samples.default_filter
     = Some 150.
Proof. repeat split. Qed.

Example set_high_score_accepts :
  let bot := {| TelegramBot.car_filter := Samples.sample_filter;
                TelegramBot.config := ∅ |} in
  Filters.high_threshold
    (TelegramBot.car_filter (fst (TelegramBot._cmd_set_high_score bot ["20"]))) = 20
  /\ TelegramBot.config (fst (TelegramBot._cmd_set_high_score bot ["20"]))
       !! "high_threshold" = Some "20".
Proof. vm_compute. split; reflexivity. Qed.

(** * Further properties of the correspondence filter *)

Section Substrings.

Lemma startswith_iff p s :
  Py.startswith p s = true <-> exists post, s = p ++ post.
Proof.
  revert s. induction p as [| a p IH]; intros s.
  - split; [intros _; now exists s | reflexivity].
  - destruct s as [| b s]; cbn.
    + split; [discriminate | intros [post H]; discriminate H].
    + rewrite andb_true_iff, IH. split.
      * intros [Hab [post ->]]. apply Ascii.eqb_eq in Hab as ->. now exists post.
      * intros [post [= -> ->]]. split; [apply Ascii.eqb_refl | now exists post].
Qed.

Lemma append_assoc (a b c : string) : (a ++ b) ++ c = a ++ b ++ c.
Proof.
  induction a as [| x a IH]; [reflexivity |].
  change (String x ((a ++ b) ++ c) = String x (a ++ b ++ c)). now rewrite IH.
Qed.

(** [needle in hay] holds exactly when [hay] is some text, the needle, and
  some text. *)
Lemma contains_iff needle hay :
  Py.contains needle hay = true <-> exists pre post, hay = pre ++ needle ++ post.
Proof.
  induction hay as [| c hay IH].
  - cbn. rewrite orb_false_r, startswith_iff. split.
    + intros [post H]. now exists EmptyString, post.
    + intros (pre & post & H). destruct pre; [now exists post | discriminate H].
  - cbn [Py.contains]. rewrite orb_true_iff, startswith_iff, IH. split.
    + intros [[post H] | (pre & post & ->)].
      * now exists EmptyString, post.
      * now exists (String c pre), post.
    + intros (pre & post & H). destruct pre as [| x pre].
      * left. now exists post.
      * right. injection H as -> ->. now exists pre, post.
Qed.

(** A text that contains a needle with something around it contains the
  needle. *)
Lemma contains_inner a needle b hay :
  Py.contains (a ++ needle ++ b) hay = true -> Py.contains needle hay = true.
Proof.
  rewrite !contains_iff. intros (pre & post & ->).
  exists (pre ++ a), (b ++ post). now rewrite !append_assoc.
Qed.

Lemma contains_empty_hay needle :
  Py.truthy needle = true -> Py.contains needle EmptyString = false.
Proof. destruct needle; [discriminate | reflexivity]. Qed.

End Substrings.

Section AlphanumericModel.

Import Scraper.

Variable l : CarListing.
Variables b m : string.

Let brand_ok : bool :=
  any_in (search_brands (Py.lower b)) (Py.lower (default "" (brand l)))
    (Py.lower (title l)).

(** The patterns of a token that is not a short number add nothing to the
  bare token. *)
Lemma model_patterns_bare tok t f :
  any_in (model_patterns tok) t f = (Py.contains tok t || Py.contains tok f)%bool.
Proof.
  unfold any_in, model_patterns. cbn [existsb].
  destruct (Py.contains tok t) eqn:Ht; [reflexivity |].
  destruct (Py.contains tok f) eqn:Hf; [reflexivity |].
  cbn [orb].
  repeat match goal with
         | |- context [Py.contains (" " ++ tok ++ ?e) ?x] =>
             destruct (Py.contains (" " ++ tok ++ e) x) eqn:?;
             [match goal with
              | H : Py.contains (" " ++ tok ++ e) x = true |- _ =>
                  apply contains_inner in H; congruence
              end |]
         end.
  reflexivity.
Qed.

Lemma matches_search_bare_token :
  Py.truthy m = true ->
  (Py.isdigit (Py.lower m) && Nat.leb (String.length (Py.lower m)) 2)%bool = false ->
  matches_search l b (Some m)
  = (brand_ok
     && (Py.contains (Py.lower m) (Py.lower (title l))
         || Py.contains (Py.lower m) (Py.lower (default "" (model l)))))%bool.
Proof.
  intros Hm Hnum. subst brand_ok. unfold matches_search.
  rewrite title_lower_eq. change (default EmptyString (Some m)) with m.
  destruct (any_in _ _ _); cbn [negb andb]; [| reflexivity].
  rewrite Hm. cbn [negb].
  destruct (Py.contains (Py.lower m) (Py.lower (default "" (model l)))) eqn:Hfield.
  - assert (Py.truthy (Py.lower (default "" (model l))) = true) as ->.
    { apply (contains_truthy (Py.lower m)); [now rewrite truthy_lower | exact Hfield]. }
    cbn. now rewrite orb_true_r.
  - rewrite andb_false_r, Hnum, model_patterns_bare, Hfield. reflexivity.
Qed.

(** X1. For a model token of ASCII characters that is not a number of at
  most two digits, the filter accepts exactly the listings that pass the
  brand check and hold the bare token, in lower case, somewhere in the
  title or in the model field: the patterns bounded by spaces, comma or
  period never decide. *)
Theorem matches_search_alphanumeric :
  Py.is_ascii m = true ->
  Py.truthy m = true ->
  (Py.isdigit (Py.lower m) && Nat.leb (String.length (Py.lower m)) 2)%bool = false ->
  matches_search l b (Some m)
  = (brand_ok
     && (Py.contains (Py.lower m) (Py.lower (title l))
         || Py.contains (Py.lower m) (Py.lower (default "" (model l)))))%bool.
Proof. intros _. exact matches_search_bare_token. Qed.

(** Without a model, or with the empty one, the brand check decides. *)
Lemma matches_search_no_model (m' : option string) :
  m' = None \/ m' = Some EmptyString ->
  matches_search l b m' = brand_ok.
Proof.
  intros [-> | ->]; subst brand_ok; unfold matches_search;
    rewrite title_lower_eq; destruct (any_in _ _ _); reflexivity.
Qed.

End AlphanumericModel.

(** The characterisation at a search for jazz and a title with jazzy. *)
Lemma matches_search_alphanumeric_witness :
  Scraper.matches_search (Samples.titled "Honda Jazzy edition" None None) "honda"
    (Some "Jazz") = true.
Proof.
  rewrite (matches_search_alphanumeric
             (Samples.titled "Honda Jazzy edition" None None) "honda" "Jazz"
             eq_refl eq_refl eq_refl).
  reflexivity.
Defined.

Section BrandAlias.

Import Scraper Spec.

(** X2. Searching for citroen and for citroën, in any letter case, gives
  the same verdict on every listing, as long as the model is absent, empty
  or a token of ASCII characters that is not a number of at most two
  digits. *)
Theorem matches_search_brand_alias (l : CarListing) (b1 b2 : string)
    (m : option string) :
  In (Py.lower b1) ["citroen"; "citroën"] ->
  In (Py.lower b2) ["citroen"; "citroën"] ->
  Py.is_ascii (default EmptyString m) = true ->
  short_numeric_token m = false ->
  matches_search l b1 m = matches_search l b2 m.
Proof.
  intros H1 H2 _ Hm.
  assert (Hb : any_in (search_brands (Py.lower b1))
                 (Py.lower (default "" (brand l))) (Py.lower (title l))
               = any_in (search_brands (Py.lower b2))
                   (Py.lower (default "" (brand l))) (Py.lower (title l))).
  { destruct H1 as [<- | [<- | []]]; destruct H2 as [<- | [<- | []]]; reflexivity. }
  destruct m as [tok |].
  - destruct (Py.truthy tok) eqn:Htok.
    + cbn in Hm. rewrite !matches_search_bare_token by assumption. now rewrite Hb.
    + destruct tok; [| discriminate].
      rewrite !(matches_search_no_model _ _ (Some EmptyString)) by auto. exact Hb.
  - rewrite !(matches_search_no_model _ _ None) by auto. exact Hb.
Qed.

End BrandAlias.

(** The two spellings on a listing titled with the diaeresis. *)
Lemma matches_search_brand_alias_witness :
  Scraper.matches_search (Samples.titled "Citroën C3 Picasso" None None) "CITROEN"
    (Some "c3")
  = Scraper.matches_search (Samples.titled "Citroën C3 Picasso" None None) "citroën"
      (Some "c3").
Proof.
  apply matches_search_brand_alias.
  - left. reflexivity.
  - right. left. reflexivity.
  - reflexivity.
  - reflexivity.
Defined.

(** * Further properties of the fetcher and of the search *)

Section SearchResults.

Import Scraper Spec.

Lemma _parse_search_results_ids soup brand model :
  Forall (fun l => listing_id l <> EmptyString)
    (_parse_search_results soup brand model).
Proof.
  assert (Hhtml : Forall (fun l => listing_id l <> EmptyString)
                    (_parse_html_fallback soup brand model)).
  { unfold _parse_html_fallback. apply Forall_omap. intros card l Hcard.
    destruct (parse_card card brand model) as [| | l'] eqn:E; try discriminate.
    injection Hcard as ->.
    apply parse_card_id, search_listing_id_truthy in E.
    intros Hempty. rewrite Hempty in E. discriminate. }
  unfold _parse_search_results.
  destruct (next_data soup) as [| | ads]; try exact Hhtml.
  destruct (omap _ ads) as [| l ls] eqn:E; [exact Hhtml |].
  rewrite <- E. apply Forall_omap. intros ad l' Hparse Hempty.
  apply _parse_ad_json_fields in Hparse as (_ & Hid & _).
  rewrite Hempty in Hid. discriminate.
Qed.

Lemma Forall_slice_to {A} (P : A -> Prop) n xs :
  Forall P xs -> Forall P (slice_to n xs).
Proof. intros H. unfold slice_to. destruct (0 <=? n); now apply Forall_take. Qed.

Lemma Forall_filter_keeps {A} (P : A -> Prop) (f : A -> bool) (xs : list A) :
  Forall P xs -> Forall P (filter (fun x => f x) xs).
Proof.
  rewrite !Forall_forall. intros H x [_ Hx]%list_elem_of_filter. now apply H.
Qed.

Lemma Forall_filter_true {A} (f : A -> bool) (xs : list A) :
  Forall (fun x => f x = true) (filter (fun x => f x) xs).
Proof.
  rewrite Forall_forall. intros x [Hx _]%list_elem_of_filter.
  now apply Is_true_true.
Qed.

Variable env : Env.
Variables brand : string.
Variable model : option string.
Variables max_price max_km min_year : Z.
Variables fuel gearbox : string.
Variable max_results : Z.
Variable st : State.

Let found : list CarListing :=
  fst (search_cars env brand model max_price max_km min_year fuel gearbox
         max_results st).

(** X3. Every listing [search_cars] returns passes the correspondence
  filter for the brand and model searched and has a non-empty id, and for
  a cap that is not negative there are at most that many. *)
Theorem search_cars_results :
  Forall (fun l => matches_search l brand model = true) found
  /\ Forall (fun l => listing_id l <> EmptyString) found
  /\ (0 <= max_results -> (length found <= Z.to_nat max_results)%nat).
Proof.
  subst found. unfold search_cars.
  destruct (_make_request _ _ _ _) as [[r |] st']; cbn [fst].
  - split; [| split].
    + apply Forall_slice_to.
      apply (Forall_filter_true (fun l => matches_search l brand model)).
    + apply Forall_slice_to.
      apply (Forall_filter_keeps _ (fun l => matches_search l brand model)).
      apply _parse_search_results_ids.
    + intros Hcap. unfold slice_to.
      destruct (Z.leb_spec 0 max_results); [apply firstn_le_length | lia].
  - repeat split; try constructor. cbn. lia.
Qed.

End SearchResults.

Section Attempts.

Import Scraper Spec.

Variable env : Env.
Variables url method : string.
Variable client : Client.

(** The loop returns the first response 200, after a request for it and
  for each attempt before it. *)
Lemma attempts_first_success todo st k :
  (k < length todo)%nat ->
  answers 200 (server env (requests st + k)) = true ->
  (forall j, (j < k)%nat -> answers 200 (server env (requests st + j)) = false) ->
  Answered <$> fst (attempts env client url method todo st)
  = Some (server env (requests st + k))
  /\ requests (snd (attempts env client url method todo st))
     = (requests st + S k)%nat.
Proof.
  revert st k. induction todo as [| attempt rest IH]; intros st k Hk Hok Hbefore.
  - cbn in Hk. lia.
  - rewrite attempts_cons. destruct k as [| k].
    + rewrite Nat.add_0_r in Hok. rewrite Hok. cbn [fst snd].
      rewrite Nat.add_0_r. unfold answers in Hok.
      destruct (server env (requests st)) as [r | |]; try discriminate.
      split; [reflexivity | cbn; lia].
    + pose proof (Hbefore 0%nat ltac:(lia)) as H0.
      rewrite Nat.add_0_r in H0. rewrite H0.
      match goal with
      | |- context [attempts _ _ _ _ rest ?s] =>
          assert (Hr : requests s = S (requests st))
      end.
      { unfold backoff, send, set_client, record.
        destruct (answers 403 _); destruct (attempt <? _); reflexivity. }
      match goal with
      | |- context [attempts _ _ _ _ rest ?s] =>
          destruct (IH s k) as [-> ->]
      end.
      * cbn in Hk. lia.
      * rewrite Hr. now replace (S (requests st) + k)%nat with (requests st + S k)%nat by lia.
      * intros j Hj. rewrite Hr.
        replace (S (requests st) + j)%nat with (requests st + S j)%nat by lia.
        apply Hbefore. lia.
      * rewrite Hr. split; [f_equal; f_equal; lia | lia].
Qed.

End Attempts.

Section FirstSuccess.

Import Scraper Spec.

Variable env : Env.
Variables url method : string.
Variable st : State.

(** X4. When the attempt numbered k, below [max_retries], is the first
  one answered with the status 200, [_make_request] returns that response
  after exactly k + 1 requests: it retries after every failure before it
  and never after a success. *)
Theorem _make_request_first_success (k : nat) :
  (k < Z.to_nat (max_retries st))%nat ->
  answers 200 (server env (requests st + k)) = true ->
  (forall j, (j < k)%nat -> answers 200 (server env (requests st + j)) = false) ->
  Answered <$> fst (_make_request env url method st)
  = Some (server env (requests st + k))
  /\ requests (snd (_make_request env url method st)) = (requests st + S k)%nat.
Proof.
  intros Hk Hok Hbefore. rewrite _make_request_unfold.
  destruct (ready_fields env st) as (_ & Hr & _).
  rewrite <- Hr in *. apply attempts_first_success; auto.
  now rewrite length_range.
Qed.

End FirstSuccess.

(** A call whose first request is refused and whose second succeeds. *)
Lemma _make_request_first_success_witness :
  Scraper.Answered
    <$> fst (Scraper._make_request Samples.env_403_then_200 "u" "GET"
               Samples.fresh_scraper)
  = Some (Samples.response 200)
  /\ Scraper.requests
       (snd (Scraper._make_request Samples.env_403_then_200 "u" "GET"
               Samples.fresh_scraper)) = 2%nat.
Proof.
  apply (_make_request_first_success Samples.env_403_then_200 "u" "GET"
           Samples.fresh_scraper 1).
  - vm_compute. lia.
  - reflexivity.
  - intros j Hj. assert (j = 0%nat) as -> by lia. reflexivity.
Defined.

Section Backoff.

Import Scraper Spec.

Variable env : Env.
Variables url method : string.

(** The loop over the attempts [a], [a + 1], ... logs its requests with a
  sleep between two of them and nowhere else. *)
Lemma attempts_steps client len : forall a st,
  (0 < len -> Z.of_nat (a + len) = max_retries st)%nat ->
  exists q new,
    requests (snd (attempts env client url method (map Z.of_nat (seq a len)) st))
    = (requests st + q)%nat
    /\ trace (snd (attempts env client url method (map Z.of_nat (seq a len)) st))
       = (trace st ++ new)%list
    /\ (0 < len -> 0 < q)%nat
    /\ map step_of new = attempt_steps a q.
Proof.
  induction len as [| len IH]; intros a st Hmax.
  - exists 0%nat, []. cbn. rewrite app_nil_r, Nat.add_0_r. repeat split; auto.
  - cbn [seq map]. rewrite attempts_cons.
    destruct (answers 200 (server env (requests st))).
    + exists 1%nat. eexists [_]. cbn [snd send record requests trace].
      repeat split; auto; lia.
    + destruct (next_fields env url method client (Z.of_nat a) st)
        as (Hm & _ & Hr & _ & Ht).
      match goal with
      | |- context [attempts _ _ _ _ _ ?s] => set (s' := s) in *
      end.
      specialize (Hmax ltac:(lia)).
      destruct len as [| len'].
      * eexists 1%nat, [_]. cbn [seq map attempts snd].
        rewrite Hr, Ht.
        destruct (Z.ltb_spec (Z.of_nat a) (max_retries st - 1)); [lia |].
        repeat split; auto; lia.
      * destruct (IH (S a) s') as (q & new & Hq & Hnew & Hpos & Hsteps).
        { intros _. rewrite Hm. lia. }
        specialize (Hpos ltac:(lia)).
        eexists (S q), (_ :: BackoffSleep (Z.of_nat a) :: new).
        rewrite Hq, Hnew, Hr, Ht.
        destruct (Z.ltb_spec (Z.of_nat a) (max_retries st - 1)); [| lia].
        repeat split; [lia | now rewrite <- app_assoc | lia |].
        cbn [map step_of]. rewrite Hsteps.
        destruct q as [| q]; [lia | reflexivity].
Qed.

Lemma ready_steps st :
  exists pre,
    trace (snd (_get_client env (_respect_rate_limit st))) = (trace st ++ pre)%list
    /\ map step_of pre = prelude_steps (_client st).
Proof.
  unfold _get_client, _respect_rate_limit, record. cbn [_client].
  destruct (_client st) as [c |]; cbn.
  - exists [RateLimitWait]. auto.
  - eexists [RateLimitWait; Drew _]. rewrite <- app_assoc. split; reflexivity.
Qed.

(** X5. The log of one call of [_make_request] is the wait for the rate
  limit, a draw when no client is stored, and then the requests of the
  call with the exponential backoff between them: a sleep, numbered by the
  attempt that failed, follows every request but the last one of the call
  and stands nowhere else, so never after a success and never after the
  final attempt. *)
Theorem _make_request_backoff_between_attempts (st : State) :
  let st' := snd (_make_request env url method st) in
  map step_of (new_events st st')
  = (prelude_steps (_client st)
     ++ attempt_steps 0 (requests st' - requests st))%list.
Proof.
  cbv zeta. rewrite _make_request_unfold.
  destruct (ready_fields env st) as (Hm & Hr & _).
  destruct (ready_steps st) as (pre & Htr & Hpre).
  change (range (max_retries st))
    with (map Z.of_nat (seq 0 (Z.to_nat (max_retries st)))).
  destruct (attempts_steps
              (fst (_get_client env (_respect_rate_limit st)))
              (Z.to_nat (max_retries st)) 0%nat
              (snd (_get_client env (_respect_rate_limit st))))
    as (q & new & Hq & Hnew & _ & Hsteps).
  { intros Hpos. rewrite Hm. lia. }
  rewrite Hq, Hr.
  rewrite Htr, <- app_assoc in Hnew.
  rewrite (new_events_app _ _ _ Hnew), map_app, Hsteps, Hpre.
  f_equal. f_equal. lia.
Qed.

End Backoff.

(** * Further properties of the extractor *)

Section AdRecords.

Import Scraper Spec.

Lemma _parse_ad_json_numbers ad brand model l :
  _parse_ad_json ad brand model = Some l ->
  parse_mileage (collect_attributes (default [] (attributes ad))) = Some (mileage l)
  /\ parse_price ad = Some (price l).
Proof.
  unfold _parse_ad_json.
  destruct (Py.truthy (str_of_list_id (list_id ad))); [| discriminate].
  cbn [negb].
  destruct (parse_mileage _) as [km |]; [| discriminate].
  destruct (parse_year _) as [y |]; [| discriminate].
  destruct (parse_price ad) as [p |]; [| discriminate].
  cbn. intros [= <-]. cbn. auto.
Qed.

(** X6. The price of a parsed record is the scalar of the key [price] or
  the first element of its sequence, and there is none without the key; a
  record whose [price] is an empty sequence gives no listing at all, even
  with a valid id. *)
Theorem _parse_ad_json_price :
  (forall ad brand model l,
      _parse_ad_json ad brand model = Some l ->
      price l = match price_field ad with
                | Some (PriceScalar p) => Some p
                | Some (PriceList (p :: _)) => Some p
                | _ => None
                end)
  /\ (forall ad brand model,
        price_field ad = Some (PriceList []) ->
        _parse_ad_json ad brand model = None).
Proof.
  split.
  - intros ad brand model l Hparse.
    apply _parse_ad_json_numbers in Hparse as [_ Hprice].
    unfold parse_price in Hprice.
    destruct (price_field ad) as [[p | [| p ps]] |]; congruence.
  - intros ad brand model Hprice. unfold _parse_ad_json, parse_price.
    rewrite Hprice.
    destruct (negb _); [reflexivity |].
    destruct (parse_mileage _); [| reflexivity].
    destruct (parse_year _); reflexivity.
Qed.

Lemma replace_space_removes s :
  Py.replace " " "" s = without_spaces s.
Proof.
  unfold Py.replace.
  induction s as [| c t IH]; [reflexivity |].
  cbn [Py.replace_from without_spaces Py.startswith].
  destruct (Ascii.eqb_spec " " c) as [<- | Hne].
  - cbn. exact IH.
  - rewrite (proj2 (Ascii.eqb_neq c " ")) by congruence.
    cbn. now rewrite IH.
Qed.

Lemma span_digits d rest :
  Py.all_chars Py.is_digit d = true -> starts_with_digit rest = false ->
  Py.span Py.is_digit (d ++ rest) = (d, rest).
Proof.
  intros Hd Hrest. induction d as [| c d IH].
  - destruct rest as [| c rest]; [reflexivity |].
    change (EmptyString ++ String c rest) with (String c rest).
    cbn [starts_with_digit] in Hrest. cbn [Py.span]. now rewrite Hrest.
  - cbn [Py.all_chars] in Hd. apply andb_prop in Hd as [Hc Hd].
    change (String c d ++ rest) with (String c (d ++ rest)).
    cbn [Py.span]. now rewrite Hc, (IH Hd).
Qed.

(** The search for digits returns the first run of them, whole. *)
Lemma search_digits_first pre d rest :
  no_digit pre = true -> d <> EmptyString ->
  Py.all_chars Py.is_digit d = true -> starts_with_digit rest = false ->
  search_digits (pre ++ d ++ rest) = Some d.
Proof.
  intros Hpre Hne Hd Hrest. induction pre as [| c pre IH].
  - destruct d as [| c d]; [contradiction |].
    pose proof (span_digits _ _ Hd Hrest) as Hspan.
    cbn [Py.all_chars] in Hd. apply andb_prop in Hd as [Hc _].
    change (EmptyString ++ String c d ++ rest) with (String c (d ++ rest)).
    change (String c d ++ rest) with (String c (d ++ rest)) in Hspan.
    cbn [search_digits]. now rewrite Hc, Hspan.
  - unfold no_digit in Hpre. cbn [Py.all_chars] in Hpre.
    apply andb_prop in Hpre as [Hc Hpre]. apply negb_true_iff in Hc.
    change (String c pre ++ d ++ rest) with (String c (pre ++ d ++ rest)).
    cbn [search_digits]. rewrite Hc. now apply IH.
Qed.

Lemma search_digits_none s :
  no_digit s = true -> search_digits s = None.
Proof.
  unfold no_digit. induction s as [| c t IH]; [reflexivity |].
  cbn [Py.all_chars search_digits]. intros [Hc Ht]%andb_prop.
  apply negb_true_iff in Hc. rewrite Hc. now apply IH.
Qed.

(** X7. The mileage of a parsed record ignores the spaces of the
  attribute: for a text of ASCII characters it is the number written by
  the first run of digits of the text with its spaces taken out, so that
  95 000 km, 95000 km and 95000 all give 95000; a text without a digit
  gives no mileage. *)
Theorem _parse_ad_json_mileage ad brand model l text :
  collect_attributes (default [] (attributes ad)) !! "mileage" = Some text ->
  Py.is_ascii text = true ->
  _parse_ad_json ad brand model = Some l ->
  (forall pre d rest,
      without_spaces text = pre ++ d ++ rest ->
      no_digit pre = true -> d <> EmptyString ->
      Py.all_chars Py.is_digit d = true -> starts_with_digit rest = false ->
      mileage l = Some (decimal d))
  /\ (no_digit (without_spaces text) = true -> mileage l = None).
Proof.
  intros Hget _ Hparse.
  apply _parse_ad_json_numbers in Hparse as [Hkm _].
  unfold parse_mileage, Py.get in Hkm. rewrite Hget in Hkm.
  change (default EmptyString (Some text)) with text in Hkm.
  rewrite replace_space_removes in Hkm.
  split.
  - intros pre d rest Htext Hpre Hne Hd Hrest.
    rewrite Htext, (search_digits_first _ _ _ Hpre Hne Hd Hrest) in Hkm.
    rewrite (int_digits _ Hne Hd) in Hkm.
    destruct (Py.truthy text) eqn:Ht; [cbn in Hkm; congruence |].
    destruct text; [| discriminate Ht]. cbn in Htext.
    destruct pre; [destruct d; [contradiction | discriminate Htext]
                  | discriminate Htext].
  - intros Hnone. rewrite (search_digits_none _ Hnone) in Hkm.
    destruct (Py.truthy text); congruence.
Qed.

Lemma digit_value_le c : Py.is_digit c = true -> (nat_of_ascii c - 48 <= 9)%nat.
Proof.
  unfold Py.is_digit, Py.char_in_range.
  rewrite andb_true_iff, !Nat.leb_le. lia.
Qed.

Lemma digits_value_bounds g :
  Py.all_chars Py.is_digit g = true ->
  forall acc, 0 <= acc ->
    0 <= Py.digits_value acc g
    /\ Py.digits_value acc g < (acc + 1) * 10 ^ Z.of_nat (String.length g).
Proof.
  induction g as [| c g IH]; intros Hall acc Hacc.
  - cbn. lia.
  - cbn [Py.all_chars] in Hall. apply andb_prop in Hall as [Hc Hg].
    pose proof (digit_value_le c Hc) as Hle.
    cbn [Py.digits_value String.length].
    destruct (IH Hg (10 * acc + Z.of_nat (nat_of_ascii c - 48))) as [Hlo Hhi]; [lia |].
    split; [exact Hlo |].
    rewrite Nat2Z.inj_succ, Z.pow_succ_r by lia.
    assert (0 < 10 ^ Z.of_nat (String.length g)) by (apply Z.pow_pos_nonneg; lia).
    nia.
Qed.

Lemma span_fst_all p s : Py.all_chars p (fst (Py.span p s)) = true.
Proof.
  induction s as [| c t IH]; [reflexivity |].
  cbn [Py.span]. destruct (p c) eqn:Hc; [| reflexivity].
  destruct (Py.span p t) as [a b]. cbn in *. now rewrite Hc, IH.
Qed.

Lemma search_digits_sound s : forall g,
  search_digits s = Some g ->
  g <> EmptyString /\ Py.all_chars Py.is_digit g = true.
Proof.
  induction s as [| c t IH]; intros g; [discriminate |].
  cbn [search_digits]. destruct (Py.is_digit c) eqn:Hc; [| apply IH].
  intros [= <-]. split; [| exact (span_fst_all Py.is_digit (String c t))].
  cbn [Py.span]. rewrite Hc. destruct (Py.span Py.is_digit t). discriminate.
Qed.

(** X8. The numbers a parsed record carries are bounded by the way they
  are read: a year lies between 0 and 9999 and a mileage is never
  negative. *)
Theorem _parse_ad_json_number_bounds ad brand model l :
  _parse_ad_json ad brand model = Some l ->
  (forall y, year l = Some y -> 0 <= y <= 9999)
  /\ (forall km, mileage l = Some km -> 0 <= km).
Proof.
  intros Hparse.
  pose proof Hparse as Hparse'.
  apply _parse_ad_json_fields in Hparse as (_ & _ & Hyear).
  apply _parse_ad_json_numbers in Hparse' as [Hkm _].
  split.
  - intros y Hy. rewrite Hy in Hyear. unfold parse_year in Hyear.
    destruct (Py.truthy _); [| discriminate].
    destruct (search_four_digits _) as [g |] eqn:Hsearch; [| discriminate].
    apply search_four_digits_sound in Hsearch
      as (i & (pre & post & _ & _ & Hlen & Hall) & _).
    rewrite int_digits in Hyear; [| intros ->; discriminate | exact Hall].
    injection Hyear as <-.
    destruct (digits_value_bounds g Hall 0 ltac:(lia)) as [Hlo Hhi].
    rewrite Hlen in Hhi. unfold decimal. cbn in Hhi. lia.
  - intros km Hk. rewrite Hk in Hkm. unfold parse_mileage in Hkm.
    destruct (Py.truthy _); [| discriminate].
    destruct (search_digits _) as [g |] eqn:Hsearch; [| discriminate].
    apply search_digits_sound in Hsearch as [Hne Hall].
    rewrite (int_digits _ Hne Hall) in Hkm. injection Hkm as <-.
    apply (digits_value_bounds g Hall 0). lia.
Qed.

End AdRecords.

(** The mileage of a record that writes it 95 000 km. *)
Lemma _parse_ad_json_mileage_witness :
  exists l,
    Scraper._parse_ad_json (Samples.ad_with_mileage "95 000 km") "mazda" None = Some l
    /\ Scraper.mileage l = Some 95000.
Proof.
  destruct (Scraper._parse_ad_json (Samples.ad_with_mileage "95 000 km") "mazda" None)
    as [l |] eqn:E; [| vm_compute in E; discriminate E].
  exists l. split; [reflexivity |].
  refine (proj1 (_parse_ad_json_mileage (Samples.ad_with_mileage "95 000 km")
                   "mazda" None l "95 000 km" _ _ E) EmptyString "95000" "km" _ _ _ _ _).
  - vm_compute. reflexivity.
  - reflexivity.
  - reflexivity.
  - reflexivity.
  - discriminate.
  - reflexivity.
  - reflexivity.
Defined.

(** The bounds on the record dated 01/2015. *)
Lemma _parse_ad_json_number_bounds_witness :
  exists l,
    Scraper._parse_ad_json (Samples.ad_with_regdate "01/2015") "mazda" None = Some l
    /\ forall y, Scraper.year l = Some y -> 0 <= y <= 9999.
Proof.
  destruct (Scraper._parse_ad_json (Samples.ad_with_regdate "01/2015") "mazda" None)
    as [l |] eqn:E; [| vm_compute in E; discriminate E].
  exists l. split; [reflexivity |].
  exact (proj1 (_parse_ad_json_number_bounds _ _ _ _ E)).
Defined.

(** * Further properties of the rule engine *)

Section Blacklist.

Import Filters Spec.

Lemma first_keyword_in_spec t keywords kw :
  first_keyword_in t keywords = Some kw ->
  In kw keywords /\ Py.contains (_normalize_text kw) t = true.
Proof.
  induction keywords as [| k rest IH]; [discriminate |].
  cbn [first_keyword_in].
  destruct (Py.contains (_normalize_text k) t) eqn:E.
  - intros [= <-]. split; [now left | exact E].
  - intros H. destruct (IH H). split; [now right | assumption].
Qed.

Lemma first_keyword_in_none t keywords :
  first_keyword_in t keywords = None <->
  forall kw, In kw keywords -> Py.contains (_normalize_text kw) t = false.
Proof.
  induction keywords as [| k rest IH]; cbn [first_keyword_in].
  - split; [intros _ kw [] | reflexivity].
  - destruct (Py.contains (_normalize_text k) t) eqn:E.
    + split; [discriminate |]. intros H. specialize (H k (or_introl eq_refl)).
      congruence.
    + rewrite IH. split.
      * intros H kw [<- | Hin]; auto.
      * intros H kw Hin. apply H. now right.
Qed.

(** The blacklist check finds a keyword exactly when a keyword of some
  category occurs, normalised, in the normalised text. *)
Lemma scan_blacklist_spec t blacklist :
  (fst (scan_blacklist t blacklist) = true <->
   exists cat keywords kw,
     In (cat, keywords) blacklist /\ In kw keywords
     /\ Py.contains (_normalize_text kw) t = true)
  /\ (fst (scan_blacklist t blacklist) = true ->
      exists cat keywords kw,
        snd (scan_blacklist t blacklist) = Some kw
        /\ In (cat, keywords) blacklist /\ In kw keywords
        /\ Py.contains (_normalize_text kw) t = true).
Proof.
  induction blacklist as [| [cat keywords] rest [IH1 IH2]].
  - cbn. split; [split; [discriminate | intros (? & ? & ? & [] & _)] | discriminate].
  - cbn [scan_blacklist].
    destruct (first_keyword_in t keywords) as [kw |] eqn:E.
    + apply first_keyword_in_spec in E as [Hin Hocc]. cbn [fst snd]. split.
      * split; [intros _ | reflexivity].
        exists cat, keywords, kw. repeat split; auto. now left.
      * intros _. exists cat, keywords, kw. repeat split; auto. now left.
    + split.
      * rewrite IH1. split.
        -- intros (c & ks & kw & Hin & Hkw & Hocc).
           exists c, ks, kw. repeat split; auto. now right.
        -- intros (c & ks & kw & [[= -> ->] | Hin] & Hkw & Hocc).
           ++ rewrite first_keyword_in_none in E. rewrite (E kw Hkw) in Hocc.
              discriminate.
           ++ exists c, ks, kw. auto.
      * intros H. destruct (IH2 H) as (c & ks & kw & Hs & Hin & Hkw & Hocc).
        exists c, ks, kw. repeat split; auto. now right.
Qed.

Variable self : CarFilter.
Variables listing_id title description : string.
Variables price mileage year : option Z.
Variables fuel gearbox brand model engine : option string.

Let result : ScoreResult :=
  evaluate self listing_id title description price mileage year fuel gearbox
    brand model engine.

(** X9. The global blacklist comes first: as soon as a configured
  keyword of any category occurs, normalised, in the normalised title and
  description, the listing is excluded with that keyword in the reason,
  whatever the brand rules and the numeric criteria would say. *)
Theorem evaluate_blacklist_first (cat kw0 : string) (keywords : list string) :
  In (cat, keywords) (blacklist_keywords (exclusions self)) ->
  In kw0 keywords ->
  Py.contains (_normalize_text kw0) (_normalize_text (title ++ " " ++ description))
  = true ->
  exists kw,
    result = exclude ScoreResult_default (Some ("Mot-clé blacklist: " ++ kw))
    /\ Py.contains (_normalize_text kw) (_normalize_text (title ++ " " ++ description))
       = true
    /\ exists cat' keywords',
        In (cat', keywords') (blacklist_keywords (exclusions self))
        /\ In kw keywords'.
Proof.
  intros Hcat Hkw Hocc.
  destruct (scan_blacklist_spec
              (_normalize_text (title ++ " " ++ description))
              (blacklist_keywords (exclusions self))) as [Hiff Hfound].
  assert (Hfst : fst (scan_blacklist (_normalize_text (title ++ " " ++ description))
                        (blacklist_keywords (exclusions self))) = true).
  { apply Hiff. eauto 6. }
  destruct (Hfound Hfst) as (c & ks & kw & Hsnd & Hin & Hk & Ho).
  exists kw. split; [| split; [exact Ho | eauto]].
  subst result. unfold evaluate, _check_blacklist.
  destruct (scan_blacklist _ _) as [b o]. cbn [fst snd] in *. subst b o.
  reflexivity.
Qed.

End Blacklist.

(** A listing that mentions a breakdown and is also too expensive. *)
Lemma evaluate_blacklist_first_witness :
  exists kw,
    Filters.evaluate Samples.sample_filter "9" "Honda Jazz CVT en panne" "à réparer"
      (Some 9000) None None None None (Some "Honda") (Some "Jazz") None
    = Filters.exclude Filters.ScoreResult_default (Some ("Mot-clé blacklist: " ++ kw)).
Proof.
  destruct (evaluate_blacklist_first Samples.sample_filter "9"
              "Honda Jazz CVT en panne" "à réparer" (Some 9000) None None None None
              (Some "Honda") (Some "Jazz") None
              "mechanical" "panne" ["panne"; "accidenté"; "pour pièces"])
    as (kw & H & _).
  - left. reflexivity.
  - left. reflexivity.
  - vm_compute. reflexivity.
  - exists kw. exact H.
Defined.

Section RuleDocuments.

Import Filters Spec.

Variable self : CarFilter.
Variables listing_id title description : string.
Variables price mileage year : option Z.
Variables fuel gearbox brand model engine : option string.

Let result : ScoreResult :=
  evaluate self listing_id title description price mileage year fuel gearbox
    brand model engine.

Let limits := general (criteria self).

(** X10. With an exclusions document that holds no blacklist and no
  brand rule, as after a missing or unreadable file, nothing is excluded
  but by the general criteria, read with their defaults 3000, 150000, 2008
  and manuelle where the criteria document is silent, and no warning is
  produced. *)
Theorem evaluate_without_rules :
  blacklist_keywords (exclusions self) = [] ->
  brand_exclusions (exclusions self) = ∅ ->
  warnings result = []
  /\ excluded result
     = ((truthy_opt price && (default 3000 (max_price limits) <? default 0 price))
        || (truthy_opt mileage && (default 150000 (max_km limits) <? default 0 mileage))
        || (truthy_opt year && (default 0 year <? default 2008 (min_year limits)))
        || (Py.truthy (default "" gearbox)
            && String.eqb (default "manuelle" (Filters.gearbox limits)) "manuelle"
            && Py.contains "automatique" (Py.lower (default "" gearbox))))%bool.
Proof.
  intros Hbl Hbr. subst result limits.
  unfold evaluate, _check_blacklist, _check_brand_exclusions.
  rewrite Hbl, Hbr. cbn [scan_blacklist]. rewrite lookup_empty.
  destruct (truthy_opt price && _)%bool; [split; reflexivity |].
  destruct (truthy_opt mileage && _)%bool; [split; reflexivity |].
  destruct (truthy_opt year && _)%bool; [split; reflexivity |].
  destruct (Py.truthy (default "" gearbox) && _ && _)%bool; [split; reflexivity |].
  destruct (_calculate_bonus_points _ _ _ _ _ _ _).
  destruct (_calculate_penalty_points _ _ _ _ _).
  split; reflexivity.
Qed.

Lemma maintenance_bonus_threshold value text keywords acc :
  maintenance_bonus (set_high_threshold self value) text keywords acc
  = maintenance_bonus self text keywords acc.
Proof.
  induction keywords as [| kw rest IH]; [reflexivity |].
  cbn [maintenance_bonus]. rewrite IH. reflexivity.
Qed.

Lemma _calculate_bonus_points_threshold value b m t d p km :
  _calculate_bonus_points (set_high_threshold self value) b m t d p km
  = _calculate_bonus_points self b m t d p km.
Proof.
  unfold _calculate_bonus_points. rewrite maintenance_bonus_threshold. reflexivity.
Qed.

(** X11. Setting the high threshold changes nothing of a later
  evaluation but the tier: score, explanations, warnings and exclusion are
  those of the engine before the change, and the tier of a listing that is
  not excluded is read against the new high threshold and the medium
  threshold as it was. *)
Theorem set_high_threshold_changes_tier_only (value : Z) :
  let result' :=
    evaluate (set_high_threshold self value) listing_id title description price
      mileage year fuel gearbox brand model engine in
  total_score result' = total_score result
  /\ bonuses result' = bonuses result
  /\ penalties result' = penalties result
  /\ warnings result' = warnings result
  /\ excluded result' = excluded result
  /\ exclusion_reason result' = exclusion_reason result
  /\ (excluded result = false ->
      priority result'
      = priority_of_score value (medium_threshold self) (total_score result)).
Proof.
  cbv zeta. subst result. unfold evaluate.
  change (_check_blacklist (set_high_threshold self value))
    with (_check_blacklist self).
  change (_check_brand_exclusions (set_high_threshold self value))
    with (_check_brand_exclusions self).
  rewrite _calculate_bonus_points_threshold.
  change (_calculate_penalty_points (set_high_threshold self value))
    with (_calculate_penalty_points self).
  change (criteria (set_high_threshold self value)) with (criteria self).
  change (high_threshold (set_high_threshold self value)) with value.
  change (medium_threshold (set_high_threshold self value))
    with (medium_threshold self).
  destruct (_check_blacklist self _) as [[] ?]; [cbn; repeat split; discriminate |].
  destruct (_check_brand_exclusions self _ _ _ _) as [[[] ?] ?];
    [cbn; repeat split; discriminate |].
  destruct (truthy_opt price && _)%bool; [cbn; repeat split; discriminate |].
  destruct (truthy_opt mileage && _)%bool; [cbn; repeat split; discriminate |].
  destruct (truthy_opt year && _)%bool; [cbn; repeat split; discriminate |].
  destruct (Py.truthy (default "" gearbox) && _ && _)%bool;
    [cbn; repeat split; discriminate |].
  destruct (_calculate_bonus_points _ _ _ _ _ _ _).
  destruct (_calculate_penalty_points _ _ _ _ _).
  cbn. repeat split.
Qed.

End RuleDocuments.

(** An automatic gearbox against the engine without rule documents. *)
Lemma evaluate_without_rules_witness :
  Filters.excluded
    (Filters.evaluate Samples.default_filter "3" "Accidentée, en panne" "CVT"
       (Some 2000) (Some 150000) (Some 2008) None (Some "Automatique")
       (Some "Honda") None None) = true.
Proof.
  rewrite (proj2 (evaluate_without_rules Samples.default_filter "3"
                    "Accidentée, en panne" "CVT" (Some 2000) (Some 150000)
                    (Some 2008) None (Some "Automatique") (Some "Honda") None None
                    eq_refl eq_refl)).
  reflexivity.
Defined.

Section Penalties.

Import Filters Spec.

Variable self : CarFilter.
Variables brand title description fuel : string.

Let w := weights (scoring (criteria self)).

Let text := Py.lower (title ++ " " ++ description ++ " " ++ fuel).

Let diesel : bool :=
  (Py.contains "diesel" text
   || (Py.truthy fuel && Py.contains "diesel" (Py.lower fuel)))%bool.

Let suspect : option string :=
  first_keyword_in (_normalize_text text)
    (category "suspicious" (blacklist_keywords (exclusions self))).

(** The penalties of [_calculate_penalty_points], rule by rule. *)
Lemma penalty_parts :
  _calculate_penalty_points self brand title description fuel
  = ((if diesel then Py.get w "diesel_penalty" (-5) else 0)
     + match suspect with
       | Some _ => Py.get w "blacklist_keyword_penalty" (-10)
       | None => 0
       end,
     ((if diesel then ["-5 Diesel"] else [])
      ++ match suspect with
         | Some kw => [("-10 Mot suspect: " ++ kw)%string]
         | None => []
         end)%list).
Proof.
  unfold _calculate_penalty_points. fold text. fold w. fold diesel. fold suspect.
  destruct diesel; destruct suspect; cbn [award fst snd app];
    rewrite ?Z.add_0_r; reflexivity.
Qed.

Lemma diesel_fuel_triggers :
  Py.contains "diesel" (Py.lower fuel) = true -> diesel = true.
Proof.
  intros H. subst diesel. rewrite H, andb_true_r.
  assert (Py.truthy fuel = true) as ->; [| apply orb_true_r].
  rewrite <- truthy_lower. now apply (contains_truthy "diesel").
Qed.

End Penalties.

Section Diesel.

Import Filters Spec.

Variable self : CarFilter.
Variables listing_id title description : string.
Variables price mileage year : option Z.
Variables fuel gearbox brand model engine : option string.

Let result : ScoreResult :=
  evaluate self listing_id title description price mileage year fuel gearbox
    brand model engine.

(** X12. A listing that is not excluded and whose fuel field mentions
  diesel, in any letter case, carries the diesel explanation as its first
  penalty, and its total is the bonus points plus the configured diesel
  penalty (-5 by default) plus the penalty of a suspicious keyword, if one
  occurs. *)
Theorem evaluate_diesel_penalty :
  excluded result = false ->
  Py.contains "diesel" (Py.lower (default "" fuel)) = true ->
  hd_error (penalties result) = Some "-5 Diesel"
  /\ total_score result
     = fst (_calculate_bonus_points self (default "" brand) (default "" model)
              title description (default 0 price) (default 0 mileage))
       + Py.get (weights (scoring (criteria self))) "diesel_penalty" (-5)
       + match first_keyword_in
                 (_normalize_text
                    (Py.lower (title ++ " " ++ description ++ " " ++ default "" fuel)))
                 (category "suspicious" (blacklist_keywords (exclusions self)))
         with
         | Some _ =>
             Py.get (weights (scoring (criteria self))) "blacklist_keyword_penalty"
               (-10)
         | None => 0
         end.
Proof.
  intros Hscored Hfuel. subst result.
  rewrite (evaluate_scored _ _ _ _ _ _ _ _ _ _ _ _ Hscored).
  cbn [penalties total_score]. rewrite penalty_parts.
  rewrite (diesel_fuel_triggers _ _ _ Hfuel). cbn [fst snd app hd_error].
  split; [reflexivity | lia].
Qed.

End Diesel.

(** A diesel Yaris on the sample engine. *)
Lemma evaluate_diesel_penalty_witness :
  hd_error
    (Filters.penalties
       (Filters.evaluate Samples.sample_filter "127" "Toyota Yaris" "bon état"
          (Some 2800) None None (Some "Diesel") None (Some "Toyota") (Some "Yaris")
          None)) = Some "-5 Diesel".
Proof.
  apply (evaluate_diesel_penalty Samples.sample_filter "127" "Toyota Yaris"
           "bon état" (Some 2800) None None (Some "Diesel") None (Some "Toyota")
           (Some "Yaris") None).
  - vm_compute. reflexivity.
  - reflexivity.
Defined.

Section DefaultWeights.

Import Filters Spec.

Variable self : CarFilter.

Hypothesis no_weights : weights (scoring (criteria self)) = ∅.
Hypothesis no_model_weights : high_priority_models (scoring (criteria self)) = ∅.

(** With the default weights at most one priority-model rule scores, 5
  or 10 points. *)
Lemma model_bonuses_default brand_lower model_lower text :
  exists a labels,
    model_bonuses self brand_lower model_lower text (0, []) = (a, labels)
    /\ ((a = 0 /\ labels = []) \/ ((a = 5 \/ a = 10) /\ length labels = 1%nat)).
Proof.
  unfold model_bonuses. rewrite no_model_weights. unfold Py.get.
  rewrite !lookup_empty. cbn [default]. cbv zeta.
  destruct (String.eqb_spec brand_lower "mazda") as [-> | _].
  { cbn [String.eqb Ascii.eqb Bool.eqb andb].
    destruct (_ && _)%bool; eexists _, _; (split; [reflexivity |]); cbn; auto. }
  destruct (String.eqb_spec brand_lower "honda") as [-> | _].
  { cbn [String.eqb Ascii.eqb Bool.eqb andb].
    destruct (_ && _)%bool; eexists _, _; (split; [reflexivity |]); cbn; auto. }
  destruct (String.eqb_spec brand_lower "suzuki") as [-> | _].
  { cbn [String.eqb Ascii.eqb Bool.eqb andb].
    destruct (Py.contains "swift" model_lower);
      eexists _, _; (split; [reflexivity |]); cbn; auto. }
  destruct (String.eqb_spec brand_lower "seat") as [-> | _].
  { cbn [String.eqb Ascii.eqb Bool.eqb andb].
    destruct (_ && _)%bool; eexists _, _; (split; [reflexivity |]); cbn; auto. }
  cbn [andb].
  destruct (_ && _)%bool; eexists _, _; (split; [reflexivity |]); cbn; auto.
Qed.

Lemma maintenance_points_default kw : maintenance_points self kw = 3.
Proof.
  unfold maintenance_points. rewrite no_weights. unfold Py.get.
  rewrite !lookup_empty. cbn.
  destruct (Py.contains "distribution" _); [reflexivity |].
  destruct (_ || _)%bool; reflexivity.
Qed.

(** With the default weights the bonus points are between 0 and 17, and
  17 takes all four kinds of bonus. *)
Lemma bonus_points_default brand model title description price mileage :
  let r := _calculate_bonus_points self brand model title description price mileage in
  0 <= fst r <= 17 /\ (fst r = 17 -> length (snd r) = 4%nat).
Proof.
  cbv zeta. unfold _calculate_bonus_points.
  destruct (model_bonuses_default (Py.lower brand) (Py.lower model)
              (Py.lower (title ++ " " ++ description))) as (a & labels & -> & Ha).
  rewrite maintenance_bonus_first, no_weights. unfold Py.get.
  rewrite !lookup_empty. cbn [default].
  destruct (first_keyword_in _ _) as [kw |];
    rewrite ?maintenance_points_default;
    destruct (negb (price =? 0) && (price <? 2500))%bool;
    destruct (negb (mileage =? 0) && (mileage <? 100000))%bool;
    cbn [award fst snd]; rewrite ?length_app; cbn [length];
    (destruct Ha as [[Ha Hl] | [Ha Hl]];
     [subst a labels; cbn [length]; lia | rewrite Hl; lia]).
Qed.

(** With the default weights the penalty points are between -15 and 0,
  and 0 means no penalty at all. *)
Lemma penalty_points_default brand title description fuel :
  let r := _calculate_penalty_points self brand title description fuel in
  -15 <= fst r <= 0 /\ (fst r = 0 -> snd r = []).
Proof.
  cbv zeta. rewrite penalty_parts, no_weights. unfold Py.get.
  rewrite !lookup_empty. cbn [default fst snd].
  destruct (_ || _)%bool; destruct (first_keyword_in _ _); cbn; split;
    try lia; intros; try reflexivity; lia.
Qed.

Variables listing_id title description : string.
Variables price mileage year : option Z.
Variables fuel gearbox brand model engine : option string.

Let result : ScoreResult :=
  evaluate self listing_id title description price mileage year fuel gearbox
    brand model engine.

(** X13. With the default scoring weights the total score of any listing
  lies between -15 and 17; against the default high threshold 15 a
  listing is of high priority only with the total 17, that is with a
  priority-model bonus of 10, the maintenance bonus, the price bonus and
  the mileage bonus together, and without any penalty. *)
Theorem total_score_bounds_default_weights :
  -15 <= total_score result <= 17
  /\ (high_threshold self = 15 -> priority result = "high" ->
      total_score result = 17 /\ length (bonuses result) = 4%nat
      /\ penalties result = []).
Proof.
  subst result.
  destruct (excluded (evaluate self listing_id title description price mileage
                        year fuel gearbox brand model engine)) eqn:E.
  - destruct (evaluate_excluded_defaults _ _ _ _ _ _ _ _ _ _ _ _ E)
      as (-> & -> & _).
    split; [lia | discriminate].
  - rewrite (evaluate_scored _ _ _ _ _ _ _ _ _ _ _ _ E).
    cbn [total_score priority bonuses penalties].
    destruct (bonus_points_default (default "" brand) (default "" model) title
                description (default 0 price) (default 0 mileage)) as [Hb Hb17].
    destruct (penalty_points_default (default "" brand) title description
                (default "" fuel)) as [Hp Hp0].
    cbv zeta in Hb, Hb17, Hp, Hp0.
    split; [lia |].
    intros -> Hhigh. unfold priority_of_score in Hhigh.
    destruct (Z.ltb_spec 15 (fst (_calculate_bonus_points self (default "" brand)
                                    (default "" model) title description
                                    (default 0 price) (default 0 mileage))
                             + fst (_calculate_penalty_points self (default "" brand)
                                      title description (default "" fuel))))
      as [Hgt | _].
    + assert (fst (_calculate_penalty_points self (default "" brand) title
                     description (default "" fuel)) = 0 \/
              fst (_calculate_penalty_points self (default "" brand) title
                     description (default "" fuel)) <= -5) as [H0 | Hneg].
      { rewrite penalty_parts, no_weights. unfold Py.get.
        rewrite !lookup_empty. cbn [default fst].
        destruct (_ || _)%bool; destruct (first_keyword_in _ _); cbn; lia. }
      * assert (fst (_calculate_bonus_points self (default "" brand)
                       (default "" model) title description (default 0 price)
                       (default 0 mileage)) = 17 \/
                fst (_calculate_bonus_points self (default "" brand)
                       (default "" model) title description (default 0 price)
                       (default 0 mileage)) <= 15) as [H17 | Hle].
        { clear -no_weights no_model_weights. unfold _calculate_bonus_points.
          destruct (model_bonuses_default (Py.lower (default "" brand))
                      (Py.lower (default "" model))
                      (Py.lower (title ++ " " ++ description)))
            as (a & labels & -> & Ha).
          rewrite maintenance_bonus_first, no_weights. unfold Py.get.
          rewrite !lookup_empty. cbn [default].
          destruct (first_keyword_in _ _) as [kw |];
            rewrite ?maintenance_points_default;
            destruct (negb (default 0 price =? 0) && (default 0 price <? 2500))%bool;
            destruct (negb (default 0 mileage =? 0)
                      && (default 0 mileage <? 100000))%bool;
            cbn [award fst snd];
            (destruct Ha as [[Ha _] | [Ha _]]; lia). }
        -- rewrite H17, H0. repeat split; auto.
        -- lia.
      * lia.
    + destruct (_ <=? _); discriminate Hhigh.
Qed.

End DefaultWeights.

(** The bounds on the engine without rule documents. *)
Lemma total_score_bounds_default_weights_witness :
  -15 <= Filters.total_score
           (Filters.evaluate Samples.default_filter "1" "Mazda 2 essence" "chaîne"
              (Some 2000) (Some 90000) (Some 2012) (Some "essence")
              (Some "manuelle") (Some "Mazda") (Some "2") None) <= 17.
Proof.
  apply (total_score_bounds_default_weights Samples.default_filter eq_refl eq_refl).
Defined.

(** * The search URL *)

Section SearchUrl.

Import Scraper Spec.

Lemma quote_plus_char_safe c : Py.all_chars url_safe (Py.quote_plus_char c) = true.
Proof. destruct c as [[] [] [] [] [] [] [] []]; vm_compute; reflexivity. Qed.

Lemma all_chars_app p a b :
  Py.all_chars p (a ++ b) = (Py.all_chars p a && Py.all_chars p b)%bool.
Proof.
  induction a as [| c a IH]; [reflexivity |].
  change (String c a ++ b) with (String c (a ++ b)).
  cbn [Py.all_chars]. now rewrite IH, andb_assoc.
Qed.

Lemma quote_plus_safe s : Py.all_chars url_safe (Py.quote_plus s) = true.
Proof.
  induction s as [| c s IH]; [reflexivity |].
  cbn [Py.quote_plus]. now rewrite all_chars_app, quote_plus_char_safe, IH.
Qed.

Lemma count_char_app x a b :
  count_char x (a ++ b) = (count_char x a + count_char x b)%nat.
Proof.
  induction a as [| c a IH]; [reflexivity |].
  change (String c a ++ b) with (String c (a ++ b)).
  cbn [count_char]. rewrite IH. lia.
Qed.

Lemma count_char_safe x s :
  url_safe x = false -> Py.all_chars url_safe s = true -> count_char x s = 0%nat.
Proof.
  intros Hx. induction s as [| c s IH]; [reflexivity |].
  cbn [Py.all_chars count_char]. intros [Hc Hs]%andb_prop.
  rewrite (IH Hs). destruct (Ascii.eqb_spec c x) as [-> | _]; [congruence | reflexivity].
Qed.

Lemma count_char_pair x kv :
  url_safe x = false ->
  count_char x (Py.quote_plus (fst kv) ++ "=" ++ Py.quote_plus (snd kv))
  = count_char x "=".
Proof.
  intros Hx.
  rewrite !count_char_app, !(count_char_safe x _ Hx (quote_plus_safe _)). lia.
Qed.

Lemma count_char_join x sep parts :
  count_char x (Py.join sep parts)
  = (list_sum (map (count_char x) parts)
     + (length parts - 1) * count_char x sep)%nat.
Proof.
  induction parts as [| p parts IH]; [reflexivity |].
  destruct parts as [| p' parts].
  - cbn. lia.
  - change (Py.join sep (p :: p' :: parts))
      with (p ++ sep ++ Py.join sep (p' :: parts)).
    rewrite !count_char_app, IH. cbn [map list_sum length].
    rewrite !Nat.sub_succ, !Nat.sub_0_r. cbn [Nat.mul list_sum fold_right]. lia.
Qed.

Lemma list_sum_pairs x (d : list (string * string)) :
  url_safe x = false ->
  list_sum
    (map (count_char x)
       (map (fun kv => Py.quote_plus (fst kv) ++ "=" ++ Py.quote_plus (snd kv)) d))
  = (length d * count_char x "=")%nat.
Proof.
  intros Hx. induction d as [| kv d IH]; [reflexivity |].
  cbn [map length]. change (list_sum (?a :: ?l)) with (a + list_sum l)%nat.
  rewrite IH, (count_char_pair x kv Hx). lia.
Qed.

(** The separators of a query string that [urlencode] builds come from
  the number of its parameters alone. *)
Lemma urlencode_separators (d : list (string * string)) :
  count_char "=" (Py.urlencode d) = length d
  /\ count_char "&" (Py.urlencode d) = (length d - 1)%nat
  /\ count_char " " (Py.urlencode d) = 0%nat.
Proof.
  unfold Py.urlencode.
  rewrite !count_char_join, !list_sum_pairs, !length_map by reflexivity.
  cbn [count_char Ascii.eqb Bool.eqb]. repeat split; lia.
Qed.

Variable brand : string.
Variable model : option string.
Variables max_price max_km min_year : Z.
Variables fuel gearbox : string.

Let query : list (string * string) :=
  Py.update [ ("category", "2"); ("sort", "time"); ("order", "desc") ]
    (_build_search_params brand model max_price max_km min_year fuel gearbox).

Let keys : list string :=
  ([ "category"; "sort"; "order"; "fuel"; "gearbox"; "owner_type" ]
   ++ (if truthy_int max_price then ["price"] else [])
   ++ (if truthy_int max_km then ["mileage"] else [])
   ++ (if truthy_int min_year then ["regdate"] else [])
   ++ ["brand"]
   ++ (if Py.truthy (default "" model) then ["model"] else []))%list.

Lemma query_keys : map fst query = keys.
Proof.
  subst query keys. unfold _build_search_params.
  destruct (truthy_int max_price); destruct (truthy_int max_km);
    destruct (truthy_int min_year); destruct model as [[| c m] |]; reflexivity.
Qed.

(** X14. The search URL carries each parameter once, in a fixed order:
  category, sort, order, fuel, gearbox, owner_type, then price, mileage
  and regdate unless their limit is 0, the brand, and the model unless it
  is absent or empty.  Whatever the brand and the model hold, the query
  string has one equals sign per parameter, one ampersand between two
  parameters and no space. *)
Theorem _build_search_url_parameters :
  let url :=
    _build_search_url
      (_build_search_params brand model max_price max_km min_year fuel gearbox) in
  map fst query = keys
  /\ NoDup keys
  /\ url = SEARCH_URL ++ "?" ++ Py.urlencode query
  /\ count_char "=" (Py.urlencode query) = length keys
  /\ count_char "&" (Py.urlencode query) = (length keys - 1)%nat
  /\ count_char " " (Py.urlencode query) = 0%nat.
Proof.
  cbv zeta.
  destruct (urlencode_separators query) as (He & Ha & Hs).
  rewrite <- query_keys, length_map.
  repeat split; auto.
  rewrite query_keys. subst keys.
  destruct (truthy_int max_price); destruct (truthy_int max_km);
    destruct (truthy_int min_year); destruct (Py.truthy (default "" model));
    cbn [app]; apply NoDup_ListNoDup;
    repeat (constructor; [cbn; intuition discriminate |]); constructor.
Qed.

End SearchUrl.

(** * Processing a batch of listings *)

Section ProcessListings.

Import Main Spec.

Variable car_filter : Filters.CarFilter.

(** The loop body of [_process_listings] does one of four things: it
  skips a listing whose id is stored; it leaves everything as it is when
  the insertion of the row raises; it stores the row and hands no message
  over, for an excluded listing or a bot that is not set; or it stores
  the row and hands one message over, and flags the row and counts it
  when the message was delivered. *)
Lemma process_one_cases (app : App) (c : Z) (l : Scraper.CarListing) :
  let id := Scraper.listing_id l in
  let res := evaluate_listing car_filter l in
  let row := row_of l res in
  (stored (database app) l /\ process_one car_filter (app, c) l = (app, c))
  \/ (database app !! id = None /\ storable_listing car_filter l = false
      /\ process_one car_filter (app, c) l = (app, c))
  \/ (database app !! id = None /\ storable_listing car_filter l = true
      /\ (Filters.excluded res = true \/ Notifier.bot_ready (sender app) = false)
      /\ process_one car_filter (app, c) l
         = ({| database := <[id := row]> (database app); sender := sender app |}, c))
  \/ (database app !! id = None /\ storable_listing car_filter l = true
      /\ Filters.excluded res = false /\ Notifier.bot_ready (sender app) = true
      /\ exists ok : bool,
           process_one car_filter (app, c) l
           = ({| database :=
                   <[id := if ok then Database.set_notified row else row]>
                     (database app);
                 sender := handed_over (sender app) (message_of row res) ok |},
              if ok then c + 1 else c)).
Proof.
  intros id res row. unfold process_one, stored, Database.listing_exists.
  fold id res row.
  destruct (database app !! id) as [r |] eqn:Hid.
  { left. eauto. }
  right. unfold Database.add_listing, storable_listing.
  change (Scraper.listing_id (Database.data row)) with id. rewrite Hid.
  fold res. fold row.
  destruct (Database.storable row) eqn:Hfits; [right | left; auto].
  destruct (Filters.excluded res) eqn:Hex; [left; auto |].
  unfold Notifier.send_notification.
  destruct (Notifier.bot_ready (sender app)) eqn:Hready; cbn [negb];
    [right | left; auto].
  repeat split; try reflexivity.
  exists (Notifier.delivered (sender app) (length (Notifier.outbox (sender app)))).
  unfold handed_over, message_of. rewrite Hready.
  destruct (Notifier.delivered _ _); [| reflexivity].
  unfold Database.mark_as_notified. rewrite lookup_insert_eq. cbn [snd].
  rewrite insert_insert_eq. reflexivity.
Qed.

(** One step keeps every stored row as it is, and leaves the listing
  stored unless its row is one the insertion refuses. *)
Lemma process_one_grows (app : App) (c : Z) (l : Scraper.CarListing) :
  database app ⊆ database (fst (process_one car_filter (app, c) l))
  /\ (stored (database (fst (process_one car_filter (app, c) l))) l
      \/ storable_listing car_filter l = false).
Proof.
  destruct (process_one_cases app c l)
    as [[Hs ->] | [(Hid & Hno & ->) | [(Hid & _ & _ & ->) | (Hid & _ & _ & _ & ok & ->)]]];
    cbn [fst database].
  - split; [reflexivity | left; exact Hs].
  - split; [reflexivity | right; exact Hno].
  - split; [apply insert_subseteq, Hid |].
    left. unfold stored. rewrite lookup_insert_eq. eauto.
  - split; [apply insert_subseteq, Hid |].
    left. unfold stored. rewrite lookup_insert_eq. eauto.
Qed.

Lemma stored_weaken (db db' : gmap string Database.Row) (l : Scraper.CarListing) :
  db ⊆ db' -> stored db l -> stored db' l.
Proof.
  unfold stored. intros Hsub [r Hr]. exists r.
  exact (lookup_weaken _ _ _ _ Hr Hsub).
Qed.

Lemma fold_process_grows (ls : list Scraper.CarListing) (s : App * Z) :
  database (fst s) ⊆ database (fst (fold_left (process_one car_filter) ls s))
  /\ Forall (fun l =>
               stored (database (fst (fold_left (process_one car_filter) ls s))) l
               \/ storable_listing car_filter l = false) ls.
Proof.
  revert s. induction ls as [| l ls IH]; intros [app c]; cbn [fold_left].
  - split; [reflexivity | constructor].
  - destruct (process_one_grows app c l) as [Hsub Hst].
    destruct (IH (process_one car_filter (app, c) l)) as [Hsub' Hall].
    split; [etrans; eassumption |].
    constructor; [| exact Hall].
    destruct Hst as [Hst | Hno]; [left | right; exact Hno].
    eapply stored_weaken; eassumption.
Qed.

(** Listings that are stored, or whose row the insertion refuses, change
  nothing. *)
Lemma fold_process_known (ls : list Scraper.CarListing) (app : App) (c : Z) :
  Forall (fun l => stored (database app) l \/ storable_listing car_filter l = false)
    ls ->
  fold_left (process_one car_filter) ls (app, c) = (app, c).
Proof.
  induction 1 as [| l ls Hl _ IH]; cbn [fold_left]; [reflexivity |].
  destruct (process_one_cases app c l)
    as [[_ ->] | [(_ & _ & ->) | [(Hid & Hfits & _) | (Hid & Hfits & _)]]];
    [exact IH | exact IH | |];
    destruct Hl as [[r Hr] | Hno]; congruence.
Qed.

(** The messages of a batch: they are appended to the outbox, the count
  grows by the delivered ones, and each comes with a row of its own. *)
Lemma fold_process_messages (ls : list Scraper.CarListing) (app : App) (c : Z) :
  let out := fold_left (process_one car_filter) ls (app, c) in
  exists news,
    Notifier.outbox (sender (fst out)) = (Notifier.outbox (sender app) ++ news)%list
    /\ snd out = c + Z.of_nat (length (delivered_messages news))
    /\ (length news + size (database app) <= size (database (fst out)))%nat
    /\ Notifier.bot_ready (sender (fst out)) = Notifier.bot_ready (sender app).
Proof.
  revert app c. induction ls as [| l ls IH]; intros app c; cbn [fold_left].
  - exists []. cbn. rewrite app_nil_r. repeat split; lia.
  - destruct (process_one_cases app c l)
      as [[_ ->] | [(_ & _ & ->)
                   | [(Hid & _ & _ & ->) | (Hid & _ & _ & _ & ok & ->)]]].
    + apply IH.
    + apply IH.
    + match goal with
      | |- context [fold_left _ ls (?a, ?n)] =>
          destruct (IH a n) as (news & Hout & Hc & Hsize & Hready)
      end.
      exists news. cbn [database sender] in *.
      rewrite map_size_insert_None in Hsize by exact Hid.
      repeat split; try assumption. lia.
    + match goal with
      | |- context [fold_left _ ls (?a, ?n)] =>
          destruct (IH a n) as (news & Hout & Hc & Hsize & Hready)
      end.
      exists ((message_of (row_of l (evaluate_listing car_filter l))
                 (evaluate_listing car_filter l), ok) :: news).
      cbn [database sender handed_over Notifier.outbox Notifier.bot_ready] in *.
      rewrite map_size_insert_None in Hsize by exact Hid.
      rewrite <- app_assoc in Hout.
      repeat split; try assumption.
      * rewrite Hc. unfold delivered_messages. cbn [List.filter snd].
        destruct ok; cbn [length]; lia.
      * cbn [length]. lia.
Qed.

(** A row that a batch adds is flagged notified only if its listing was
  not excluded. *)
Lemma fold_process_flags (ls : list Scraper.CarListing) (app : App) (c : Z)
  (k : string) (r : Database.Row) :
  database app !! k = None ->
  database (fst (fold_left (process_one car_filter) ls (app, c))) !! k = Some r ->
  Database.excluded r = true -> Database.notified r = false.
Proof.
  revert app c. induction ls as [| l ls IH]; intros app c Hnew; cbn [fold_left].
  - cbn. congruence.
  - intros Hk.
    destruct (database (fst (process_one car_filter (app, c) l)) !! k)
      as [r' |] eqn:Hstep.
    + destruct (fold_process_grows ls (process_one car_filter (app, c) l))
        as [Hsub _].
      pose proof (lookup_weaken _ _ _ _ Hstep Hsub) as Hr'.
      assert (r' = r) as -> by congruence.
      revert Hstep.
      destruct (process_one_cases app c l)
        as [[_ ->] | [(_ & _ & ->)
                     | [(Hid & _ & Hwhy & ->) | (Hid & _ & Hex & _ & ok & ->)]]];
        cbn [fst database].
      * congruence.
      * congruence.
      * rewrite lookup_insert. destruct (decide _); [| congruence].
        intros [= <-]. reflexivity.
      * rewrite lookup_insert. destruct (decide _); [| congruence].
        intros [= <-]. destruct ok; cbn; congruence.
    + destruct (process_one car_filter (app, c) l) as [app' c'] eqn:Hp.
      exact (IH app' c' Hstep Hk).
Qed.

End ProcessListings.


(** X16. Running [_process_listings] a second time on the same listings,
  with the same engine and on the database and the bot that the first run
  left, stores nothing, sends nothing and counts nothing: the listings
  stored are skipped, those whose message was not delivered included, and
  the rows the insertion refused are refused again. *)
Theorem _process_listings_second_run
  (car_filter : Filters.CarFilter) (app : Main.App)
  (listings : list Scraper.CarListing) :
  let after := fst (Main._process_listings car_filter app listings) in
  Main._process_listings car_filter after listings = (after, 0).
Proof.
  intros after. apply fold_process_known.
  exact (proj2 (fold_process_grows car_filter listings (app, 0))).
Qed.

(** X17. The messages of a batch are appended to the outbox; the number
  [_process_listings] returns is the number of them that were delivered,
  and there are at most as many messages as rows added to the database. *)
Theorem _process_listings_counts_delivered
  (car_filter : Filters.CarFilter) (app : Main.App)
  (listings : list Scraper.CarListing) :
  let out := Main._process_listings car_filter app listings in
  exists news,
    Notifier.outbox (Main.sender (fst out))
    = (Notifier.outbox (Main.sender app) ++ news)%list
    /\ snd out = Z.of_nat (length (Spec.delivered_messages news))
    /\ (length news + size (Main.database app)
        <= size (Main.database (fst out)))%nat.
Proof.
  destruct (fold_process_messages car_filter listings app 0)
    as (news & Hout & Hc & Hsize & _).
  exists news. repeat split; assumption.
Qed.

(** X18. An excluded listing is stored but never announced: a row that
  [_process_listings] adds with the exclusion flag set is not flagged
  notified. *)
Theorem _process_listings_excluded_not_notified
  (car_filter : Filters.CarFilter) (app : Main.App)
  (listings : list Scraper.CarListing) (k : string) (r : Database.Row) :
  Main.database app !! k = None ->
  Main.database (fst (Main._process_listings car_filter app listings)) !! k
  = Some r ->
  Database.excluded r = true ->
  Database.notified r = false.
Proof.
  apply fold_process_flags.
Qed.

Lemma _process_listings_excluded_not_notified_witness :
  let r :=
    Main.row_of Samples.broken_listing
      (Main.evaluate_listing Samples.sample_filter Samples.broken_listing) in
  Main.database
    (fst (Main._process_listings Samples.sample_filter Samples.empty_app
            [Samples.plain_listing; Samples.broken_listing])) !! "8"
  = Some r
  /\ Database.excluded r = true
  /\ Database.notified r = false.
Proof.
  intros r.
  assert (Main.database
            (fst (Main._process_listings Samples.sample_filter Samples.empty_app
                    [Samples.plain_listing; Samples.broken_listing])) !! "8"
          = Some r) as Hrow by (vm_compute; reflexivity).
  assert (Database.excluded r = true) as Hex by (vm_compute; reflexivity).
  split; [exact Hrow |]. split; [exact Hex |].
  apply (_process_listings_excluded_not_notified Samples.sample_filter
           Samples.empty_app [Samples.plain_listing; Samples.broken_listing]
           "8" r).
  - reflexivity.
  - exact Hrow.
  - exact Hex.
Defined.

(** A listing whose mileage does not fit an INTEGER column is not stored,
  and the listing after it is. *)
Example refused_listing_skipped :
  let after :=
    fst (Main._process_listings Samples.sample_filter Samples.empty_app
           [Samples.oversized_listing; Samples.plain_listing]) in
  Database.listing_exists (Main.database after) "9" = false
  /\ Database.listing_exists (Main.database after) "7" = true.
Proof. vm_compute. split; reflexivity. Qed.

(** * Decimal rendering *)

Section Decimal.

Import Spec.

Lemma digits_value_app (a b : string) : forall acc,
  Py.digits_value acc (a ++ b) = Py.digits_value (Py.digits_value acc a) b.
Proof.
  induction a as [| c a IH]; intros acc; cbn; [reflexivity | apply IH].
Qed.

Lemma append_empty_r (a : string) : (a ++ EmptyString)%string = a.
Proof.
  induction a as [| c a IH]; [reflexivity |].
  change (String c a ++ EmptyString)%string with (String c (a ++ EmptyString)).
  now rewrite IH.
Qed.

Lemma pretty_N_char_digit (x : N) :
  (x < 10)%N ->
  Py.is_digit (pretty_N_char x) = true
  /\ Z.of_nat (nat_of_ascii (pretty_N_char x) - 48) = Z.of_N x.
Proof.
  intros Hx.
  assert (In x [0; 1; 2; 3; 4; 5; 6; 7; 8; 9]%N) as Hin.
  { destruct x as [| p]; [left; reflexivity |].
    do 10 (destruct p as [p | p |]; try lia; cbn; auto 12). }
  cbn in Hin.
  repeat destruct Hin as [<- | Hin]; try (split; reflexivity). contradiction.
Qed.

(** The digits [pretty_N_go] puts before its accumulator. *)
Lemma pretty_N_go_digits (x : N) : forall s,
  exists d,
    pretty_N_go x s = (d ++ s)%string
    /\ Py.all_chars Py.is_digit d = true
    /\ decimal d = Z.of_N x
    /\ ((0 < x)%N -> d <> EmptyString).
Proof.
  induction x as [x IH] using (well_founded_induction N.lt_wf_0). intros s.
  destruct (N.eq_dec x 0%N) as [-> | Hx].
  - exists EmptyString. rewrite pretty_N_go_0. repeat split. lia.
  - rewrite pretty_N_go_step by lia.
    destruct (IH (x `div` 10)%N) with (s := String (pretty_N_char (x `mod` 10)) s)
      as (d & Hgo & Hall & Hval & _).
    { apply N.div_lt; lia. }
    destruct (pretty_N_char_digit (x `mod` 10)) as [Hdig Hv].
    { apply N.mod_lt. discriminate. }
    exists (d ++ String (pretty_N_char (x `mod` 10)) EmptyString)%string.
    repeat split.
    + rewrite Hgo. rewrite append_assoc. reflexivity.
    + rewrite all_chars_app, Hall. cbn. now rewrite Hdig.
    + unfold decimal in *. rewrite digits_value_app, Hval. cbn [Py.digits_value].
      rewrite Hv. rewrite (N.div_mod x 10) at 3 by discriminate. lia.
    + intros _. destruct d; discriminate.
Qed.

(** [str] of a natural number is a non-empty run of digits that reads
  back as the number. *)
Lemma str_of_int_nonneg (n : Z) :
  0 <= n ->
  Py.str_of_int n <> EmptyString
  /\ Py.all_chars Py.is_digit (Py.str_of_int n) = true
  /\ decimal (Py.str_of_int n) = n.
Proof.
  intros Hn.
  destruct n as [| p | p]; [repeat split; discriminate | | lia].
  assert (Py.str_of_int (Z.pos p) = pretty_N_go (N.pos p) EmptyString) as ->
    by reflexivity.
  destruct (pretty_N_go_digits (N.pos p) EmptyString) as (d & Hgo & Hall & Hval & Hne).
  rewrite append_empty_r in Hgo. rewrite Hgo. repeat split; auto. apply Hne. lia.
Qed.

End Decimal.

(** * What a restart restores *)

Lemma truthy_nonempty (s : string) : s <> EmptyString -> Py.truthy s = true.
Proof. destruct s; [contradiction | reflexivity]. Qed.

(** X19. A threshold accepted by [/sethighscore] survives a restart: the
  command sets it on the engine and saves it as text, and the start-up
  code reads that text back into the same threshold on the engine it has
  just built, the value 0 included. *)
Theorem high_threshold_survives_restart
  (bot : TelegramBot.Bot) (arg : string) (rest : list string) (n : Z)
  (fresh : Filters.CarFilter) :
  Py.int arg = Some n -> 0 <= n <= 100 ->
  let bot' := fst (TelegramBot._cmd_set_high_score bot (arg :: rest)) in
  Filters.high_threshold (TelegramBot.car_filter bot') = n
  /\ Main.restore_threshold (TelegramBot.config bot') fresh
     = Some (Filters.set_high_threshold fresh n).
Proof.
  intros Hint Hrange. unfold TelegramBot._cmd_set_high_score. rewrite Hint.
  destruct (Z.ltb_spec n 0); [lia |]. destruct (Z.ltb_spec 100 n); [lia |].
  cbn [orb fst TelegramBot.car_filter TelegramBot.config].
  split; [reflexivity |].
  unfold Main.restore_threshold, Database.get_config.
  rewrite lookup_insert_eq.
  destruct (str_of_int_nonneg n) as (Hne & Hall & Hval); [lia |].
  rewrite (truthy_nonempty _ Hne), (int_digits _ Hne Hall), Hval. reflexivity.
Qed.

Lemma high_threshold_survives_restart_witness :
  Main.restore_threshold
    (TelegramBot.config
       (fst (TelegramBot._cmd_set_high_score
               {| TelegramBot.car_filter := Samples.default_filter;
                  TelegramBot.config := ∅ |} ["12"])))
    Samples.sample_filter
  = Some (Filters.set_high_threshold Samples.sample_filter 12).
Proof.
  apply (high_threshold_survives_restart
           {| TelegramBot.car_filter := Samples.default_filter;
              TelegramBot.config := ∅ |} "12" [] 12 Samples.sample_filter).
  - reflexivity.
  - lia.
Defined.

Section Monitoring.

Import Notifier Spec.

Let consistent (s : Switch) : Prop :=
  Main.restore_monitoring (config s) = _is_monitoring s.

Lemma handle_consistent (s : Switch) (c : Command) :
  consistent s ->
  consistent (handle s c)
  /\ _is_monitoring (handle s c)
     = match c with Start => true | Stop => false end.
Proof.
  subst consistent. cbv beta. intros Hs.
  destruct c; unfold handle, _cmd_start, _cmd_stop;
    destruct (_is_monitoring s) eqn:Hflag;
    cbn [negb fst];
    first
      [ split; [congruence | assumption]
      | split; [| reflexivity];
        unfold Main.restore_monitoring, Database.get_config, Database.set_config;
        cbn [config _is_monitoring]; rewrite lookup_insert_eq; reflexivity ].
Qed.

Lemma fold_handle_consistent (commands : list Command) : forall s,
  consistent s -> consistent (fold_left handle commands s).
Proof.
  induction commands as [| c commands IH]; intros s Hs; cbn [fold_left];
    [exact Hs |].
  apply IH. apply handle_consistent, Hs.
Qed.

(** X20. The monitoring switch survives a restart: from the state the
  start-up code restores, after any sequence of [/start] and [/stop] the
  flag is what the last command asked for, and the saved value restores
  exactly that flag. *)
Theorem monitoring_flag_survives_restart
  (saved : gmap string string) (commands : list Command) :
  let switch :=
    fold_left handle commands
      {| _is_monitoring := Main.restore_monitoring saved; config := saved |} in
  Main.restore_monitoring (config switch) = _is_monitoring switch
  /\ _is_monitoring switch
     = match last commands with
       | Some Start => true
       | Some Stop => false
       | None => Main.restore_monitoring saved
       end.
Proof.
  cbv zeta. split.
  - apply fold_handle_consistent. reflexivity.
  - destruct commands as [| c commands _] using rev_ind; [reflexivity |].
    rewrite fold_left_app, last_snoc. cbn [fold_left].
    apply handle_consistent, fold_handle_consistent. reflexivity.
Qed.

End Monitoring.

(** * Notifications *)

(** X21. A notification is silent exactly for the low tier: for a listing
  that is not excluded, the message [send_notification] hands over has
  [disable_notification] set if and only if the total score is below the
  medium threshold and not above the high one. *)
Theorem send_notification_silent_iff_low
  (car_filter : Filters.CarFilter) (l : Scraper.CarListing)
  (s : Notifier.Sender) (row : Database.Row) :
  let res := Main.evaluate_listing car_filter l in
  Filters.excluded res = false ->
  Notifier.bot_ready s = true ->
  let out := Notifier.send_notification s row res in
  exists m,
    Notifier.outbox (snd out) = (Notifier.outbox s ++ [(m, fst out)])%list
    /\ (Notifier.disable_notification m = true
        <-> Filters.total_score res <= Filters.high_threshold car_filter
            /\ Filters.total_score res < Filters.medium_threshold car_filter).
Proof.
  intros res Hex Hready out.
  assert (Filters.priority res
          = Spec.priority_of_score (Filters.high_threshold car_filter)
              (Filters.medium_threshold car_filter) (Filters.total_score res))
    as Hp.
  { subst res. unfold Main.evaluate_listing in *.
    pose proof (evaluate_scored _ _ _ _ _ _ _ _ _ _ _ _ Hex) as E.
    rewrite E. reflexivity. }
  subst out. unfold Notifier.send_notification. rewrite Hready. cbn [negb fst snd].
  eexists. split; [reflexivity |].
  cbn [Notifier.disable_notification Notifier.outbox]. rewrite Hp.
  unfold Spec.priority_of_score.
  destruct (Z.ltb_spec (Filters.high_threshold car_filter) (Filters.total_score res));
    destruct (Z.leb_spec (Filters.medium_threshold car_filter) (Filters.total_score res));
    cbn; split; intros; try discriminate; try lia; reflexivity.
Qed.

Lemma send_notification_silent_iff_low_witness :
  exists m,
    Notifier.outbox
      (snd (Notifier.send_notification Samples.ready_sender
              (Main.row_of Samples.plain_listing
                 (Main.evaluate_listing Samples.default_filter Samples.plain_listing))
              (Main.evaluate_listing Samples.default_filter Samples.plain_listing)))
    = [(m, true)]
    /\ Notifier.disable_notification m = true.
Proof.
  destruct (send_notification_silent_iff_low Samples.default_filter
              Samples.plain_listing Samples.ready_sender
              (Main.row_of Samples.plain_listing
                 (Main.evaluate_listing Samples.default_filter Samples.plain_listing)))
    as (m & Hout & Hsilent).
  - reflexivity.
  - reflexivity.
  - exists m. split; [exact Hout |]. apply Hsilent. vm_compute. split; [discriminate | reflexivity].
Defined.

(** * Searching every configured model *)

Section SearchAllModels.

Import Scraper Spec.

Variable env : Env.

(** The loop of [_make_request] sends at most one request per attempt. *)
Lemma attempts_requests url method client todo : forall st,
  (requests (snd (attempts env client url method todo st))
   <= requests st + length todo)%nat.
Proof.
  induction todo as [| attempt rest IH]; intros st.
  - cbn. lia.
  - rewrite attempts_cons.
    destruct (answers 200 (server env (requests st))); cbn [snd length].
    + cbn. lia.
    + etrans; [apply IH |].
      destruct (next_fields env url method client attempt st) as (_ & _ & Hreq & _).
      rewrite Hreq. lia.
Qed.

Lemma _make_request_budget url method st :
  max_retries (snd (_make_request env url method st)) = max_retries st
  /\ (requests (snd (_make_request env url method st))
      <= requests st + Z.to_nat (max_retries st))%nat.
Proof.
  rewrite _make_request_unfold.
  destruct (ready_fields env st) as (Hmax & Hreq & _).
  split.
  - rewrite (proj1 (attempts_keeps env url method _ _ _)). exact Hmax.
  - etrans; [apply attempts_requests |].
    rewrite length_range, Hreq. lia.
Qed.

(** One search keeps the retry budget, sends at most [max_retries]
  requests and returns at most [max_results] listings. *)
Lemma search_cars_budget brand model max_price max_km min_year fuel gearbox
  max_results st :
  0 <= max_results ->
  let out :=
    search_cars env brand model max_price max_km min_year fuel gearbox
      max_results st in
  max_retries (snd out) = max_retries st
  /\ (requests (snd out) <= requests st + Z.to_nat (max_retries st))%nat
  /\ (length (fst out) <= Z.to_nat max_results)%nat.
Proof.
  intros Hcap. cbv zeta. unfold search_cars.
  pose proof (_make_request_budget
                (_build_search_url
                   (_build_search_params brand model max_price max_km min_year
                      fuel gearbox)) "GET" st) as [Hmax Hreq].
  destruct (_make_request _ _ _ _) as [[r |] st']; cbn [fst snd] in *.
  - repeat split; try assumption.
    unfold slice_to. destruct (Z.leb_spec 0 max_results); [| lia].
    apply firstn_le_length.
  - repeat split; try assumption. cbn. lia.
Qed.

Variable general : Filters.General.

Lemma fold_search_model (models : list Main.ModelConfig) :
  forall (found : list CarListing) (st : State),
    let out := fold_left (Main.search_model env general) models (found, st) in
    max_retries (snd out) = max_retries st
    /\ (length (fst out) <= length found + 50 * length (with_brand models))%nat
    /\ (requests (snd out)
        <= requests st + Z.to_nat (max_retries st) * length (with_brand models))%nat.
Proof.
  induction models as [| m models IH]; intros found st; cbn [fold_left].
  - cbn. repeat split; lia.
  - unfold with_brand. cbn [List.filter]. fold (with_brand models).
    destruct (Main.search_model env general (found, st) m) as [found1 st1] eqn:Hstep.
    destruct (IH found1 st1) as (Hmax' & Hlen' & Hreq').
    unfold Main.search_model in Hstep. revert Hstep.
    destruct (Py.truthy (default EmptyString (Main.brand m))); cbn [negb].
    + match goal with
      | |- context [search_cars env ?b ?mo ?p ?k ?y ?f ?g 50 st] =>
          pose proof (search_cars_budget b mo p k y f g 50 st ltac:(lia))
            as (Hmax & Hreq & Hlen);
          destruct (search_cars env b mo p k y f g 50 st) as [listings st']
      end.
      cbn [fst snd] in *. intros [= <- <-].
      rewrite length_app in Hlen'. rewrite Hmax in *. cbn [length].
      repeat split; [assumption | lia | nia].
    + intros [= <- <-]. repeat split; assumption.
Qed.

(** X22. [_search_all_models] is bounded by the model list: entries
  without a brand are skipped without any request, and every other entry
  costs at most [max_retries] requests and contributes at most 50
  listings. *)
Theorem _search_all_models_bounds
  (models : list Main.ModelConfig) (st : State) :
  let out := Main._search_all_models env general models st in
  (length (fst out) <= 50 * length (with_brand models))%nat
  /\ (requests (snd out)
      <= requests st + Z.to_nat (max_retries st) * length (with_brand models))%nat.
Proof.
  destruct (fold_search_model models [] st) as (_ & Hlen & Hreq).
  split; [exact Hlen | exact Hreq].
Qed.

End SearchAllModels.

(** * From the search to the database *)

Section Provenance.

Import Main Spec.

Variable car_filter : Filters.CarFilter.

(** A row that a batch adds was built from a listing of the batch. *)
Lemma fold_process_rows (ls : list Scraper.CarListing) : forall (app : App) (c : Z)
  (k : string) (r : Database.Row),
  database app !! k = None ->
  database (fst (fold_left (process_one car_filter) ls (app, c))) !! k = Some r ->
  exists l,
    In l ls /\ Scraper.listing_id l = k
    /\ (r = row_of l (evaluate_listing car_filter l)
        \/ r = Database.set_notified (row_of l (evaluate_listing car_filter l))).
Proof.
  induction ls as [| l ls IH]; intros app c k r Hnew; cbn [fold_left].
  - cbn. congruence.
  - intros Hk.
    destruct (database (fst (process_one car_filter (app, c) l)) !! k)
      as [r' |] eqn:Hstep.
    + destruct (fold_process_grows car_filter ls (process_one car_filter (app, c) l))
        as [Hsub _].
      pose proof (lookup_weaken _ _ _ _ Hstep Hsub) as Hr'.
      assert (r' = r) as -> by congruence.
      exists l. split; [left; reflexivity |].
      revert Hstep.
      destruct (process_one_cases car_filter app c l)
        as [[_ ->] | [(_ & _ & ->)
                     | [(Hid & _ & Hwhy & ->) | (Hid & _ & Hex & _ & ok & ->)]]];
        cbn [fst database].
      * congruence.
      * congruence.
      * rewrite lookup_insert. destruct (decide _) as [<- |]; [| congruence].
        intros [= <-]. auto.
      * rewrite lookup_insert. destruct (decide _) as [<- |]; [| congruence].
        intros [= <-]. destruct ok; auto.
    + destruct (process_one car_filter (app, c) l) as [app' c'] eqn:Hp.
      destruct (IH app' c' k r Hstep Hk) as (l' & Hin & Hrest).
      exists l'. split; [right; exact Hin | exact Hrest].
Qed.

End Provenance.

(** X23. Every row [_process_listings] adds comes from a listing of the
  batch: it is stored under the id of that listing and holds its fields
  (without the raw data), the score, tier, details, exclusion flag and
  reason of its evaluation by the engine, and nothing differs from that
  but the notification flag. *)
Theorem _process_listings_row_provenance
  (car_filter : Filters.CarFilter) (app : Main.App)
  (listings : list Scraper.CarListing) (k : string) (r : Database.Row) :
  Main.database app !! k = None ->
  Main.database (fst (Main._process_listings car_filter app listings)) !! k
  = Some r ->
  exists l,
    In l listings /\ Scraper.listing_id l = k
    /\ (r = Main.row_of l (Main.evaluate_listing car_filter l)
        \/ r = Database.set_notified
                 (Main.row_of l (Main.evaluate_listing car_filter l))).
Proof.
  apply fold_process_rows.
Qed.

Lemma _process_listings_row_provenance_witness :
  exists l,
    In l [Samples.plain_listing; Samples.broken_listing]
    /\ Scraper.listing_id l = "7"
    /\ (Database.set_notified
          (Main.row_of Samples.plain_listing
             (Main.evaluate_listing Samples.sample_filter Samples.plain_listing))
        = Main.row_of l (Main.evaluate_listing Samples.sample_filter l)
        \/ Database.set_notified
             (Main.row_of Samples.plain_listing
                (Main.evaluate_listing Samples.sample_filter Samples.plain_listing))
           = Database.set_notified
               (Main.row_of l (Main.evaluate_listing Samples.sample_filter l))).
Proof.
  apply (_process_listings_row_provenance Samples.sample_filter Samples.empty_app
           [Samples.plain_listing; Samples.broken_listing] "7").
  - reflexivity.
  - vm_compute. reflexivity.
Defined.

Section Cycle.

Import Scraper Spec.

Variable env : Env.
Variable general : Filters.General.

Lemma search_cars_ids brand model max_price max_km min_year fuel gearbox
  max_results st :
  Forall (fun l => listing_id l <> EmptyString)
    (fst (search_cars env brand model max_price max_km min_year fuel gearbox
            max_results st)).
Proof.
  unfold search_cars.
  destruct (_make_request _ _ _ _) as [[r |] st']; cbn [fst]; [| constructor].
  apply Forall_slice_to.
  apply (Forall_filter_keeps _ (fun l => matches_search l brand model)).
  apply _parse_search_results_ids.
Qed.

Lemma fold_search_model_ids (models : list Main.ModelConfig) :
  forall (found : list CarListing) (st : State),
    Forall (fun l => listing_id l <> EmptyString) found ->
    Forall (fun l => listing_id l <> EmptyString)
      (fst (fold_left (Main.search_model env general) models (found, st))).
Proof.
  induction models as [| m models IH]; intros found st Hfound; cbn [fold_left];
    [exact Hfound |].
  destruct (Main.search_model env general (found, st) m) as [found1 st1] eqn:Hstep.
  apply IH. unfold Main.search_model in Hstep. revert Hstep.
  destruct (Py.truthy (default EmptyString (Main.brand m))); cbn [negb].
  - match goal with
    | |- context [search_cars env ?b ?mo ?p ?k ?y ?f ?g 50 st] =>
        pose proof (search_cars_ids b mo p k y f g 50 st) as Hids;
        destruct (search_cars env b mo p k y f g 50 st) as [listings st']
    end.
    cbn [fst] in Hids. intros [= <- <-]. apply Forall_app. split; assumption.
  - intros [= <- <-]. exact Hfound.
Qed.

(** X24. No row is ever stored under an empty id: when the listings that
  [_search_all_models] returns are handed to [_process_listings], as the
  monitoring loop does, a database without a row of empty id stays so,
  whatever the pages answered hold. *)
Theorem search_then_process_no_empty_id
  (models : list Main.ModelConfig) (st : State)
  (car_filter : Filters.CarFilter) (app : Main.App) :
  Main.database app !! EmptyString = None ->
  let listings := fst (Main._search_all_models env general models st) in
  Main.database (fst (Main._process_listings car_filter app listings))
    !! EmptyString = None.
Proof.
  intros Hnew listings.
  destruct (Main.database (fst (Main._process_listings car_filter app listings))
              !! EmptyString) as [r |] eqn:Hrow; [| reflexivity].
  destruct (fold_process_rows car_filter listings app 0 EmptyString r Hnew Hrow)
    as (l & Hin & Hid & _).
  pose proof (fold_search_model_ids models [] st (List.Forall_nil _)) as Hids.
  rewrite List.Forall_forall in Hids. destruct (Hids l Hin Hid).
Qed.

End Cycle.

Lemma search_then_process_no_empty_id_witness :
  let after :=
    fst (Main._process_listings Samples.sample_filter Samples.empty_app
           (fst (Main._search_all_models Samples.env_one_ad
                   (Filters.general Samples.default_criteria)
                   [Samples.no_brand; Samples.mazda_2] Samples.fresh_scraper))) in
  Main.database after !! EmptyString = None
  /\ Database.listing_exists (Main.database after) "123" = true.
Proof.
  split.
  - apply (search_then_process_no_empty_id Samples.env_one_ad
             (Filters.general Samples.default_criteria)
             [Samples.no_brand; Samples.mazda_2] Samples.fresh_scraper
             Samples.sample_filter Samples.empty_app).
    reflexivity.
  - vm_compute. reflexivity.
Defined.
